(** * mi-negocio-web: pricing, expiry and record store

    A shallow embedding of the inventory manager's storage layer
    (the in-memory [MemStorage] and the relational [DatabaseStorage]),
    of the validation schemas and of the request handlers, with
    the host's built-ins they rely on: IEEE-754 binary64 numbers with
    [parseFloat], [toFixed] and [toString]; strings with [toUpperCase]
    and [includes]; dates with [getDate] and [setDate]; arrays with
    [find], [findIndex], [filter], [sort], [slice] and [splice].

    Conventions.
    - A JavaScript number is a [spec_float] at precision 53; identifiers
      and array lengths, which stay far below 2^53, are integers.
    - A string is a sequence of 8-bit code units; case mapping touches
      ASCII letters only, and white space is ASCII white space.
    - The wall clock is read by [new Date()]; every reading is an
      explicit argument (a time value in milliseconds since the epoch),
      one argument per read in the source.
    - [undefined] in an optional input field and [null] in a stored
      field are both [None]. *)

From Stdlib Require Import ZArith NArith QArith Qround List String Ascii Bool Lia.
From Stdlib Require Import Sorted Permutation.
From Stdlib Require Import Floats.SpecFloat DecimalString DecimalPos DecimalN.
From stdpp Require Import base list.

Import ListNotations.
Open Scope string_scope.
Open Scope Z_scope.

(** ** Numbers *)

Module JSNumber.

Definition prec : Z := 53.
Definition emax : Z := 1024.
Definition number := spec_float.

Definition NaN : number := S754_nan.
Definition add : number -> number -> number := SFadd prec emax.
Definition mul : number -> number -> number := SFmul prec emax.
Definition div : number -> number -> number := SFdiv prec emax.
Definition ltb : number -> number -> bool := SFltb.
Definition of_Z (z : Z) : number := binary_normalize prec emax z 0 false.

Definition isNaN (x : number) : bool :=
  match x with S754_nan => true | _ => false end.

(** ToBoolean on a number: [+0], [-0] and [NaN] are falsy. *)
Definition truthy (x : number) : bool :=
  match x with S754_zero _ | S754_nan => false | _ => true end.

(** The number nearest to [d * 10^e], ties to even. *)
Definition of_decimal (neg : bool) (d : N) (e : Z) : number :=
  match d with
  | N0 => S754_zero neg
  | Npos p =>
      if 0 <=? e
      then binary_round prec emax neg (Z.to_pos (Zpos p * 10 ^ e)) 0
      else SFdiv prec emax (S754_finite neg p 0)
                 (S754_finite false (Z.to_pos (10 ^ (- e))) 0)
  end.

(** SameValue: [NaN] is itself, [+0] is not [-0]. *)
Definition same (x y : number) : bool :=
  match x, y with
  | S754_nan, S754_nan => true
  | S754_zero a, S754_zero b => Bool.eqb a b
  | S754_infinity a, S754_infinity b => Bool.eqb a b
  | S754_finite a m e, S754_finite b m' e' =>
      Bool.eqb a b && Pos.eqb m m' && Z.eqb e e'
  | _, _ => false
  end.

(** A finite magnitude [m * 2^e] as the fraction [mag_num / mag_den]. *)
Definition mag_num (m : positive) (e : Z) : Z :=
  if 0 <=? e then Zpos m * 2 ^ e else Zpos m.
Definition mag_den (e : Z) : Z :=
  if 0 <=? e then 1 else 2 ^ (- e).

(** [floor ((a/b) * 10^q)] *)
Definition scaled_floor (a b q : Z) : Z :=
  if 0 <=? q then (a * 10 ^ q) / b else a / (b * 10 ^ (- q)).

Definition digits_of (n : Z) : string :=
  NilZero.string_of_uint (N.to_uint (Z.to_N n)).

Fixpoint zeros (n : nat) : string :=
  match n with O => "" | S k => String "0" (zeros k) end.

Definition str_take (n : nat) (s : string) : string := substring 0 n s.
Definition str_drop (n : nat) (s : string) : string :=
  substring n (String.length s - n) s.

(** The decimal exponent [n] with [10^(n-1) <= a/b < 10^n], reached
    from a base-2 estimate. *)
Fixpoint adjust_exp (fuel : nat) (a b n : Z) : Z :=
  match fuel with
  | O => n
  | S f =>
      if 1 <=? scaled_floor a b (- n) then adjust_exp f a b (n + 1)
      else if scaled_floor a b (1 - n) =? 0 then adjust_exp f a b (n - 1)
      else n
  end.

Definition dec_exponent (a b : Z) : Z :=
  adjust_exp 8 a b (((Z.log2 a - Z.log2 b) * 1233) / 4096).

(** [2 * (a/b) <= (2*lo + 1) * 10^q]: the lower candidate is at least
    as near as the upper one. *)
Definition lower_nearer (a b lo q : Z) : bool :=
  if 0 <=? q then 2 * a <=? (2 * lo + 1) * 10 ^ q * b
  else 2 * a * 10 ^ (- q) <=? (2 * lo + 1) * b.

(** Number::toString picks the least digit count [k] for which some
    [s * 10^(n-k)] reads back as [x]; seventeen digits always do. *)
Fixpoint shortest (fuel : nat) (x : number) (a b n k : Z) : Z * Z :=
  let q := n - k in
  let lo := scaled_floor a b (- q) in
  let hi := lo + 1 in
  let ok s := same (of_decimal false (Z.to_N s) q) x in
  let near := if lower_nearer a b lo q then lo else hi in
  match fuel with
  | O => (near, q)
  | S f =>
      if ok lo && ok hi then (near, q)
      else if ok lo then (lo, q)
      else if ok hi then (hi, q)
      else shortest f x a b n (k + 1)
  end.

Fixpoint strip_zeros (fuel : nat) (s q : Z) : Z * Z :=
  match fuel with
  | O => (s, q)
  | S f =>
      if (s mod 10 =? 0) && negb (s =? 0)
      then strip_zeros f (s / 10) (q + 1) else (s, q)
  end.

(** Number::toString(x, 10) for a positive finite [x = m * 2^e]. *)
Definition toString_pos (m : positive) (e : Z) : string :=
  let a := mag_num m e in
  let b := mag_den e in
  let '(s0, q0) := shortest 16 (S754_finite false m e) a b (dec_exponent a b) 1 in
  let '(s, q) := strip_zeros 400 s0 q0 in
  let ds := digits_of s in
  let k := Z.of_nat (String.length ds) in
  let n := k + q in
  if (k <=? n) && (n <=? 21) then
    String.append ds (zeros (Z.to_nat (n - k)))
  else if (0 <? n) && (n <=? 21) then
    String.append (str_take (Z.to_nat n) ds)
      (String.append "." (str_drop (Z.to_nat n) ds))
  else if (-6 <? n) && (n <=? 0) then
    String.append "0." (String.append (zeros (Z.to_nat (- n))) ds)
  else
    let ex := n - 1 in
    let tail :=
      String.append "e"
        (String.append (if ex <? 0 then "-" else "+") (digits_of (Z.abs ex))) in
    if k =? 1 then String.append ds tail
    else String.append (str_take 1 ds)
           (String.append "." (String.append (str_drop 1 ds) tail)).

Definition toString (x : number) : string :=
  match x with
  | S754_nan => "NaN"
  | S754_zero _ => "0"
  | S754_infinity s => if s then "-Infinity" else "Infinity"
  | S754_finite s m e =>
      String.append (if s then "-" else "") (toString_pos m e)
  end.

(** The integer [n] for which [n / 100 - m * 2^e] is nearest to zero,
    the larger one when two are equally near. *)
Definition round_hundredths (m : positive) (e : Z) : Z :=
  if 0 <=? e then 100 * Zpos m * 2 ^ e
  else (200 * Zpos m + 2 ^ (- e)) / 2 ^ (1 - e).

Definition fixed2_digits (n : Z) : string :=
  let ds := digits_of n in
  let k := String.length ds in
  let ds := if (k <=? 2)%nat then String.append (zeros (3 - k)) ds else ds in
  let k := String.length ds in
  String.append (str_take (k - 2) ds) (String.append "." (str_drop (k - 2) ds)).

(** Number.prototype.toFixed(2) *)
Definition toFixed2 (x : number) : string :=
  match x with
  | S754_finite s m e =>
      if 10 ^ 21 * mag_den e <=? mag_num m e then toString x
      else String.append (if s then "-" else "")
             (fixed2_digits (round_hundredths m e))
  | S754_zero _ => "0.00"
  | _ => toString x
  end.

Definition is_digit (c : ascii) : bool :=
  let n := N_of_ascii c in ((48 <=? n) && (n <=? 57))%N.
Definition digit_val (c : ascii) : N := (N_of_ascii c - 48)%N.
Definition is_space (c : ascii) : bool :=
  let n := N_of_ascii c in ((9 <=? n) && (n <=? 13) || (n =? 32))%N.

Fixpoint trim_start (s : string) : string :=
  match s with
  | String c r => if is_space c then trim_start r else s
  | EmptyString => s
  end.

(** A maximal run of digits: its value, its length, what follows. *)
Fixpoint read_digits (acc : N) (len : nat) (s : string) : N * nat * string :=
  match s with
  | String c r =>
      if is_digit c then read_digits (10 * acc + digit_val c)%N (S len) r
      else (acc, len, s)
  | EmptyString => (acc, len, s)
  end.

Definition read_exponent (s : string) : Z :=
  match s with
  | String c r =>
      if (Ascii.eqb c "e" || Ascii.eqb c "E")%bool then
        let '(neg, r') :=
          match r with
          | String "+" t => (false, t)
          | String "-" t => (true, t)
          | _ => (false, r)
          end in
        let '(v, len, _) := read_digits 0 0 r' in
        match len with
        | O => 0
        | _ => if neg then - Z.of_N v else Z.of_N v
        end
      else 0
  | EmptyString => 0
  end.

Definition parse_unsigned (neg : bool) (s : string) : number :=
  if String.prefix "Infinity" s then S754_infinity neg
  else
    let '(ip, ilen, r) := read_digits 0 0 s in
    let '(v, flen, r') :=
      match r with
      | String "." t =>
          let '(v, tot, t') := read_digits ip ilen t in
          (v, (tot - ilen)%nat, t')
      | _ => (ip, O, r)
      end in
    match (ilen + flen)%nat with
    | O => NaN
    | _ => of_decimal neg v (read_exponent r' - Z.of_nat flen)
    end.

(** parseFloat: the longest prefix that is a decimal literal, after
    leading white space; [NaN] when there is none. *)
Definition parseFloat (input : string) : number :=
  match trim_start input with
  | String "+" r => parse_unsigned false r
  | String "-" r => parse_unsigned true r
  | s => parse_unsigned false s
  end.

End JSNumber.

(** ** Strings *)

Module JSString.

Definition upper_char (c : ascii) : ascii :=
  let n := N_of_ascii c in
  if ((97 <=? n) && (n <=? 122))%N then ascii_of_N (n - 32) else c.

Fixpoint toUpperCase (s : string) : string :=
  match s with
  | EmptyString => EmptyString
  | String c r => String (upper_char c) (toUpperCase r)
  end.

(** [s.includes(t)] *)
Fixpoint includes (s t : string) : bool :=
  String.prefix t s ||
  match s with
  | EmptyString => false
  | String _ r => includes r t
  end.

(** ToBoolean on a string: only the empty string is falsy. *)
Definition truthy (s : string) : bool :=
  match s with EmptyString => false | _ => true end.

End JSString.

(** ** The host: local time zone and collation *)

Class Host := {
  (** LocalTZA(t, isUTC): the local offset in milliseconds *)
  LocalTZA : Z -> bool -> Z;
  (** String.prototype.localeCompare *)
  localeCompare : string -> string -> Z
}.

(** ** Dates *)

Inductive Date :=
| TimeValue (t : Z)
| InvalidDate.

Module JSDate.

Definition msPerDay : Z := 86400000.
Definition Day (t : Z) : Z := t / msPerDay.
Definition TimeWithinDay (t : Z) : Z := t mod msPerDay.

Definition DaysInYear (y : Z) : Z :=
  if negb (y mod 4 =? 0) then 365
  else if negb (y mod 100 =? 0) then 366
  else if negb (y mod 400 =? 0) then 365
  else 366.

Definition DayFromYear (y : Z) : Z :=
  365 * (y - 1970) + (y - 1969) / 4 - (y - 1901) / 100 + (y - 1601) / 400.

Fixpoint year_search (fuel : nat) (d y : Z) : Z :=
  match fuel with
  | O => y
  | S f => if DayFromYear (y + 1) <=? d then year_search f d (y + 1) else y
  end.

(** The largest [y] whose first day is not after [t]. *)
Definition YearFromTime (t : Z) : Z :=
  let d := Day t in
  year_search 1000 d (1970 + (if 0 <=? d then d / 366 else d / 365)).

Definition InLeapYear (t : Z) : Z :=
  if DaysInYear (YearFromTime t) =? 366 then 1 else 0.

Definition DayWithinYear (t : Z) : Z := Day t - DayFromYear (YearFromTime t).

(** Days of the year before month [m] (0 is January), [l] being 1 in
    a leap year. *)
Definition DaysBeforeMonth (m l : Z) : Z :=
  match m with
  | 0 => 0 | 1 => 31 | 2 => 59 + l | 3 => 90 + l | 4 => 120 + l
  | 5 => 151 + l | 6 => 181 + l | 7 => 212 + l | 8 => 243 + l
  | 9 => 273 + l | 10 => 304 + l | _ => 334 + l
  end.

Definition MonthFromTime (t : Z) : Z :=
  let d := DayWithinYear t in
  let l := InLeapYear t in
  if d <? 31 then 0 else if d <? 59 + l then 1 else if d <? 90 + l then 2
  else if d <? 120 + l then 3 else if d <? 151 + l then 4
  else if d <? 181 + l then 5 else if d <? 212 + l then 6
  else if d <? 243 + l then 7 else if d <? 273 + l then 8
  else if d <? 304 + l then 9 else if d <? 334 + l then 10 else 11.

Definition DateFromTime (t : Z) : Z :=
  DayWithinYear t - DaysBeforeMonth (MonthFromTime t) (InLeapYear t) + 1.

Definition MakeDay (year month date : Z) : Z :=
  let ym := year + month / 12 in
  let mn := month mod 12 in
  DayFromYear ym
  + DaysBeforeMonth mn (if DaysInYear ym =? 366 then 1 else 0)
  + date - 1.

Definition MakeDate (day time : Z) : Z := day * msPerDay + time.

Definition TimeClip (time : Z) : Date :=
  if 8640000000000000 <? Z.abs time then InvalidDate else TimeValue time.

Definition getTime (d : Date) : option Z :=
  match d with TimeValue t => Some t | InvalidDate => None end.

(** [a > b] on two dates compares their time values; it is false when
    either is invalid. *)
Definition gt (a b : Date) : bool :=
  match a, b with
  | TimeValue x, TimeValue y => y <? x
  | _, _ => false
  end.

(** [new Date(v)] for a stored date or [null]; [null] is the epoch. *)
Definition of_value (v : option Date) : Date :=
  match v with
  | Some d => d
  | None => TimeValue 0
  end.

Section Local.
Context `{Host}.

Definition LocalTime (t : Z) : Z := t + LocalTZA t true.
Definition UTC (t : Z) : Z := t - LocalTZA t false.

(** Date.prototype.getDate on a valid date *)
Definition getDate (t : Z) : Z := DateFromTime (LocalTime t).

(** Date.prototype.setDate on a valid date *)
Definition setDate (t dt : Z) : Date :=
  let lt := LocalTime t in
  TimeClip (UTC (MakeDate (MakeDay (YearFromTime lt) (MonthFromTime lt) dt)
                          (TimeWithinDay lt))).

End Local.

End JSDate.

(** ** Arrays *)

Module JSArray.

Section Ops.
Context {A : Type}.

(** [findIndex]; [None] stands for -1. *)
Fixpoint findIndex (f : A -> bool) (l : list A) : option nat :=
  match l with
  | [] => None
  | x :: r => if f x then Some O else option_map S (findIndex f r)
  end.

Fixpoint sort_insert (cmp : A -> A -> Z) (x : A) (l : list A) : list A :=
  match l with
  | [] => [x]
  | y :: r => if cmp x y <=? 0 then x :: l else y :: sort_insert cmp x r
  end.

(** [sort(cmp)]: the stable sort, here by insertion. *)
Definition sort (cmp : A -> A -> Z) (l : list A) : list A :=
  fold_right (sort_insert cmp) [] l.

End Ops.

End JSArray.

(** [a || b] on optional values, [truthy] telling which present values
    count as true. *)
Definition or_else {A : Type} (truthy : A -> bool) (a b : option A) : option A :=
  match a with
  | Some x => if truthy x then Some x else b
  | None => b
  end.

(** ** Data model (shared/schema.ts, the variant with per-product
    margin, optional fields and permanent announcements) *)

Module User.
Record t := { id : Z; username : string; password : string }.
End User.

Module InsertUser.
Record t := { username : string; password : string }.
End InsertUser.

Module Product.
Record t := {
  id : Z;
  name : string;
  barcode : option string;
  purchasePrice : string;
  salePrice : string;
  profitMargin : string;
  buyerName : option string;
  stock : option JSNumber.number;
  minStock : option JSNumber.number;
  createdAt : Date;
  updatedAt : Date
}.
End Product.

(** The inferred type of [insertProductSchema]; [updateProductSchema]
    infers the same shape. *)
Module InsertProduct.
Record t := {
  name : string;
  barcode : option string;
  purchasePrice : string;
  profitMargin : option string;
  buyerName : option string;
  stock : option JSNumber.number;
  minStock : option JSNumber.number
}.
End InsertProduct.

Module UpdateProduct.
Definition t := InsertProduct.t.
End UpdateProduct.

Module BusinessNews.
Record t := {
  id : Z;
  title : string;
  content : string;
  isPermanent : bool;
  createdAt : Date;
  expiresAt : option Date
}.
End BusinessNews.

Module InsertBusinessNews.
Record t := {
  title : string;
  content : string;
  isPermanent : option bool
}.
End InsertBusinessNews.

(** ** Validation (the refinements of the zod schemas) *)

Module Schema.

Definition issue : Type := string * string.

Definition check (ok : bool) (path message : string) : list issue :=
  if ok then [] else [(path, message)].

Definition positive_price (val : string) : bool :=
  negb (JSNumber.isNaN (JSNumber.parseFloat val))
  && JSNumber.ltb (JSNumber.of_Z 0) (JSNumber.parseFloat val).

Definition insertProductSchema (data : InsertProduct.t) : list issue :=
  let name := InsertProduct.name data in
  let price := InsertProduct.purchasePrice data in
  (check (1 <=? String.length name)%nat "name" "Product name is required"
   ++ check (String.eqb name (JSString.toUpperCase name))
        "name" "Product name must be in uppercase")
  ++ (check (1 <=? String.length price)%nat
        "purchasePrice" "Purchase price is required"
      ++ check (positive_price price)
           "purchasePrice" "Purchase price must be a positive number").

Definition updateProductSchema (data : UpdateProduct.t) : list issue :=
  insertProductSchema data.

End Schema.

(** ** The in-memory store *)

Module MemStorage.

Record t := {
  users : list User.t;
  products : list Product.t;
  businessNews : list BusinessNews.t;
  nextUserId : Z;
  nextProductId : Z;
  nextNewsId : Z
}.

(** [new MemStorage()] *)
Definition storage : t :=
  {| users := []; products := []; businessNews := [];
     nextUserId := 1; nextProductId := 1; nextNewsId := 1 |}.

Definition with_products (l : list Product.t) (n : Z) (st : t) : t :=
  {| users := users st; products := l; businessNews := businessNews st;
     nextUserId := nextUserId st; nextProductId := n;
     nextNewsId := nextNewsId st |}.

Definition with_businessNews (l : list BusinessNews.t) (n : Z) (st : t) : t :=
  {| users := users st; products := products st; businessNews := l;
     nextUserId := nextUserId st; nextProductId := nextProductId st;
     nextNewsId := n |}.

Definition getUser (id : Z) (st : t) : option User.t :=
  List.find (fun user => User.id user =? id) (users st).

Definition getUserByUsername (username : string) (st : t) : option User.t :=
  List.find (fun user => String.eqb (User.username user) username) (users st).

Definition createUser (insertUser : InsertUser.t) (st : t) : User.t * t :=
  let user :=
    {| User.id := nextUserId st;
       User.username := InsertUser.username insertUser;
       User.password := InsertUser.password insertUser |} in
  (user,
   {| users := users st ++ [user]; products := products st;
      businessNews := businessNews st; nextUserId := nextUserId st + 1;
      nextProductId := nextProductId st; nextNewsId := nextNewsId st |}).

(** [purchasePrice * (1 + profitMargin / 100)).toFixed(2)], the
    expression shared by [createProduct] and [updateProduct]. *)
Definition salePrice_of (purchasePrice profitMargin : JSNumber.number) : string :=
  JSNumber.toFixed2
    (JSNumber.mul purchasePrice
       (JSNumber.add (JSNumber.of_Z 1)
          (JSNumber.div profitMargin (JSNumber.of_Z 100)))).

(** [profitMargin ? parseFloat(profitMargin) : fallback] *)
Definition margin_or (profitMargin : option string) (fallback : JSNumber.number)
  : JSNumber.number :=
  match profitMargin with
  | Some m => if JSString.truthy m then JSNumber.parseFloat m else fallback
  | None => fallback
  end.

Definition has_id (id : Z) (product : Product.t) : bool :=
  Product.id product =? id.

Definition getProductById (id : Z) (st : t) : option Product.t :=
  List.find (has_id id) (products st).

Definition getProductByName (name : string) (st : t) : option Product.t :=
  List.find (fun product => String.eqb (Product.name product) name)
    (products st).

Definition createProduct (now : Z) (insertProduct : InsertProduct.t) (st : t)
  : Product.t * t :=
  let purchasePrice :=
    JSNumber.parseFloat (InsertProduct.purchasePrice insertProduct) in
  let profitMargin :=
    margin_or (InsertProduct.profitMargin insertProduct) (JSNumber.of_Z 20) in
  let salePrice := salePrice_of purchasePrice profitMargin in
  let product :=
    {| Product.id := nextProductId st;
       Product.name := InsertProduct.name insertProduct;
       Product.barcode :=
         or_else JSString.truthy (InsertProduct.barcode insertProduct) None;
       Product.purchasePrice := InsertProduct.purchasePrice insertProduct;
       Product.salePrice := salePrice;
       Product.profitMargin := JSNumber.toString profitMargin;
       Product.buyerName :=
         or_else JSString.truthy (InsertProduct.buyerName insertProduct) None;
       Product.stock :=
         or_else JSNumber.truthy (InsertProduct.stock insertProduct) None;
       Product.minStock :=
         or_else JSNumber.truthy (InsertProduct.minStock insertProduct) None;
       Product.createdAt := TimeValue now;
       Product.updatedAt := TimeValue now |} in
  (product, with_products (products st ++ [product]) (nextProductId st + 1) st).

Definition updateProduct (now : Z) (id : Z) (updateProduct : UpdateProduct.t)
    (st : t) : option Product.t * t :=
  match JSArray.findIndex (has_id id) (products st) with
  | None => (None, st)
  | Some index =>
      match products st !! index with
      | None => (None, st)
      | Some old =>
          let purchasePrice :=
            JSNumber.parseFloat (InsertProduct.purchasePrice updateProduct) in
          let profitMargin :=
            margin_or (InsertProduct.profitMargin updateProduct)
              (JSNumber.parseFloat (Product.profitMargin old)) in
          let salePrice := salePrice_of purchasePrice profitMargin in
          let product :=
            {| Product.id := Product.id old;
               Product.name := InsertProduct.name updateProduct;
               Product.barcode :=
                 or_else JSString.truthy (InsertProduct.barcode updateProduct)
                   (Product.barcode old);
               Product.purchasePrice :=
                 InsertProduct.purchasePrice updateProduct;
               Product.salePrice := salePrice;
               Product.profitMargin := JSNumber.toString profitMargin;
               Product.buyerName :=
                 or_else JSString.truthy
                   (InsertProduct.buyerName updateProduct)
                   (Product.buyerName old);
               Product.stock :=
                 match InsertProduct.stock updateProduct with
                 | Some v => Some v
                 | None => Product.stock old
                 end;
               Product.minStock :=
                 match InsertProduct.minStock updateProduct with
                 | Some v => Some v
                 | None => Product.minStock old
                 end;
               Product.createdAt := Product.createdAt old;
               Product.updatedAt := TimeValue now |} in
          (Some product,
           with_products (<[index := product]> (products st))
             (nextProductId st) st)
      end
  end.

Definition deleteProduct (id : Z) (st : t) : bool * t :=
  match JSArray.findIndex (has_id id) (products st) with
  | None => (false, st)
  | Some index =>
      (true, with_products (delete index (products st)) (nextProductId st) st)
  end.

(** The filter callback of [getAllBusinessNews]. *)
Definition shown (now : Z) (news : BusinessNews.t) : bool :=
  BusinessNews.isPermanent news
  || match BusinessNews.expiresAt news with
     | Some d => JSDate.gt (JSDate.of_value (Some d)) (TimeValue now)
     | None => false
     end.

(** The comparator of [getAllBusinessNews]; a [NaN] difference counts
    as zero in [sort]. *)
Definition by_createdAt (a b : BusinessNews.t) : Z :=
  match JSDate.getTime (BusinessNews.createdAt a),
        JSDate.getTime (BusinessNews.createdAt b) with
  | Some x, Some y => x - y
  | _, _ => 0
  end.

Definition getAllBusinessNews (now : Z) (st : t) : list BusinessNews.t :=
  JSArray.sort by_createdAt (List.filter (shown now) (businessNews st)).

Definition has_news_id (id : Z) (news : BusinessNews.t) : bool :=
  BusinessNews.id news =? id.

Definition deleteBusinessNews (id : Z) (st : t) : bool * t :=
  match JSArray.findIndex (has_news_id id) (businessNews st) with
  | None => (false, st)
  | Some index =>
      (true, with_businessNews (delete index (businessNews st))
               (nextNewsId st) st)
  end.

(** The filter callback of [deleteExpiredNews]: what the sweep keeps. *)
Definition kept (now : Z) (news : BusinessNews.t) : bool :=
  JSDate.gt (JSDate.of_value (BusinessNews.expiresAt news)) (TimeValue now).

Definition deleteExpiredNews (now : Z) (st : t) : Z * t :=
  let initialLength := Z.of_nat (length (businessNews st)) in
  let remaining := List.filter (kept now) (businessNews st) in
  (initialLength - Z.of_nat (length remaining),
   with_businessNews remaining (nextNewsId st) st).

Section WithHost.
Context `{Host}.

Definition by_name (a b : Product.t) : Z :=
  localeCompare (Product.name a) (Product.name b).

Definition getAllProducts (st : t) : list Product.t :=
  JSArray.sort by_name (products st).

Definition matches (query : string) (product : Product.t) : bool :=
  JSString.includes (Product.name product) (JSString.toUpperCase query).

Definition searchProducts (query : string) (st : t) : list Product.t :=
  take 10 (JSArray.sort by_name (List.filter (matches query) (products st))).

(** [now] is the reading stored as [createdAt]; [now'] is the later
    reading from which [expiresAt] is built. *)
Definition createBusinessNews (now now' : Z) (insertNews : InsertBusinessNews.t)
    (st : t) : BusinessNews.t * t :=
  let permanent :=
    match InsertBusinessNews.isPermanent insertNews with
    | Some b => b
    | None => false
    end in
  let expiresAt :=
    if negb permanent
    then Some (JSDate.setDate now' (JSDate.getDate now' + 3))
    else None in
  let news :=
    {| BusinessNews.id := nextNewsId st;
       BusinessNews.title := InsertBusinessNews.title insertNews;
       BusinessNews.content := InsertBusinessNews.content insertNews;
       BusinessNews.isPermanent := permanent;
       BusinessNews.createdAt := TimeValue now;
       BusinessNews.expiresAt := expiresAt |} in
  (news, with_businessNews (businessNews st ++ [news]) (nextNewsId st + 1) st).

End WithHost.

End MemStorage.

(** ** The relational store (server/storage.ts)

    This class goes with the schema that has no per-product margin, no
    optional product fields and no permanent announcement.  A table is
    the list of its rows; [where] keeps the rows that satisfy the
    condition, [orderBy(asc(...))] sorts them, [limit] takes a prefix,
    [rowCount] is the number of rows a statement touched.  For a write,
    what the class computes itself is the record handed to
    [insert(...).values(...)] or [update(...).set(...)]. *)

(** The outcome of a call to the database: the value its promise
    resolves to, or the rejection of the promise when the statement
    fails. *)
Inductive Promise (A : Type) : Type :=
| Resolved (value : A)
| Rejected.

Arguments Resolved {A} value.
Arguments Rejected {A}.

Module DatabaseStorage.

Module ProductRow.
Record t := {
  id : Z;
  name : string;
  purchasePrice : string;
  salePrice : string;
  createdAt : Date;
  updatedAt : Date
}.
End ProductRow.

Module NewsRow.
Record t := {
  id : Z;
  title : string;
  content : string;
  createdAt : Date;
  expiresAt : Date
}.
End NewsRow.

(** [s LIKE pattern]: [%] stands for any run of characters, [_] for
    any one character, a backslash makes the next character literal;
    the whole of [s] must match.  (A pattern ending in a lone
    backslash is refused by the database; it matches nothing here.) *)
Fixpoint like (pattern s : string) {struct pattern} : bool :=
  match pattern with
  | EmptyString =>
      match s with EmptyString => true | String _ _ => false end
  | String "%" p =>
      (fix skip (s : string) : bool :=
         like p s
         || match s with
            | EmptyString => false
            | String _ r => skip r
            end) s
  | String "_" p =>
      match s with EmptyString => false | String _ r => like p r end
  | String "\" (String c p) =>
      match s with
      | EmptyString => false
      | String d r => Ascii.eqb c d && like p r
      end
  | String "\" EmptyString => false
  | String c p =>
      match s with
      | EmptyString => false
      | String d r => Ascii.eqb c d && like p r
      end
  end.

(** [lt(a, b)] on two timestamps *)
Definition lt (a b : Date) : bool := JSDate.gt b a.

Definition by_createdAt (a b : NewsRow.t) : Z :=
  match JSDate.getTime (NewsRow.createdAt a),
        JSDate.getTime (NewsRow.createdAt b) with
  | Some x, Some y => x - y
  | _, _ => 0
  end.

(** The [id] columns are [serial], 32-bit signed integers: a statement
    whose [id] parameter is outside that range fails. *)
Definition int4 (id : Z) : bool := (- 2 ^ 31 <=? id) && (id <? 2 ^ 31).

Definition getProductById (id : Z) (rows : list ProductRow.t)
  : Promise (option ProductRow.t) :=
  if int4 id then Resolved (List.find (fun row => ProductRow.id row =? id) rows)
  else Rejected.

Definition getProductByName (name : string) (rows : list ProductRow.t)
  : option ProductRow.t :=
  List.find (fun row => String.eqb (ProductRow.name row) name) rows.

(** The condition of [searchProducts]. *)
Definition matches (query : string) (row : ProductRow.t) : bool :=
  like (String.append "%" (String.append (JSString.toUpperCase query) "%"))
    (ProductRow.name row).

Section Ordered.
(** The order the database gives to text. *)
Variable collate : string -> string -> Z.

Definition by_name (a b : ProductRow.t) : Z :=
  collate (ProductRow.name a) (ProductRow.name b).

Definition getAllProducts (rows : list ProductRow.t) : list ProductRow.t :=
  JSArray.sort by_name rows.

Definition searchProducts (query : string) (rows : list ProductRow.t)
  : list ProductRow.t :=
  take 10 (JSArray.sort by_name (List.filter (matches query) rows)).

End Ordered.

Definition deleteProduct (id : Z) (rows : list ProductRow.t)
  : Promise (bool * list ProductRow.t) :=
  if int4 id then
    let remaining :=
      List.filter (fun row => negb (ProductRow.id row =? id)) rows in
    Resolved (0 <? Z.of_nat (length rows) - Z.of_nat (length remaining),
              remaining)
  else Rejected.

Section Listing.
Context `{Host}.

(** [lt(new Date(), businessNews.expiresAt)].  With the date on the
    left, the operator binds it to no column: it reaches the driver as
    a [Date], which the driver writes out in local time, and the
    database, reading it as a timestamp without time zone, takes the
    local wall-clock reading.  The column holds the UTC wall-clock
    reading of [expiresAt].  The two are compared as they are. *)
Definition getAllBusinessNews (now : Z) (rows : list NewsRow.t)
  : list NewsRow.t :=
  JSArray.sort by_createdAt
    (List.filter
       (fun row => lt (TimeValue (JSDate.LocalTime now)) (NewsRow.expiresAt row))
       rows).

End Listing.

Definition deleteBusinessNews (id : Z) (rows : list NewsRow.t)
  : Promise (bool * list NewsRow.t) :=
  if int4 id then
    let remaining := List.filter (fun row => negb (NewsRow.id row =? id)) rows in
    Resolved (0 <? Z.of_nat (length rows) - Z.of_nat (length remaining),
              remaining)
  else Rejected.

(** [lt(businessNews.expiresAt, new Date())]: here the date is bound to
    the column and written as the column is, so instants are
    compared. *)

Definition deleteExpiredNews (now : Z) (rows : list NewsRow.t)
  : Z * list NewsRow.t :=
  let remaining :=
    List.filter (fun row => negb (lt (NewsRow.expiresAt row) (TimeValue now)))
      rows in
  (Z.of_nat (length rows) - Z.of_nat (length remaining), remaining).

(** The literal [1.2] *)
Definition margin_factor : JSNumber.number := JSNumber.of_decimal false 12 (-1).

Definition salePrice_of (purchasePrice : JSNumber.number) : string :=
  JSNumber.toFixed2 (JSNumber.mul purchasePrice margin_factor).

Record product_values := {
  name : string;
  purchasePrice : string;
  salePrice : string;
  updatedAt : Date
}.

(** The values inserted by [createProduct] and set by [updateProduct]. *)
Definition createProduct (now : Z) (insertProduct : InsertProduct.t)
  : product_values :=
  {| name := InsertProduct.name insertProduct;
     purchasePrice := InsertProduct.purchasePrice insertProduct;
     salePrice :=
       salePrice_of
         (JSNumber.parseFloat (InsertProduct.purchasePrice insertProduct));
     updatedAt := TimeValue now |}.

Definition updateProduct (now : Z) (updateProduct : UpdateProduct.t)
  : product_values :=
  createProduct now updateProduct.

Record news_values := {
  title : string;
  content : string;
  expiresAt : Date
}.

Section WithHost.
Context `{Host}.

(** The values inserted by [createBusinessNews]; [createdAt] is filled
    in by the database. *)
Definition createBusinessNews (now : Z) (insertNews : InsertBusinessNews.t)
  : news_values :=
  {| title := InsertBusinessNews.title insertNews;
     content := InsertBusinessNews.content insertNews;
     expiresAt := JSDate.setDate now (JSDate.getDate now + 3) |}.

End WithHost.

End DatabaseStorage.

(** ** Request handlers (server/routes.ts) over the in-memory store *)

Module Routes.

Inductive Body :=
| NoBody
| Message (message : string)
| ValidationError (errors : list Schema.issue)
| ProductJson (product : option Product.t)
| ProductsJson (products : list Product.t)
| NewsJson (news : BusinessNews.t)
| NewsListJson (news : list BusinessNews.t)
| DeletedCount (deletedCount : Z)
| Stats (totalProducts activeNews : Z) (lastUpdate : Date).

Record Response := { status : Z; body : Body }.

Definition sendStatus (code : Z) : Response := {| status := code; body := NoBody |}.
Definition json (code : Z) (b : Body) : Response := {| status := code; body := b |}.

(** A request: the route, the clock readings its handler takes, the
    result of [parseInt(req.params.id)] ([None] for [NaN]) and the
    body, already of the shape the schema expects. *)
Inductive Request :=
| GetProducts
| SearchProducts (q : option string)
| GetProduct (id : option Z)
| PostProduct (now : Z) (data : InsertProduct.t)
| PutProduct (now : Z) (id : option Z) (data : UpdateProduct.t)
| DeleteProduct (id : option Z)
| GetNews (now : Z)
| PostNews (now now' : Z) (data : InsertBusinessNews.t)
| DeleteNews (id : option Z)
| CleanupNews (now : Z)
| GetStats (now now' : Z).

Definition duplicate_name : Response :=
  json 400 (Message "Product with this name already exists").

Section WithHost.
Context `{Host}.

Definition post_product (now : Z) (data : InsertProduct.t) (st : MemStorage.t)
  : Response * MemStorage.t :=
  match Schema.insertProductSchema data with
  | (_ :: _) as errors => (json 400 (ValidationError errors), st)
  | [] =>
      match MemStorage.getProductByName (InsertProduct.name data) st with
      | Some _ => (duplicate_name, st)
      | None =>
          let '(product, st') := MemStorage.createProduct now data st in
          (json 201 (ProductJson (Some product)), st')
      end
  end.

Definition put_product (now : Z) (id : option Z) (data : UpdateProduct.t)
    (st : MemStorage.t) : Response * MemStorage.t :=
  match id with
  | None => (json 400 (Message "Invalid product ID"), st)
  | Some id =>
      match Schema.updateProductSchema data with
      | (_ :: _) as errors => (json 400 (ValidationError errors), st)
      | [] =>
          match MemStorage.getProductById id st with
          | None => (json 404 (Message "Product not found"), st)
          | Some _ =>
              let update :=
                let '(product, st') := MemStorage.updateProduct now id data st in
                (json 200 (ProductJson product), st') in
              match MemStorage.getProductByName (InsertProduct.name data) st with
              | Some duplicateProduct =>
                  if negb (Product.id duplicateProduct =? id)
                  then (duplicate_name, st)
                  else update
              | None => update
              end
          end
      end
  end.

Definition delete_product (id : option Z) (st : MemStorage.t)
  : Response * MemStorage.t :=
  match id with
  | None => (json 400 (Message "Invalid product ID"), st)
  | Some id =>
      let '(success, st') := MemStorage.deleteProduct id st in
      if success then (sendStatus 204, st')
      else (json 404 (Message "Product not found"), st')
  end.

Definition delete_news (id : option Z) (st : MemStorage.t)
  : Response * MemStorage.t :=
  match id with
  | None => (json 400 (Message "Invalid news ID"), st)
  | Some id =>
      let '(success, st') := MemStorage.deleteBusinessNews id st in
      if success then (sendStatus 204, st')
      else (json 404 (Message "News not found"), st')
  end.

Definition get_stats (now now' : Z) (st : MemStorage.t) : Response :=
  let products := MemStorage.getAllProducts st in
  let news := MemStorage.getAllBusinessNews now st in
  json 200
    (Stats (Z.of_nat (length products)) (Z.of_nat (length news))
       match products with
       | first :: _ => Product.updatedAt first
       | [] => TimeValue now'
       end).

Definition handle (isAuthenticated : bool) (req : Request) (st : MemStorage.t)
  : Response * MemStorage.t :=
  if negb isAuthenticated then (sendStatus 401, st)
  else
    match req with
    | GetProducts => (json 200 (ProductsJson (MemStorage.getAllProducts st)), st)
    | SearchProducts q =>
        match q with
        | Some query =>
            if JSString.truthy query
            then (json 200 (ProductsJson (MemStorage.searchProducts query st)), st)
            else (json 200 (ProductsJson []), st)
        | None => (json 200 (ProductsJson []), st)
        end
    | GetProduct id =>
        match id with
        | None => (json 400 (Message "Invalid product ID"), st)
        | Some id =>
            match MemStorage.getProductById id st with
            | None => (json 404 (Message "Product not found"), st)
            | Some product => (json 200 (ProductJson (Some product)), st)
            end
        end
    | PostProduct now data => post_product now data st
    | PutProduct now id data => put_product now id data st
    | DeleteProduct id => delete_product id st
    | GetNews now =>
        (json 200 (NewsListJson (MemStorage.getAllBusinessNews now st)), st)
    | PostNews now now' data =>
        let '(news, st') := MemStorage.createBusinessNews now now' data st in
        (json 201 (NewsJson news), st')
    | DeleteNews id => delete_news id st
    | CleanupNews now =>
        let '(deletedCount, st') := MemStorage.deleteExpiredNews now st in
        (json 200 (DeletedCount deletedCount), st')
    | GetStats now now' => (get_stats now now' st, st)
    end.

(** The stores the server can be in: the initial one, and any reached
    by a request or by the registration of a user (done by the
    authentication routes through [createUser]). *)
Inductive reachable : MemStorage.t -> Prop :=
| reachable_init : reachable MemStorage.storage
| reachable_request st isAuthenticated req :
    reachable st -> reachable (snd (handle isAuthenticated req st))
| reachable_user st insertUser :
    reachable st -> reachable (snd (MemStorage.createUser insertUser st)).

End WithHost.

End Routes.


(** * Invariants, specification-level notions and examples *)

(** What every reachable store satisfies about its products: fresh,
    unique identifiers and unique names. *)
Record products_ok (st : MemStorage.t) : Prop := {
  ids_below :
    forall p, In p (MemStorage.products st) ->
      Product.id p < MemStorage.nextProductId st;
  ids_unique : NoDup (map Product.id (MemStorage.products st));
  names_unique : NoDup (map Product.name (MemStorage.products st))
}.

(** ** A concrete host and concrete stores, for the examples *)

Definition code_unit_order (a b : string) : Z :=
  match String.compare a b with Lt => -1 | Eq => 0 | Gt => 1 end.

(** Bogota: five hours behind UTC all year. *)
Definition bogota : Host :=
  {| LocalTZA := fun _ _ => -18000000; localeCompare := code_unit_order |}.

Definition arroz : InsertProduct.t :=
  {| InsertProduct.name := "ARROZ";
     InsertProduct.barcode := Some "7702001";
     InsertProduct.purchasePrice := "100.00";
     InsertProduct.profitMargin := Some "25";
     InsertProduct.buyerName := Some "ANA";
     InsertProduct.stock := Some (JSNumber.of_Z 12);
     InsertProduct.minStock := Some (JSNumber.of_Z 0) |}.

Definition azucar : InsertProduct.t :=
  {| InsertProduct.name := "AZUCAR";
     InsertProduct.barcode := None;
     InsertProduct.purchasePrice := "49.99";
     InsertProduct.profitMargin := None;
     InsertProduct.buyerName := Some "";
     InsertProduct.stock := Some (JSNumber.of_Z 0);
     InsertProduct.minStock := None |}.

(** The store after ARROZ was posted, and after AZUCAR followed. *)
Definition store_arroz : MemStorage.t :=
  snd (Routes.handle (H := bogota) true
         (Routes.PostProduct 1762074000000 arroz) MemStorage.storage).

Definition store_two : MemStorage.t :=
  snd (Routes.handle (H := bogota) true
         (Routes.PostProduct 1762074060000 azucar) store_arroz).

(** A patch for ARROZ that leaves the margin out and sends an empty
    bar code. *)
Definition arroz_patch : UpdateProduct.t :=
  {| InsertProduct.name := "ARROZ";
     InsertProduct.barcode := Some "";
     InsertProduct.purchasePrice := "200";
     InsertProduct.profitMargin := None;
     InsertProduct.buyerName := None;
     InsertProduct.stock := Some (JSNumber.of_Z 0);
     InsertProduct.minStock := None |}.

(** ** Statements of the specification that the code departs from *)

(** Round trip of an update: every supplied field is read back, every
    omitted one keeps its value. *)
Definition update_reflects_patch : Prop :=
  forall now id data st old,
    Schema.updateProductSchema data = [] ->
    MemStorage.getProductById id st = Some old ->
    exists product,
      MemStorage.getProductById id
        (snd (MemStorage.updateProduct now id data st)) = Some product
      /\ Product.name product = InsertProduct.name data
      /\ Product.purchasePrice product = InsertProduct.purchasePrice data
      /\ (forall v, InsertProduct.barcode data = Some v ->
            Product.barcode product = Some v)
      /\ (forall v, InsertProduct.buyerName data = Some v ->
            Product.buyerName product = Some v)
      /\ (forall v, InsertProduct.stock data = Some v ->
            Product.stock product = Some v)
      /\ (forall v, InsertProduct.minStock data = Some v ->
            Product.minStock product = Some v)
      /\ (InsertProduct.barcode data = None ->
            Product.barcode product = Product.barcode old)
      /\ (InsertProduct.buyerName data = None ->
            Product.buyerName product = Product.buyerName old)
      /\ (InsertProduct.stock data = None ->
            Product.stock product = Product.stock old)
      /\ (InsertProduct.minStock data = None ->
            Product.minStock product = Product.minStock old).

(** A comparator as [sort] needs it: if [a] goes after [b] then [b]
    does not go after [a], and "not after" is transitive. *)
Record consistent {A : Type} (cmp : A -> A -> Z) : Prop := {
  cmp_total : forall a b, 0 < cmp a b -> cmp b a <= 0;
  cmp_trans : forall a b c, cmp a b <= 0 -> cmp b c <= 0 -> cmp a c <= 0
}.

(** [a] is not after [b]. *)
Definition not_after {A : Type} (cmp : A -> A -> Z) (a b : A) : Prop :=
  cmp a b <= 0.

(** [s] contains [t]: [s = pre ++ t ++ post]. *)
Definition contains (s t : string) : Prop :=
  exists pre post, s = String.append pre (String.append t post).

(** An announcement is active: permanent, or not yet expired. *)
Definition active (now : Z) (news : BusinessNews.t) : Prop :=
  BusinessNews.isPermanent news = true
  \/ exists t, BusinessNews.expiresAt news = Some (TimeValue t) /\ now < t.

Definition sample_news (title : string) (isPermanent : option bool)
  : InsertBusinessNews.t :=
  {| InsertBusinessNews.title := title;
     InsertBusinessNews.content := "";
     InsertBusinessNews.isPermanent := isPermanent |}.

(** A store with a permanent announcement and one that expires. *)
Definition store_news : MemStorage.t :=
  snd (Routes.handle (H := bogota) true
         (Routes.PostNews 1762074000000 1762074000000
            (sample_news "HORARIO" (Some true)))
         (snd (Routes.handle (H := bogota) true
                 (Routes.PostNews 1762000000000 1762000000000
                    (sample_news "OFERTA" None))
                 store_two))).

(** What every stored announcement satisfies: it was created at a
    valid date, and it has no expiry exactly when it is permanent. *)
Record news_ok (news : BusinessNews.t) : Prop := {
  created_valid : exists t, BusinessNews.createdAt news = TimeValue t;
  permanent_iff_no_expiry :
    BusinessNews.isPermanent news = true <-> BusinessNews.expiresAt news = None
}.

(** The creation time in milliseconds. *)
Definition created_ms (news : BusinessNews.t) : Z :=
  match JSDate.getTime (BusinessNews.createdAt news) with
  | Some t => t
  | None => 0
  end.

Section WithHost.
Context `{Host}.

(** [t] plus [n] calendar days: the same local time of day, [n] local
    dates later. *)
Definition add_calendar_days (t n : Z) : Date :=
  JSDate.TimeClip (JSDate.UTC (JSDate.LocalTime t + n * JSDate.msPerDay)).


End WithHost.

(** ** The pricing rule as the specification words it: exact decimal
    arithmetic, rounded to hundredths *)

Module Spec.

(** The exact value of a plain decimal numeral: digits, then
    optionally a point and digits. *)
Definition decimal (s : string) : option Q :=
  let '(ip, ilen, r) := JSNumber.read_digits 0 0 s in
  match r with
  | EmptyString =>
      match ilen with
      | O => None
      | _ => Some (Z.of_N ip # 1)
      end
  | String "." t =>
      let '(v, tot, t') := JSNumber.read_digits ip ilen t in
      match t', tot with
      | EmptyString, S _ => Some (Z.of_N v # Z.to_pos (10 ^ Z.of_nat (tot - ilen)))
      | _, _ => None
      end
  | _ => None
  end.

(** Two usual ways to round to an integer. *)
Definition half_up (x : Q) : Z := Qfloor (x + (1 # 2)).

Definition half_even (x : Q) : Z :=
  let n := Qfloor x in
  match Qcompare (x - inject_Z n) (1 # 2) with
  | Lt => n
  | Gt => n + 1
  | Eq => if Z.even n then n else n + 1
  end.

(** [round(p * (1 + m / 100), 2)] *)
Definition derive_sale_price (round : Q -> Z) (p m : Q) : Q :=
  round (p * (1 + m / 100) * 100)%Q # 100.

End Spec.

(** The pricing rule read exactly: the stored sale price is the exact
    product rounded to two decimals. *)
Definition sale_price_exactly_rounded (round : Q -> Z) : Prop :=
  forall now data st margin p m,
    Schema.insertProductSchema data = [] ->
    InsertProduct.profitMargin data = Some margin ->
    Spec.decimal (InsertProduct.purchasePrice data) = Some p ->
    Spec.decimal margin = Some m ->
    (0 < p)%Q -> (0 <= m)%Q ->
    exists q,
      Spec.decimal
        (Product.salePrice (fst (MemStorage.createProduct now data st))) = Some q
      /\ (q == Spec.derive_sale_price round p m)%Q.

(** A string of decimal digits, and the number it writes after [acc]. *)
Fixpoint all_digits (s : string) : bool :=
  match s with
  | EmptyString => true
  | String c r => JSNumber.is_digit c && all_digits r
  end.

Fixpoint digits_value (acc : N) (s : string) : N :=
  match s with
  | EmptyString => acc
  | String c r => digits_value (10 * acc + JSNumber.digit_val c)%N r
  end.

(** [n] is the number of hundredths nearest to [a/b], the larger one
    when two are equally near. *)
Definition nearest_hundredths (a b n : Z) : Prop :=
  2 * n * b - b <= 200 * a < 2 * n * b + b.

Definition chicle : InsertProduct.t :=
  {| InsertProduct.name := "CHICLE";
     InsertProduct.barcode := None;
     InsertProduct.purchasePrice := "0.06";
     InsertProduct.profitMargin := Some "25";
     InsertProduct.buyerName := None;
     InsertProduct.stock := None;
     InsertProduct.minStock := None |}.

(** A character that stands for itself in a LIKE pattern. *)
Definition literal (c : ascii) : bool :=
  negb (Ascii.eqb c "%" || Ascii.eqb c "_" || Ascii.eqb c "\").

(** A query without LIKE metacharacters. *)
Fixpoint plain (q : string) : bool :=
  match q with
  | EmptyString => true
  | String c r => literal c && plain r
  end.

Definition arroz_row : DatabaseStorage.ProductRow.t :=
  {| DatabaseStorage.ProductRow.id := 1;
     DatabaseStorage.ProductRow.name := "ARROZ";
     DatabaseStorage.ProductRow.purchasePrice := "100.00";
     DatabaseStorage.ProductRow.salePrice := "120.00";
     DatabaseStorage.ProductRow.createdAt := TimeValue 1762074000000;
     DatabaseStorage.ProductRow.updatedAt := TimeValue 1762074000000 |}.

Definition oferta_row : DatabaseStorage.NewsRow.t :=
  {| DatabaseStorage.NewsRow.id := 1;
     DatabaseStorage.NewsRow.title := "OFERTA";
     DatabaseStorage.NewsRow.content := "";
     DatabaseStorage.NewsRow.createdAt := TimeValue 1762000000000;
     DatabaseStorage.NewsRow.expiresAt := TimeValue 1762259200000 |}.

(** AVISO, posted after OFERTA (1762100000000) and expiring three
    days later. *)
Definition aviso_row : DatabaseStorage.NewsRow.t :=
  {| DatabaseStorage.NewsRow.id := 2;
     DatabaseStorage.NewsRow.title := "AVISO";
     DatabaseStorage.NewsRow.content := "";
     DatabaseStorage.NewsRow.createdAt := TimeValue 1762100000000;
     DatabaseStorage.NewsRow.expiresAt := TimeValue 1762359200000 |}.

Definition azucar_row : DatabaseStorage.ProductRow.t :=
  {| DatabaseStorage.ProductRow.id := 2;
     DatabaseStorage.ProductRow.name := "AZUCAR";
     DatabaseStorage.ProductRow.purchasePrice := "49.99";
     DatabaseStorage.ProductRow.salePrice := "59.99";
     DatabaseStorage.ProductRow.createdAt := TimeValue 1762074060000;
     DatabaseStorage.ProductRow.updatedAt := TimeValue 1762074060000 |}.

(** A server that keeps UTC. *)
Definition utc : Host :=
  {| LocalTZA := fun _ _ => 0; localeCompare := code_unit_order |}.

(** Two announcements stored against the clock: TARDE was posted
    first, at a later reading than TEMPRANO, which followed. *)
Definition store_unordered : MemStorage.t :=
  snd (Routes.handle (H := bogota) true
         (Routes.PostNews 1762000000000 1762000000000
            (sample_news "TEMPRANO" None))
         (snd (Routes.handle (H := bogota) true
                 (Routes.PostNews 1762100000000 1762100000000
                    (sample_news "TARDE" None))
                 MemStorage.storage))).

(** The creation time of a row in milliseconds. *)
Definition row_created_ms (row : DatabaseStorage.NewsRow.t) : Z :=
  match JSDate.getTime (DatabaseStorage.NewsRow.createdAt row) with
  | Some t => t
  | None => 0
  end.

(** ** Histories *)

(** What happens to the store: a request is served, or a user is
    registered. *)
Inductive Event :=
| Served (isAuthenticated : bool) (req : Routes.Request)
| Registered (insertUser : InsertUser.t).

Section WithHost.
Context `{Host}.

Definition step (st : MemStorage.t) (e : Event) : MemStorage.t :=
  match e with
  | Served isAuthenticated req => snd (Routes.handle isAuthenticated req st)
  | Registered insertUser => snd (MemStorage.createUser insertUser st)
  end.

Definition run (es : list Event) (st : MemStorage.t) : MemStorage.t :=
  fold_left step es st.

End WithHost.

(** What every reachable store satisfies about its users and its
    announcements: identifiers below the next one to hand out, and
    pairwise distinct. *)
Record users_ok (st : MemStorage.t) : Prop := {
  user_ids_below :
    forall u, In u (MemStorage.users st) -> User.id u < MemStorage.nextUserId st;
  user_ids_unique : NoDup (map User.id (MemStorage.users st))
}.

Record news_ids_ok (st : MemStorage.t) : Prop := {
  news_ids_below :
    forall n, In n (MemStorage.businessNews st) ->
      BusinessNews.id n < MemStorage.nextNewsId st;
  news_ids_unique : NoDup (map BusinessNews.id (MemStorage.businessNews st))
}.

(** ** What a request does to the store *)

Section Effects.
Context `{Host}.

(** The store after a request is the store before, or the result of
    one storage operation, run under the conditions its handler
    checks. *)
Inductive effect (st : MemStorage.t) : MemStorage.t -> Prop :=
| effect_none : effect st st
| effect_createProduct now data :
    Schema.insertProductSchema data = [] ->
    MemStorage.getProductByName (InsertProduct.name data) st = None ->
    effect st (snd (MemStorage.createProduct now data st))
| effect_updateProduct now id data old :
    Schema.updateProductSchema data = [] ->
    MemStorage.getProductById id st = Some old ->
    (forall q, MemStorage.getProductByName (InsertProduct.name data) st = Some q ->
               Product.id q = id) ->
    effect st (snd (MemStorage.updateProduct now id data st))
| effect_deleteProduct id i :
    JSArray.findIndex (MemStorage.has_id id) (MemStorage.products st) = Some i ->
    effect st (snd (MemStorage.deleteProduct id st))
| effect_createBusinessNews now now' data :
    effect st (snd (MemStorage.createBusinessNews now now' data st))
| effect_deleteBusinessNews id i :
    JSArray.findIndex (MemStorage.has_news_id id) (MemStorage.businessNews st)
    = Some i ->
    effect st (snd (MemStorage.deleteBusinessNews id st))
| effect_deleteExpiredNews now :
    effect st (snd (MemStorage.deleteExpiredNews now st)).

End Effects.

(** ** Stored products *)

(** What every reachable store satisfies about each product: its name
    and purchase price are as validation wants them, and its sale price
    is the one derived from its purchase price and from the margin
    whose text it stores. *)
Record product_ok (p : Product.t) : Prop := {
  name_given : Product.name p <> "";
  name_upper : JSString.toUpperCase (Product.name p) = Product.name p;
  price_positive :
    JSNumber.ltb (JSNumber.of_Z 0) (JSNumber.parseFloat (Product.purchasePrice p))
    = true;
  price_derived :
    exists margin,
      Product.profitMargin p = JSNumber.toString margin
      /\ Product.salePrice p
         = MemStorage.salePrice_of
             (JSNumber.parseFloat (Product.purchasePrice p)) margin
}.

(** ** More sample data *)

(** A user. *)
Definition ana : InsertUser.t :=
  {| InsertUser.username := "ANA"; InsertUser.password := "CLAVE123" |}.

(** ARROZ with a margin written in words. *)
Definition arroz_sin_margen : InsertProduct.t :=
  {| InsertProduct.name := "ARROZ";
     InsertProduct.barcode := None;
     InsertProduct.purchasePrice := "100.00";
     InsertProduct.profitMargin := Some "veinte";
     InsertProduct.buyerName := None;
     InsertProduct.stock := None;
     InsertProduct.minStock := None |}.

(** * Proofs *)

(** * Arrays *)

Section ArrayFacts.
Context {A : Type}.
Implicit Types (f : A -> bool) (l : list A).

Lemma findIndex_Some f l i :
  JSArray.findIndex f l = Some i ->
  exists x, l !! i = Some x /\ f x = true
    /\ forall j y, (j < i)%nat -> l !! j = Some y -> f y = false.
Proof.
  revert i. induction l as [|a l IH]; intros i Hi; simpl in Hi; [discriminate|].
  destruct (f a) eqn:Hfa.
  - injection Hi as <-. exists a. repeat split; auto. intros j y Hj. lia.
  - destruct (JSArray.findIndex f l) as [k|] eqn:Hk; [|discriminate].
    injection Hi as <-. destruct (IH k eq_refl) as (x & Hx & Hfx & Hbefore).
    exists x. repeat split; auto.
    intros [|j] y Hj Hy; simpl in Hy.
    + congruence.
    + apply (Hbefore j); [lia|exact Hy].
Qed.

Lemma findIndex_None f l :
  JSArray.findIndex f l = None <-> forall x, In x l -> f x = false.
Proof.
  induction l as [|a l IH]; simpl.
  - split; [intros _ x []|reflexivity].
  - destruct (f a) eqn:Hfa.
    + split; [discriminate|]. intros Hall. specialize (Hall a (or_introl eq_refl)). congruence.
    + destruct (JSArray.findIndex f l) as [k|]; simpl.
      * split; [discriminate|]. intros Hall.
        assert (Hl : forall x, In x l -> f x = false) by auto.
        apply IH in Hl. discriminate.
      * split; [|reflexivity]. intros _ x [<-|Hx]; [exact Hfa|].
        now apply (proj1 IH).
Qed.

(** [find] returns the element at the index [findIndex] returns. *)
Lemma find_findIndex f l :
  List.find f l =
  match JSArray.findIndex f l with Some i => l !! i | None => None end.
Proof.
  induction l as [|a l IH]; simpl; [reflexivity|].
  destruct (f a); [reflexivity|].
  rewrite IH. now destruct (JSArray.findIndex f l).
Qed.

Lemma findIndex_insert f l i y :
  JSArray.findIndex f l = Some i -> f y = true ->
  JSArray.findIndex f (<[i := y]> l) = Some i.
Proof.
  revert i. induction l as [|a l IH]; intros i Hi Hy; simpl in Hi; [discriminate|].
  destruct (f a) eqn:Hfa.
  - injection Hi as <-. simpl. now rewrite Hy.
  - destruct (JSArray.findIndex f l) as [k|] eqn:Hk; [|discriminate].
    injection Hi as <-. simpl. rewrite Hfa, (IH k); auto.
Qed.

Lemma find_other_insert f l i x y :
  l !! i = Some x -> f x = false -> f y = false ->
  List.find f (<[i := y]> l) = List.find f l.
Proof.
  revert i. induction l as [|a l IH]; intros [|i] Hx Hfx Hfy; simpl in *; try discriminate.
  - injection Hx as ->. now rewrite Hfx, Hfy.
  - destruct (f a); [reflexivity|]. now apply IH.
Qed.

Lemma find_other_delete f l i x :
  l !! i = Some x -> f x = false ->
  List.find f (delete i l) = List.find f l.
Proof.
  revert i. induction l as [|a l IH]; intros [|i] Hx Hfx; simpl in *; try discriminate.
  - injection Hx as ->. now rewrite Hfx.
  - destruct (f a); [reflexivity|]. now apply IH.
Qed.

Lemma find_app_fresh f l y :
  (forall x, In x l -> f x = false) -> f y = true ->
  List.find f (l ++ [y]) = Some y.
Proof.
  intros Hall Hy. induction l as [|a l IH]; simpl.
  - now rewrite Hy.
  - rewrite (Hall a (or_introl eq_refl)). apply IH. intros x Hx. apply Hall. now right.
Qed.

Lemma find_None_iff f l :
  List.find f l = None <-> forall x, In x l -> f x = false.
Proof.
  rewrite find_findIndex. rewrite <- findIndex_None.
  destruct (JSArray.findIndex f l) as [i|] eqn:Hi; [|tauto].
  destruct (findIndex_Some _ _ _ Hi) as (x & -> & _). split; discriminate.
Qed.

Lemma filter_filter_same f l : List.filter f (List.filter f l) = List.filter f l.
Proof.
  induction l as [|a l IH]; simpl; [reflexivity|].
  destruct (f a) eqn:Hfa; simpl; [rewrite Hfa|]; now rewrite ?IH.
Qed.

Lemma filter_length_le f l : (length (List.filter f l) <= length l)%nat.
Proof. induction l as [|a l IH]; simpl; [lia|]. destruct (f a); simpl; lia. Qed.

End ArrayFacts.

Section MapFacts.
Context {A B : Type} (g : A -> B).

Lemma map_insert l i y : map g (<[i := y]> l) = <[i := g y]> (map g l).
Proof.
  revert i; induction l as [|a l IH]; intros [|i]; simpl; try reflexivity.
  now rewrite IH.
Qed.

Lemma map_delete l i : map g (delete i l) = delete i (map g l).
Proof.
  revert i; induction l as [|a l IH]; intros [|i]; simpl; try reflexivity.
  now rewrite IH.
Qed.

Lemma lookup_map l i : map g l !! i = option_map g (l !! i).
Proof.
  revert i; induction l as [|a l IH]; intros [|i]; simpl; try reflexivity.
  apply IH.
Qed.

End MapFacts.

Section ListFacts.
Context {A : Type}.
Implicit Types l : list A.

Lemma In_lookup l x : In x l <-> exists i, l !! i = Some x.
Proof. rewrite <- list_elem_of_In. apply list_elem_of_lookup. Qed.

Lemma In_delete l i x : In x (delete i l) -> In x l.
Proof.
  rewrite <- !list_elem_of_In. apply list_elem_of_delete_inv.
Qed.

Lemma NoDup_delete l i : NoDup l -> NoDup (delete i l).
Proof. intros Hl. exact (sublist_NoDup _ _ Hl (sublist_delete l i)). Qed.

Lemma In_insert l i x y : In x (<[i := y]> l) -> x = y \/ In x l.
Proof.
  rewrite !In_lookup. intros [j Hj].
  destruct (decide (i = j)) as [->|Hne].
  - destruct (decide (j < length l)%nat) as [Hlt|Hge].
    + rewrite list_lookup_insert_eq in Hj by exact Hlt. left; congruence.
    + rewrite list_insert_ge in Hj by lia. right; eauto.
  - rewrite list_lookup_insert_ne in Hj by exact Hne. right; eauto.
Qed.

(** Overwriting position [i] by a value found nowhere else keeps the
    list duplicate-free. *)
Lemma NoDup_insert l i x :
  NoDup l -> (forall j, l !! j = Some x -> j = i) -> NoDup (<[i := x]> l).
Proof.
  rewrite !NoDup_alt. intros Hl Hx j k y Hj Hk.
  apply list_lookup_insert_Some in Hj as [(Hj & -> & _)|(Hj & Hjy)];
    apply list_lookup_insert_Some in Hk as [(Hk & Hxy & _)|(Hk & Hky)].
  - congruence.
  - specialize (Hx k Hky). congruence.
  - subst y. specialize (Hx j Hjy). congruence.
  - eauto.
Qed.

Lemma NoDup_delete_not_In l i x : NoDup l -> l !! i = Some x -> ~ In x (delete i l).
Proof.
  intros Hl Hi Hin. apply In_lookup in Hin as [j Hj].
  rewrite NoDup_alt in Hl.
  destruct (decide (j < i)%nat) as [Hlt|Hge].
  - rewrite list_lookup_delete_lt in Hj by exact Hlt.
    specialize (Hl _ _ _ Hi Hj). lia.
  - rewrite list_lookup_delete_ge in Hj by lia.
    specialize (Hl _ _ _ Hi Hj). lia.
Qed.

End ListFacts.

(** * The product collection *)

Section Products.

Lemma has_id_true id p : MemStorage.has_id id p = true <-> Product.id p = id.
Proof. unfold MemStorage.has_id. apply Z.eqb_eq. Qed.

Lemma has_id_false id p : MemStorage.has_id id p = false <-> Product.id p <> id.
Proof. unfold MemStorage.has_id. apply Z.eqb_neq. Qed.

Lemma getProductById_Some id st p :
  MemStorage.getProductById id st = Some p ->
  In p (MemStorage.products st) /\ Product.id p = id.
Proof.
  unfold MemStorage.getProductById. intros Hp.
  apply find_some in Hp as [Hin Hid]. split; [exact Hin|now apply has_id_true].
Qed.

Lemma getProductById_index id st p :
  MemStorage.getProductById id st = Some p ->
  exists i, JSArray.findIndex (MemStorage.has_id id) (MemStorage.products st) = Some i
    /\ MemStorage.products st !! i = Some p.
Proof.
  unfold MemStorage.getProductById. rewrite find_findIndex.
  destruct (JSArray.findIndex _ _) as [i|]; [|discriminate]. eauto.
Qed.

Lemma getProductByName_Some name st p :
  MemStorage.getProductByName name st = Some p ->
  In p (MemStorage.products st) /\ Product.name p = name.
Proof.
  unfold MemStorage.getProductByName. intros Hp.
  apply find_some in Hp as [Hin Hn]. split; [exact Hin|now apply String.eqb_eq].
Qed.

Lemma getProductByName_None name st :
  MemStorage.getProductByName name st = None <->
  forall p, In p (MemStorage.products st) -> Product.name p <> name.
Proof.
  unfold MemStorage.getProductByName. rewrite find_None_iff.
  split; intros Hall p Hp; specialize (Hall p Hp).
  - now apply String.eqb_neq.
  - now apply String.eqb_neq.
Qed.

(** With unique names, the product that carries a name is the one
    [getProductByName] returns. *)
Lemma getProductByName_unique st p :
  NoDup (map Product.name (MemStorage.products st)) ->
  In p (MemStorage.products st) ->
  MemStorage.getProductByName (Product.name p) st = Some p.
Proof.
  intros Hnames Hp.
  destruct (MemStorage.getProductByName (Product.name p) st) as [q|] eqn:Hq.
  - apply getProductByName_Some in Hq as [Hq Hname].
    apply In_lookup in Hp as [i Hi]. apply In_lookup in Hq as [j Hj].
    rewrite NoDup_alt in Hnames.
    assert (i = j) as ->.
    { apply (Hnames i j (Product.name p)); rewrite lookup_map.
      - now rewrite Hi.
      - rewrite Hj. simpl. now rewrite Hname. }
    congruence.
  - rewrite getProductByName_None in Hq. now destruct (Hq p Hp).
Qed.

Lemma getProductById_unique st p :
  NoDup (map Product.id (MemStorage.products st)) ->
  In p (MemStorage.products st) ->
  MemStorage.getProductById (Product.id p) st = Some p.
Proof.
  intros Hids Hp.
  destruct (MemStorage.getProductById (Product.id p) st) as [q|] eqn:Hq.
  - apply getProductById_Some in Hq as [Hq Hid].
    apply In_lookup in Hp as [i Hi]. apply In_lookup in Hq as [j Hj].
    rewrite NoDup_alt in Hids.
    assert (i = j) as ->.
    { apply (Hids i j (Product.id p)); rewrite lookup_map.
      - now rewrite Hi.
      - rewrite Hj. simpl. now rewrite Hid. }
    congruence.
  - unfold MemStorage.getProductById in Hq. rewrite find_None_iff in Hq.
    specialize (Hq p Hp). apply has_id_false in Hq. congruence.
Qed.

End Products.

Section ProductOps.

(** What [updateProduct] does once the product is found. *)
Lemma updateProduct_found now id data st old :
  MemStorage.getProductById id st = Some old ->
  exists i product,
    JSArray.findIndex (MemStorage.has_id id) (MemStorage.products st) = Some i
    /\ MemStorage.products st !! i = Some old
    /\ MemStorage.updateProduct now id data st
       = (Some product,
          MemStorage.with_products (<[i := product]> (MemStorage.products st))
            (MemStorage.nextProductId st) st)
    /\ Product.id product = id
    /\ Product.name product = InsertProduct.name data
    /\ Product.purchasePrice product = InsertProduct.purchasePrice data
    /\ Product.salePrice product
       = MemStorage.salePrice_of
           (JSNumber.parseFloat (InsertProduct.purchasePrice data))
           (MemStorage.margin_or (InsertProduct.profitMargin data)
              (JSNumber.parseFloat (Product.profitMargin old)))
    /\ Product.profitMargin product
       = JSNumber.toString
           (MemStorage.margin_or (InsertProduct.profitMargin data)
              (JSNumber.parseFloat (Product.profitMargin old)))
    /\ Product.barcode product
       = or_else JSString.truthy (InsertProduct.barcode data) (Product.barcode old)
    /\ Product.buyerName product
       = or_else JSString.truthy (InsertProduct.buyerName data)
           (Product.buyerName old)
    /\ Product.stock product
       = match InsertProduct.stock data with
         | Some v => Some v
         | None => Product.stock old
         end
    /\ Product.minStock product
       = match InsertProduct.minStock data with
         | Some v => Some v
         | None => Product.minStock old
         end
    /\ Product.createdAt product = Product.createdAt old
    /\ Product.updatedAt product = TimeValue now.
Proof.
  intros Hold.
  destruct (getProductById_index _ _ _ Hold) as (i & Hi & Hlook).
  apply getProductById_Some in Hold as [_ Hid].
  unfold MemStorage.updateProduct. rewrite Hi, Hlook.
  eexists i, _. repeat split; try reflexivity; assumption.
Qed.

Lemma updateProduct_missing now id data st :
  MemStorage.getProductById id st = None ->
  MemStorage.updateProduct now id data st = (None, st).
Proof.
  unfold MemStorage.getProductById, MemStorage.updateProduct.
  rewrite find_findIndex.
  destruct (JSArray.findIndex _ _) as [i|] eqn:Hi; [|reflexivity].
  intros ->. reflexivity.
Qed.

(** After an update, [getProductById] returns the new record, and the
    other identifiers see what they saw before. *)
Lemma getProductById_updateProduct now id data st old :
  MemStorage.getProductById id st = Some old ->
  MemStorage.getProductById id (snd (MemStorage.updateProduct now id data st))
  = fst (MemStorage.updateProduct now id data st).
Proof.
  intros Hold.
  destruct (updateProduct_found now id data st old Hold)
    as (i & product & Hi & Hlook & -> & Hid & _).
  simpl. unfold MemStorage.getProductById. simpl.
  rewrite find_findIndex.
  rewrite (findIndex_insert _ _ i product Hi) by now apply has_id_true.
  apply list_lookup_insert_eq. now apply lookup_lt_Some in Hlook.
Qed.

Lemma getProductById_updateProduct_other now id id' data st :
  id' <> id ->
  MemStorage.getProductById id' (snd (MemStorage.updateProduct now id data st))
  = MemStorage.getProductById id' st.
Proof.
  intros Hne.
  destruct (MemStorage.getProductById id st) as [old|] eqn:Hold.
  - destruct (updateProduct_found now id data st old Hold)
      as (i & product & Hi & Hlook & -> & Hid & _).
    simpl. unfold MemStorage.getProductById. simpl.
    apply getProductById_Some in Hold as [_ Hold].
    apply (find_other_insert _ _ i old product Hlook); apply has_id_false; congruence.
  - now rewrite updateProduct_missing.
Qed.

Lemma deleteProduct_found id st i :
  JSArray.findIndex (MemStorage.has_id id) (MemStorage.products st) = Some i ->
  MemStorage.deleteProduct id st
  = (true, MemStorage.with_products (delete i (MemStorage.products st))
             (MemStorage.nextProductId st) st).
Proof. unfold MemStorage.deleteProduct. now intros ->. Qed.

Lemma with_products_same st :
  MemStorage.with_products (MemStorage.products st) (MemStorage.nextProductId st) st = st.
Proof. now destruct st. Qed.

(** ** Invariants of the product collection *)

Lemma createProduct_ok now data st :
  products_ok st ->
  MemStorage.getProductByName (InsertProduct.name data) st = None ->
  products_ok (snd (MemStorage.createProduct now data st)).
Proof.
  intros [Hbelow Hids Hnames] Hfree. rewrite getProductByName_None in Hfree.
  split; simpl.
  - intros p Hp. apply in_app_or in Hp as [Hp|[<-|[]]]; simpl.
    + specialize (Hbelow p Hp). lia.
    + lia.
  - rewrite map_app. simpl. apply NoDup_app. repeat split.
    + exact Hids.
    + intros x Hx [<-|[]]%list_elem_of_In. apply list_elem_of_In, in_map_iff in Hx as (p & Hp & Hin).
      specialize (Hbelow p Hin). lia.
    + apply NoDup_singleton.
  - rewrite map_app. simpl. apply NoDup_app. repeat split.
    + exact Hnames.
    + intros x Hx [<-|[]]%list_elem_of_In. apply list_elem_of_In, in_map_iff in Hx as (p & Hp & Hin).
      now apply (Hfree p Hin).
    + apply NoDup_singleton.
Qed.

Lemma updateProduct_ok now id data st :
  products_ok st ->
  (forall q, MemStorage.getProductByName (InsertProduct.name data) st = Some q ->
             Product.id q = id) ->
  products_ok (snd (MemStorage.updateProduct now id data st)).
Proof.
  intros Hok Hguard.
  destruct (MemStorage.getProductById id st) as [old|] eqn:Hold;
    [|now rewrite updateProduct_missing].
  destruct (updateProduct_found now id data st old Hold)
    as (i & product & Hi & Hlook & -> & Hid & Hname & _).
  destruct Hok as [Hbelow Hids Hnames].
  assert (Hold_id : Product.id old = id) by now apply getProductById_Some in Hold.
  split; simpl.
  - intros p Hp. apply In_insert in Hp as [->|Hp]; [|now apply Hbelow].
    rewrite Hid, <- Hold_id. apply Hbelow. apply In_lookup; eauto.
  - rewrite map_insert, list_insert_id; [exact Hids|].
    rewrite lookup_map, Hlook. simpl. congruence.
  - rewrite map_insert. apply NoDup_insert; [exact Hnames|].
    intros j Hj. rewrite lookup_map in Hj.
    destruct (MemStorage.products st !! j) as [q|] eqn:Hq; [|discriminate].
    simpl in Hj. injection Hj as Hj. rewrite Hname in Hj.
    assert (Hin : In q (MemStorage.products st)) by (apply In_lookup; eauto).
    pose proof (getProductByName_unique st q Hnames Hin) as Hfind.
    rewrite Hj in Hfind. specialize (Hguard q Hfind).
    rewrite NoDup_alt in Hids. apply (Hids j i id); rewrite lookup_map.
    + rewrite Hq. simpl. congruence.
    + rewrite Hlook. simpl. congruence.
Qed.

Lemma deleteProduct_ok id st :
  products_ok st -> products_ok (snd (MemStorage.deleteProduct id st)).
Proof.
  intros [Hbelow Hids Hnames]. unfold MemStorage.deleteProduct.
  destruct (JSArray.findIndex _ _) as [i|]; [|now split].
  split; simpl.
  - intros p Hp. apply Hbelow. now apply In_delete in Hp.
  - rewrite map_delete. now apply NoDup_delete.
  - rewrite map_delete. now apply NoDup_delete.
Qed.

Lemma products_ok_same st st' :
  MemStorage.products st' = MemStorage.products st ->
  MemStorage.nextProductId st' = MemStorage.nextProductId st ->
  products_ok st -> products_ok st'.
Proof. intros Hp Hn [Hbelow Hids Hnames]. split; rewrite ?Hp, ?Hn; assumption. Qed.

End ProductOps.

Section Handlers.
Context `{Host}.

Lemma post_product_ok now data st :
  products_ok st -> products_ok (snd (Routes.post_product now data st)).
Proof.
  intros Hok. unfold Routes.post_product.
  destruct (Schema.insertProductSchema data); [|exact Hok].
  destruct (MemStorage.getProductByName _ st) eqn:Hname; [exact Hok|].
  pose proof (createProduct_ok now data st Hok Hname) as Hcreated.
  destruct (MemStorage.createProduct now data st). exact Hcreated.
Qed.

Lemma put_product_ok now id data st :
  products_ok st -> products_ok (snd (Routes.put_product now id data st)).
Proof.
  intros Hok. unfold Routes.put_product.
  destruct id as [id|]; [|exact Hok].
  destruct (Schema.updateProductSchema data); [|exact Hok].
  destruct (MemStorage.getProductById id st); [|exact Hok].
  destruct (MemStorage.getProductByName _ st) as [dup|] eqn:Hdup.
  - destruct (Product.id dup =? id) eqn:Hid; simpl; [|exact Hok].
    pose proof (updateProduct_ok now id data st Hok) as Hupd.
    destruct (MemStorage.updateProduct now id data st). apply Hupd.
    intros q Hq. rewrite Hdup in Hq. injection Hq as <-. now apply Z.eqb_eq.
  - pose proof (updateProduct_ok now id data st Hok) as Hupd.
    destruct (MemStorage.updateProduct now id data st). apply Hupd.
    intros q Hq. rewrite Hdup in Hq. discriminate.
Qed.

Lemma handle_ok isAuthenticated req st :
  products_ok st -> products_ok (snd (Routes.handle isAuthenticated req st)).
Proof.
  intros Hok. unfold Routes.handle.
  destruct isAuthenticated; simpl; [|exact Hok].
  destruct req as [|q|id|now data|now id data|id|now|now now' data|id|now|now now'];
    simpl; try exact Hok.
  - destruct q as [q|]; [destruct (JSString.truthy q)|]; exact Hok.
  - destruct id as [id|]; [destruct (MemStorage.getProductById id st)|]; exact Hok.
  - now apply post_product_ok.
  - now apply put_product_ok.
  - unfold Routes.delete_product. destruct id as [id|]; [|exact Hok].
    pose proof (deleteProduct_ok id st Hok) as Hdel.
    destruct (MemStorage.deleteProduct id st) as [[] st']; exact Hdel.
  - eapply products_ok_same; [| |exact Hok]; reflexivity.
  - unfold Routes.delete_news. destruct id as [id|]; [|exact Hok].
    unfold MemStorage.deleteBusinessNews.
    destruct (JSArray.findIndex _ _); [|exact Hok].
    simpl. eapply products_ok_same; [| |exact Hok]; reflexivity.
  - eapply products_ok_same; [| |exact Hok]; reflexivity.
Qed.

(** Every store the server reaches keeps product identifiers fresh and
    unique, and product names unique. *)
Lemma reachable_products_ok st : Routes.reachable st -> products_ok st.
Proof.
  induction 1 as [|st isAuthenticated req _ IH|st insertUser _ IH].
  - split; simpl; [intros p []|constructor|constructor].
  - now apply handle_ok.
  - eapply products_ok_same; [| |exact IH]; reflexivity.
Qed.

End Handlers.

(** * The calendar *)

Lemma DayFromYear_succ y :
  JSDate.DayFromYear (y + 1) = JSDate.DayFromYear y + JSDate.DaysInYear y.
Proof.
  unfold JSDate.DayFromYear, JSDate.DaysInYear.
  destruct (Z.eqb_spec (y mod 4) 0), (Z.eqb_spec (y mod 100) 0),
    (Z.eqb_spec (y mod 400) 0); cbn [negb];
    Z.to_euclidean_division_equations; lia.
Qed.

Lemma DaysInYear_range y : 365 <= JSDate.DaysInYear y <= 366.
Proof.
  unfold JSDate.DaysInYear.
  repeat match goal with |- context [if ?c then _ else _] => destruct c end; lia.
Qed.

Lemma year_search_spec fuel d y :
  JSDate.DayFromYear y <= d ->
  d < JSDate.DayFromYear (y + Z.of_nat fuel) ->
  JSDate.DayFromYear (JSDate.year_search fuel d y) <= d
  < JSDate.DayFromYear (JSDate.year_search fuel d y + 1).
Proof.
  revert y. induction fuel as [|fuel IH]; intros y Hlo Hhi.
  - simpl in *. rewrite Z.add_0_r in Hhi. lia.
  - cbn [JSDate.year_search].
    destruct (JSDate.DayFromYear (y + 1) <=? d) eqn:Hnext.
    + apply Z.leb_le in Hnext. apply IH; [exact Hnext|].
      replace (y + 1 + Z.of_nat fuel) with (y + Z.of_nat (S fuel)) by lia.
      exact Hhi.
    + apply Z.leb_gt in Hnext. lia.
Qed.

(** [YearFromTime t] is the largest year that starts at or before [t],
    for every time within a day of the range of dates. *)
Lemma YearFromTime_spec t :
  Z.abs t <= 8640000000000000 + 86400000 ->
  JSDate.DayFromYear (JSDate.YearFromTime t) <= JSDate.Day t
  < JSDate.DayFromYear (JSDate.YearFromTime t + 1).
Proof.
  intros Hrange. unfold JSDate.YearFromTime.
  assert (Hd : -100000001 <= JSDate.Day t <= 100000001).
  { unfold JSDate.Day, JSDate.msPerDay.
    Z.to_euclidean_division_equations; lia. }
  cbn zeta. set (d := JSDate.Day t) in *.
  apply year_search_spec.
  - unfold JSDate.DayFromYear. destruct (0 <=? d) eqn:Hsign;
      [apply Z.leb_le in Hsign|apply Z.leb_gt in Hsign];
      Z.to_euclidean_division_equations; lia.
  - unfold JSDate.DayFromYear. destruct (0 <=? d) eqn:Hsign;
      [apply Z.leb_le in Hsign|apply Z.leb_gt in Hsign];
      Z.to_euclidean_division_equations; lia.
Qed.

Lemma DayWithinYear_range t :
  Z.abs t <= 8640000000000000 + 86400000 ->
  0 <= JSDate.DayWithinYear t < JSDate.DaysInYear (JSDate.YearFromTime t).
Proof.
  intros Hrange. pose proof (YearFromTime_spec t Hrange) as Hy.
  rewrite DayFromYear_succ in Hy. unfold JSDate.DayWithinYear. lia.
Qed.

(** The day of the month is between 1 and 31. *)
Lemma DateFromTime_range t :
  Z.abs t <= 8640000000000000 + 86400000 ->
  1 <= JSDate.DateFromTime t <= 31.
Proof.
  intros Hrange. pose proof (DayWithinYear_range t Hrange) as Hd.
  unfold JSDate.DateFromTime, JSDate.MonthFromTime, JSDate.InLeapYear in *.
  set (d := JSDate.DayWithinYear t) in *.
  destruct (Z.eqb_spec (JSDate.DaysInYear (JSDate.YearFromTime t)) 366) as [Hleap|Hleap].
  - repeat match goal with
           | |- context [if ?a <? ?b then _ else _] =>
               destruct (Z.ltb_spec a b)
           end; cbn [JSDate.DaysBeforeMonth]; lia.
  - pose proof (DaysInYear_range (JSDate.YearFromTime t)).
    repeat match goal with
           | |- context [if ?a <? ?b then _ else _] =>
               destruct (Z.ltb_spec a b)
           end; cbn [JSDate.DaysBeforeMonth]; lia.
Qed.

(** 2 November 2025, 09:00 UTC; the last day of 1969; leap day 2000;
    the two ends of the range of dates. *)
Example calendar_examples :
  (JSDate.YearFromTime 1762074000000, JSDate.MonthFromTime 1762074000000,
   JSDate.DateFromTime 1762074000000) = (2025, 10, 2)
  /\ (JSDate.YearFromTime (-1), JSDate.MonthFromTime (-1),
      JSDate.DateFromTime (-1)) = (1969, 11, 31)
  /\ (JSDate.YearFromTime 951782400000, JSDate.MonthFromTime 951782400000,
      JSDate.DateFromTime 951782400000) = (2000, 1, 29)
  /\ JSDate.YearFromTime 8640000000000000 = 275760
  /\ JSDate.YearFromTime (-8640000000000000) = -271821.
Proof. repeat split; vm_compute; reflexivity. Qed.

(** * Dates *)

Lemma MonthFromTime_range t : 0 <= JSDate.MonthFromTime t <= 11.
Proof.
  unfold JSDate.MonthFromTime.
  repeat match goal with |- context [if ?c then _ else _] => destruct c end; lia.
Qed.

(** Moving the day of the month by [n] moves the day number by [n]. *)
Lemma MakeDay_shift t n :
  JSDate.MakeDay (JSDate.YearFromTime t) (JSDate.MonthFromTime t)
    (JSDate.DateFromTime t + n)
  = JSDate.Day t + n.
Proof.
  pose proof (MonthFromTime_range t) as Hm.
  unfold JSDate.MakeDay, JSDate.DateFromTime, JSDate.DayWithinYear,
    JSDate.InLeapYear.
  rewrite (Z.div_small (JSDate.MonthFromTime t) 12) by lia.
  rewrite (Z.mod_small (JSDate.MonthFromTime t) 12) by lia.
  rewrite Z.add_0_r. lia.
Qed.

Section LocalDates.
Context `{Host}.

(** [d.setDate(d.getDate() + n)] is [d] plus [n] calendar days. *)
Lemma setDate_getDate t n :
  JSDate.setDate t (JSDate.getDate t + n) = add_calendar_days t n.
Proof.
  unfold JSDate.setDate, JSDate.getDate, add_calendar_days.
  rewrite MakeDay_shift. f_equal. f_equal.
  unfold JSDate.MakeDate, JSDate.Day, JSDate.TimeWithinDay.
  pose proof (Z.div_mod (JSDate.LocalTime t) JSDate.msPerDay) as Hdm.
  unfold JSDate.msPerDay in *. lia.
Qed.

End LocalDates.

(** In a zone with a fixed offset, inside the range of dates, three
    calendar days are 259200000 milliseconds. *)
Lemma add_calendar_days_fixed_offset (offset t n : Z) :
  Z.abs (t + n * 86400000) <= 8640000000000000 ->
  add_calendar_days
    (H := {| LocalTZA := fun _ _ => offset; localeCompare := code_unit_order |})
    t n
  = TimeValue (t + n * 86400000).
Proof.
  intros Hrange. unfold add_calendar_days, JSDate.TimeClip, JSDate.UTC,
    JSDate.LocalTime, JSDate.msPerDay. simpl.
  replace (t + offset + n * 86400000 - offset) with (t + n * 86400000) by lia.
  destruct (8640000000000000 <? Z.abs (t + n * 86400000)) eqn:Hlt;
    [apply Z.ltb_lt in Hlt; lia|reflexivity].
Qed.

(** * The examples' stores are reachable *)

Lemma store_arroz_reachable : Routes.reachable (H := bogota) store_arroz.
Proof. apply Routes.reachable_request, Routes.reachable_init. Defined.

Lemma store_two_reachable : Routes.reachable (H := bogota) store_two.
Proof. apply Routes.reachable_request, store_arroz_reachable. Defined.

Lemma or_else_falsy {A : Type} (truthy : A -> bool) (v : A) (b : option A) :
  truthy v = false -> or_else truthy (Some v) b = b.
Proof. unfold or_else. now intros ->. Qed.

Lemma or_else_truthy {A : Type} (truthy : A -> bool) (v : A) (b : option A) :
  truthy v = true -> or_else truthy (Some v) b = Some v.
Proof. unfold or_else. now intros ->. Qed.

Lemma string_truthy_iff s : JSString.truthy s = true <-> s <> "".
Proof. destruct s; simpl; split; congruence. Qed.

(** * Deleting the rows with a given identifier *)

Section DeleteWhere.
Context {A : Type} (key : A -> Z) (id : Z).

Lemma filter_length_all (f : A -> bool) (l : list A) :
  length (List.filter f l) = length l -> List.filter f l = l.
Proof.
  induction l as [|x l IH]; simpl; [reflexivity|].
  destruct (f x); simpl.
  - intros Hlen. f_equal. apply IH. lia.
  - intros Hlen. pose proof (filter_length_le f l). lia.
Qed.

(** The rows left are the rows with another identifier. *)
Lemma delete_where_rest (l : list A) x :
  In x (List.filter (fun x => negb (key x =? id)) l) <-> In x l /\ key x <> id.
Proof. now rewrite filter_In, negb_true_iff, Z.eqb_neq. Qed.

(** Some row went exactly when some row had the identifier. *)
Lemma delete_where_flag (l : list A) :
  (0 <? Z.of_nat (length l)
        - Z.of_nat (length (List.filter (fun x => negb (key x =? id)) l))) = true
  <-> exists x, In x l /\ key x = id.
Proof.
  rewrite Z.ltb_lt. induction l as [|a l IH]; simpl.
  - split; [lia|]. now intros (x & [] & _).
  - destruct (Z.eqb_spec (key a) id) as [Hid|Hid]; simpl.
    + pose proof (filter_length_le (fun x => negb (key x =? id)) l).
      split; [intros _; now exists a; split; [left|]|lia].
    + split.
      * intros Hlt. destruct (proj1 IH ltac:(lia)) as (x & Hx & Hxid).
        exists x. split; [now right|exact Hxid].
      * intros (x & [->|Hx] & Hxid); [contradiction|].
        assert (0 < Z.of_nat (length l)
                    - Z.of_nat (length (List.filter
                                          (fun x => negb (key x =? id)) l)))
          by (apply IH; eauto).
        lia.
Qed.

(** When no row went, the table is what it was. *)
Lemma delete_where_none (l : list A) :
  (0 <? Z.of_nat (length l)
        - Z.of_nat (length (List.filter (fun x => negb (key x =? id)) l))) = false
  -> List.filter (fun x => negb (key x =? id)) l = l.
Proof.
  rewrite Z.ltb_ge. intros Hge. apply filter_length_all.
  pose proof (filter_length_le (fun x => negb (key x =? id)) l). lia.
Qed.

End DeleteWhere.

Lemma int4_true id : DatabaseStorage.int4 id = true <-> - 2 ^ 31 <= id < 2 ^ 31.
Proof.
  unfold DatabaseStorage.int4. rewrite andb_true_iff, Z.leb_le, Z.ltb_lt. tauto.
Qed.

Lemma int4_false id :
  DatabaseStorage.int4 id = false <-> id < - 2 ^ 31 \/ 2 ^ 31 <= id.
Proof.
  unfold DatabaseStorage.int4. rewrite andb_false_iff, Z.leb_gt, Z.ltb_ge. tauto.
Qed.

(** * Products: delete *)

(** C9.  In the in-memory store [deleteProduct id] answers true exactly
    when a product with that identifier was stored; it then removes
    that product and no other; when it answers false the store is
    unchanged, and deleting the same identifier again always answers
    false; no identifier makes it fail.  The relational [deleteProduct]
    does the same only for an identifier that fits the 32-bit [id]
    column.  For any other, the statement fails and the promise is
    rejected, where the claim has the answer false and never an
    error. *)
Theorem deleteProduct_true_iff_existed `{Host}
    (id : Z) (st : MemStorage.t) (rows : list DatabaseStorage.ProductRow.t) :
  Routes.reachable st ->
  (let r := MemStorage.deleteProduct id st in
   (fst r = true <->
      exists p, In p (MemStorage.products st) /\ Product.id p = id)
   /\ (fst r = true ->
         MemStorage.getProductById id (snd r) = None
         /\ S (length (MemStorage.products (snd r)))
            = length (MemStorage.products st)
         /\ forall id', id' <> id ->
              MemStorage.getProductById id' (snd r)
              = MemStorage.getProductById id' st)
   /\ (fst r = false -> snd r = st)
   /\ fst (MemStorage.deleteProduct id (snd r)) = false)
  /\ (- 2 ^ 31 <= id < 2 ^ 31 ->
      exists deleted remaining,
        DatabaseStorage.deleteProduct id rows = Resolved (deleted, remaining)
        /\ (deleted = true <->
              exists row, In row rows /\ DatabaseStorage.ProductRow.id row = id)
        /\ (forall row, In row remaining <->
              In row rows /\ DatabaseStorage.ProductRow.id row <> id)
        /\ (deleted = false -> remaining = rows)
        /\ DatabaseStorage.deleteProduct id remaining
           = Resolved (false, remaining))
  /\ (id < - 2 ^ 31 \/ 2 ^ 31 <= id ->
      DatabaseStorage.deleteProduct id rows = Rejected).
Proof.
  intros Hreach. split; [|split].
  { cbn zeta. apply reachable_products_ok in Hreach as [_ Hids _].
      unfold MemStorage.deleteProduct.
      destruct (JSArray.findIndex (MemStorage.has_id id) (MemStorage.products st))
        as [i|] eqn:Hi; simpl.
      - destruct (findIndex_Some _ _ _ Hi) as (p & Hp & Hid & _).
        apply has_id_true in Hid.
        assert (Hgone : forall q, In q (delete i (MemStorage.products st)) ->
                          MemStorage.has_id id q = false).
        { intros q Hq. apply has_id_false. intros Hqid.
          apply (NoDup_delete_not_In _ i id Hids).
          - rewrite lookup_map, Hp. simpl. congruence.
          - rewrite <- map_delete. apply in_map_iff. eauto. }
        repeat split.
        + intros _. exists p. split; [apply In_lookup; eauto|exact Hid].
        + unfold MemStorage.getProductById. simpl. now apply find_None_iff.
        + rewrite length_delete by eauto.
          apply lookup_lt_Some in Hp. lia.
        + intros id' Hne. unfold MemStorage.getProductById. simpl.
          apply (find_other_delete _ _ i p Hp). apply has_id_false. congruence.
        + discriminate.
        + apply findIndex_None in Hgone. now rewrite Hgone.
      - rewrite Hi. simpl. repeat split; try discriminate; try reflexivity.
        intros (p & Hp & Hid). rewrite findIndex_None in Hi.
        specialize (Hi p Hp). apply has_id_false in Hi. congruence. }
  - intros Hrange. apply int4_true in Hrange.
    unfold DatabaseStorage.deleteProduct. rewrite Hrange. cbn zeta.
    eexists _, _. split; [reflexivity|].
    split; [apply delete_where_flag|].
    split; [intros row; apply delete_where_rest|].
    split; [apply delete_where_none|].
    rewrite filter_filter_same, Z.sub_diag. reflexivity.
  - intros Hrange. apply int4_false in Hrange.
    unfold DatabaseStorage.deleteProduct. now rewrite Hrange.
Qed.

(** In the sample store, deleting product 1 answers true and a second
    time false; in the table it leaves AZUCAR.  Product 2147483648
    does not exist: the in-memory store answers false, the relational
    one fails. *)
Lemma deleteProduct_true_iff_existed_witness :
  Routes.reachable (H := bogota) store_two
  /\ fst (MemStorage.deleteProduct 1 store_two) = true
  /\ fst (MemStorage.deleteProduct 1 (snd (MemStorage.deleteProduct 1 store_two)))
     = false
  /\ DatabaseStorage.deleteProduct 1 [arroz_row; azucar_row]
     = Resolved (true, [azucar_row])
  /\ MemStorage.deleteProduct 2147483648 store_two = (false, store_two)
  /\ DatabaseStorage.deleteProduct 2147483648 [arroz_row; azucar_row] = Rejected.
Proof.
  split; [exact store_two_reachable|].
  destruct (deleteProduct_true_iff_existed (H := bogota) 1 store_two
              [arroz_row; azucar_row] store_two_reachable)
    as ((_ & _ & _ & Hagain) & _ & _).
  destruct (deleteProduct_true_iff_existed (H := bogota) 2147483648 store_two
              [arroz_row; azucar_row] store_two_reachable)
    as (_ & _ & Hfails).
  split; [reflexivity|]. split; [exact Hagain|]. split; [reflexivity|].
  split; [reflexivity|]. apply Hfails. right. lia.
Defined.

(** * Products: create *)

Lemma createProduct_get now data st :
  (forall p, In p (MemStorage.products st) ->
     Product.id p < MemStorage.nextProductId st) ->
  MemStorage.getProductById
    (Product.id (fst (MemStorage.createProduct now data st)))
    (snd (MemStorage.createProduct now data st))
  = Some (fst (MemStorage.createProduct now data st)).
Proof.
  intros Hbelow. unfold MemStorage.getProductById. simpl.
  apply find_app_fresh.
  - intros p Hp. apply has_id_false. specialize (Hbelow p Hp). lia.
  - now apply has_id_true.
Qed.

(** C10. In the in-memory store, an insert that supplies stock 0,
    minStock 0, an empty bar code or an empty buyer name is stored with
    null in that field, and reading the new product back returns that
    null. *)
Theorem createProduct_falsy_optional_is_null `{Host}
    (now : Z) (data : InsertProduct.t) (st : MemStorage.t) :
  Routes.reachable st ->
  let product := fst (MemStorage.createProduct now data st) in
  MemStorage.getProductById (Product.id product)
    (snd (MemStorage.createProduct now data st)) = Some product
  /\ (InsertProduct.stock data = Some (JSNumber.of_Z 0) ->
        Product.stock product = None)
  /\ (InsertProduct.minStock data = Some (JSNumber.of_Z 0) ->
        Product.minStock product = None)
  /\ (InsertProduct.barcode data = Some "" -> Product.barcode product = None)
  /\ (InsertProduct.buyerName data = Some "" ->
        Product.buyerName product = None).
Proof.
  intros Hreach. apply reachable_products_ok in Hreach as [Hbelow _ _].
  split; [now apply createProduct_get|].
  simpl. repeat split; intros ->; reflexivity.
Qed.

Lemma createProduct_falsy_optional_is_null_witness :
  Routes.reachable (H := bogota) store_arroz
  /\ Product.stock (fst (MemStorage.createProduct 1762074060000 azucar store_arroz))
     = None
  /\ Product.buyerName
       (fst (MemStorage.createProduct 1762074060000 azucar store_arroz))
     = None.
Proof.
  split; [exact store_arroz_reachable|].
  pose proof (createProduct_falsy_optional_is_null (H := bogota)
                1762074060000 azucar store_arroz store_arroz_reachable)
    as (_ & Hstock & _ & _ & Hbuyer).
  split; [apply Hstock|apply Hbuyer]; reflexivity.
Defined.

(** The same holds for every falsy number: [-0] and [NaN] too. *)
Lemma createProduct_falsy_stock now data st v :
  InsertProduct.stock data = Some v -> JSNumber.truthy v = false ->
  Product.stock (fst (MemStorage.createProduct now data st)) = None.
Proof. simpl. intros -> Hv. now apply or_else_falsy. Qed.

(** * Products: update *)

(** C5. When the patch leaves [profitMargin] out, [updateProduct]
    derives the sale price from the margin stored with that product,
    whatever it is, and keeps that margin. *)
Theorem updateProduct_inherits_stored_margin
    (now id : Z) (data : UpdateProduct.t) (st : MemStorage.t) (old : Product.t) :
  InsertProduct.profitMargin data = None ->
  MemStorage.getProductById id st = Some old ->
  exists product,
    fst (MemStorage.updateProduct now id data st) = Some product
    /\ MemStorage.getProductById id
         (snd (MemStorage.updateProduct now id data st)) = Some product
    /\ Product.salePrice product
       = JSNumber.toFixed2
           (JSNumber.mul
              (JSNumber.parseFloat (InsertProduct.purchasePrice data))
              (JSNumber.add (JSNumber.of_Z 1)
                 (JSNumber.div
                    (JSNumber.parseFloat (Product.profitMargin old))
                    (JSNumber.of_Z 100))))
    /\ Product.profitMargin product
       = JSNumber.toString (JSNumber.parseFloat (Product.profitMargin old)).
Proof.
  intros Hmargin Hold.
  pose proof (getProductById_updateProduct now id data st old Hold) as Hget.
  destruct (updateProduct_found now id data st old Hold)
    as (i & product & _ & _ & Hupd & _ & _ & _ & Hsale & Hpm & _).
  rewrite Hupd in Hget |- *. simpl in Hget |- *.
  exists product. rewrite Hmargin in Hsale, Hpm. simpl in Hsale, Hpm.
  repeat split; assumption.
Qed.

(** ARROZ was stored with a margin of 25; a patch without margin
    prices 200 at 250.00, not at the 240.00 a margin of 20 gives. *)
Lemma updateProduct_inherits_stored_margin_witness :
  InsertProduct.profitMargin arroz_patch = None
  /\ (exists old, MemStorage.getProductById 1 store_two = Some old
                  /\ Product.profitMargin old = "25")
  /\ exists product,
       fst (MemStorage.updateProduct 1762074120000 1 arroz_patch store_two)
       = Some product
       /\ Product.salePrice product = "250.00"
       /\ Product.profitMargin product = "25".
Proof.
  split; [reflexivity|]. split; [eexists; split; reflexivity|].
  destruct (updateProduct_inherits_stored_margin 1762074120000 1 arroz_patch
              store_two _ eq_refl eq_refl)
    as (product & Hfst & _ & Hsale & Hpm).
  exists product. repeat split; assumption.
Defined.

(** C8, as worded, fails: ARROZ carries the bar code 7702001; a valid
    patch with the empty bar code leaves that code in place, so the
    supplied field is not what [getProductById] returns. *)
Lemma update_ignores_empty_barcode : ~ update_reflects_patch.
Proof.
  intros Hclaim.
  destruct (Hclaim 1762074120000 1 arroz_patch store_two _ eq_refl eq_refl)
    as (product & Hget & _ & _ & Hbarcode & _).
  specialize (Hbarcode "" eq_refl).
  vm_compute in Hget. injection Hget as <-. discriminate Hbarcode.
Qed.

(** C8, amended. After [updateProduct id patch] on a stored product,
    [getProductById id] returns the updated record, in which: name,
    purchasePrice, stock and minStock are the supplied ones, a stock or
    minStock left out keeping its value; a bar code or buyer name is
    taken from the patch when it is a non-empty string and otherwise
    (left out, or empty) keeps its value; the margin is the supplied
    one when it is a non-empty string and otherwise the stored one; the
    sale price is derived afresh from the new purchase price and that
    margin, and the margin is written back in number form; identifier
    and creation time are kept.  Other products are untouched. *)
Theorem updateProduct_then_get
    (now id : Z) (data : UpdateProduct.t) (st : MemStorage.t) (old : Product.t) :
  MemStorage.getProductById id st = Some old ->
  exists product,
    fst (MemStorage.updateProduct now id data st) = Some product
    /\ MemStorage.getProductById id
         (snd (MemStorage.updateProduct now id data st)) = Some product
    /\ Product.id product = id
    /\ Product.createdAt product = Product.createdAt old
    /\ Product.name product = InsertProduct.name data
    /\ Product.purchasePrice product = InsertProduct.purchasePrice data
    /\ (forall v, InsertProduct.stock data = Some v ->
          Product.stock product = Some v)
    /\ (InsertProduct.stock data = None ->
          Product.stock product = Product.stock old)
    /\ (forall v, InsertProduct.minStock data = Some v ->
          Product.minStock product = Some v)
    /\ (InsertProduct.minStock data = None ->
          Product.minStock product = Product.minStock old)
    /\ (forall v, InsertProduct.barcode data = Some v -> v <> "" ->
          Product.barcode product = Some v)
    /\ (InsertProduct.barcode data = None \/ InsertProduct.barcode data = Some "" ->
          Product.barcode product = Product.barcode old)
    /\ (forall v, InsertProduct.buyerName data = Some v -> v <> "" ->
          Product.buyerName product = Some v)
    /\ (InsertProduct.buyerName data = None
        \/ InsertProduct.buyerName data = Some "" ->
          Product.buyerName product = Product.buyerName old)
    /\ (exists margin,
          (forall v, InsertProduct.profitMargin data = Some v -> v <> "" ->
             margin = JSNumber.parseFloat v)
          /\ (InsertProduct.profitMargin data = None
              \/ InsertProduct.profitMargin data = Some "" ->
                margin = JSNumber.parseFloat (Product.profitMargin old))
          /\ Product.profitMargin product = JSNumber.toString margin
          /\ Product.salePrice product
             = JSNumber.toFixed2
                 (JSNumber.mul
                    (JSNumber.parseFloat (InsertProduct.purchasePrice data))
                    (JSNumber.add (JSNumber.of_Z 1)
                       (JSNumber.div margin (JSNumber.of_Z 100)))))
    /\ forall id', id' <> id ->
         MemStorage.getProductById id'
           (snd (MemStorage.updateProduct now id data st))
         = MemStorage.getProductById id' st.
Proof.
  intros Hold.
  pose proof (getProductById_updateProduct now id data st old Hold) as Hget.
  pose proof (fun id' => getProductById_updateProduct_other now id id' data st)
    as Hother.
  destruct (updateProduct_found now id data st old Hold)
    as (i & product & _ & _ & Hupd & Hid & Hname & Hprice & Hsale & Hpm
        & Hbarcode & Hbuyer & Hstock & Hmin & Hcreated & _).
  rewrite Hupd in Hget, Hother |- *. cbn [fst snd] in Hget, Hother |- *.
  exists product.
  repeat match goal with |- _ /\ _ => split end; try assumption; try reflexivity.
  - intros v Hv. now rewrite Hstock, Hv.
  - intros Hv. now rewrite Hstock, Hv.
  - intros v Hv. now rewrite Hmin, Hv.
  - intros Hv. now rewrite Hmin, Hv.
  - intros v Hv Hne. rewrite Hbarcode, Hv.
    now apply or_else_truthy, string_truthy_iff.
  - intros [Hv|Hv]; rewrite Hbarcode, Hv; reflexivity.
  - intros v Hv Hne. rewrite Hbuyer, Hv.
    now apply or_else_truthy, string_truthy_iff.
  - intros [Hv|Hv]; rewrite Hbuyer, Hv; reflexivity.
  - eexists. split; [|split; [|split; [exact Hpm|exact Hsale]]].
    + intros v Hv Hne. rewrite Hv. cbn [MemStorage.margin_or].
      apply string_truthy_iff in Hne. now rewrite Hne.
    + intros [Hv|Hv]; rewrite Hv; reflexivity.
Qed.

Lemma updateProduct_then_get_witness :
  (exists old, MemStorage.getProductById 1 store_two = Some old
               /\ Product.barcode old = Some "7702001")
  /\ exists product,
       MemStorage.getProductById 1
         (snd (MemStorage.updateProduct 1762074120000 1 arroz_patch store_two))
       = Some product
       /\ Product.purchasePrice product = "200"
       /\ Product.stock product = Some (JSNumber.of_Z 0)
       /\ Product.barcode product = Some "7702001"
       /\ Product.salePrice product = "250.00".
Proof.
  split; [eexists; split; reflexivity|].
  destruct (updateProduct_then_get 1762074120000 1 arroz_patch store_two _ eq_refl)
    as (product & _ & Hget & _ & _ & _ & Hprice & Hstock & _ & _ & _ & _
        & Hbarcode & _ & _ & (margin & _ & Hmargin & _ & Hsale) & _).
  exists product. split; [exact Hget|]. split; [exact Hprice|].
  split; [exact (Hstock _ eq_refl)|].
  split; [exact (Hbarcode (or_intror eq_refl))|].
  rewrite Hsale, (Hmargin (or_introl eq_refl)). reflexivity.
Defined.

(** * Product names *)

(** C6. In every store the server reaches, and for every body that
    passes validation: posting a name some product already has is
    answered 400 "Product with this name already exists" and changes
    nothing; putting to a product a name another product has is
    answered the same way and changes nothing; putting to a product its
    own current name is answered 200 with the updated product. *)
Theorem duplicate_product_name_rejected `{Host}
    (now : Z) (data : InsertProduct.t) (st : MemStorage.t) :
  Routes.reachable st ->
  Schema.insertProductSchema data = [] ->
  (forall existing,
     In existing (MemStorage.products st) ->
     Product.name existing = InsertProduct.name data ->
     Routes.handle true (Routes.PostProduct now data) st
     = (Routes.duplicate_name, st))
  /\ (forall id target other,
        MemStorage.getProductById id st = Some target ->
        In other (MemStorage.products st) ->
        Product.id other <> id ->
        Product.name other = InsertProduct.name data ->
        Routes.handle true (Routes.PutProduct now (Some id) data) st
        = (Routes.duplicate_name, st))
  /\ (forall id target,
        MemStorage.getProductById id st = Some target ->
        Product.name target = InsertProduct.name data ->
        exists product,
          Routes.handle true (Routes.PutProduct now (Some id) data) st
          = (Routes.json 200 (Routes.ProductJson (Some product)),
             snd (MemStorage.updateProduct now id data st))
          /\ MemStorage.getProductById id
               (snd (MemStorage.updateProduct now id data st)) = Some product
          /\ Product.name product = Product.name target).
Proof.
  intros Hreach Hvalid.
  apply reachable_products_ok in Hreach as [_ _ Hnames].
  repeat split.
  - intros existing Hin Hname.
    change (Routes.handle true (Routes.PostProduct now data) st)
      with (Routes.post_product now data st).
    unfold Routes.post_product.
    rewrite Hvalid, <- Hname, (getProductByName_unique st existing Hnames Hin).
    reflexivity.
  - intros id target other Htarget Hin Hid Hname.
    change (Routes.handle true (Routes.PutProduct now (Some id) data) st)
      with (Routes.put_product now (Some id) data st).
    unfold Routes.put_product, Schema.updateProductSchema.
    rewrite Hvalid, Htarget, <- Hname,
      (getProductByName_unique st other Hnames Hin).
    apply Z.eqb_neq in Hid. rewrite Hid. reflexivity.
  - intros id target Htarget Hname.
    pose proof (getProductById_updateProduct now id data st target Htarget)
      as Hget.
    destruct (updateProduct_found now id data st target Htarget)
      as (i & product & _ & _ & Hupd & _ & Hpname & _).
    assert (Hfst : fst (MemStorage.updateProduct now id data st) = Some product)
      by now rewrite Hupd.
    rewrite Hfst in Hget.
    exists product. split; [|split; [exact Hget|congruence]].
    change (Routes.handle true (Routes.PutProduct now (Some id) data) st)
      with (Routes.put_product now (Some id) data st).
    unfold Routes.put_product, Schema.updateProductSchema.
    pose proof (getProductById_Some _ _ _ Htarget) as [Hin Hid].
    rewrite Hvalid, Htarget, <- Hname,
      (getProductByName_unique st target Hnames Hin).
    apply Z.eqb_eq in Hid. rewrite Hid. cbn [negb].
    destruct (MemStorage.updateProduct now id data st) as [result st'].
    simpl in Hfst. now rewrite Hfst.
Qed.

Lemma duplicate_product_name_rejected_witness :
  Routes.reachable (H := bogota) store_two
  /\ Schema.insertProductSchema arroz_patch = []
  /\ Routes.handle (H := bogota) true
       (Routes.PostProduct 1762074120000 arroz_patch) store_two
     = (Routes.duplicate_name, store_two)
  /\ Routes.handle (H := bogota) true
       (Routes.PutProduct 1762074120000 (Some 2) arroz_patch) store_two
     = (Routes.duplicate_name, store_two)
  /\ exists product,
       Routes.handle (H := bogota) true
         (Routes.PutProduct 1762074120000 (Some 1) arroz_patch) store_two
       = (Routes.json 200 (Routes.ProductJson (Some product)),
          snd (MemStorage.updateProduct 1762074120000 1 arroz_patch store_two)).
Proof.
  split; [exact store_two_reachable|]. split; [reflexivity|].
  destruct (duplicate_product_name_rejected (H := bogota) 1762074120000
              arroz_patch store_two store_two_reachable eq_refl)
    as (Hpost & Hput & Hown).
  split; [|split].
  - eapply Hpost; [left; reflexivity|reflexivity].
  - eapply (Hput 2); [reflexivity|left; reflexivity|discriminate|reflexivity].
  - destruct (Hown 1 _ eq_refl eq_refl) as (product & Hresp & _).
    exists product. exact Hresp.
Defined.

(** * Sorting *)

Section SortFacts.
Context {A : Type} (cmp : A -> A -> Z).

Lemma sort_insert_perm x l : Permutation (JSArray.sort_insert cmp x l) (x :: l).
Proof.
  induction l as [|y l IH]; simpl; [reflexivity|].
  destruct (cmp x y <=? 0); [reflexivity|].
  rewrite IH. apply perm_swap.
Qed.

Lemma sort_perm l : Permutation (JSArray.sort cmp l) l.
Proof.
  induction l as [|x l IH]; simpl; [constructor|].
  unfold JSArray.sort in IH. rewrite sort_insert_perm. now constructor.
Qed.

Lemma sort_In l x : In x (JSArray.sort cmp l) <-> In x l.
Proof.
  split; apply Permutation_in; [|symmetry]; apply sort_perm.
Qed.


Hypothesis total : forall a b, 0 < cmp a b -> cmp b a <= 0.

Lemma sort_insert_sorted x l :
  Sorted (not_after cmp) l -> Sorted (not_after cmp) (JSArray.sort_insert cmp x l).
Proof.
  induction l as [|y l IH]; intros Hl; simpl.
  - repeat constructor.
  - destruct (cmp x y <=? 0) eqn:Hxy.
    + constructor; [exact Hl|]. constructor. now apply Z.leb_le.
    + apply Z.leb_gt in Hxy. inversion Hl as [|? ? Hl' Hhd]; subst.
      constructor; [now apply IH|].
      destruct l as [|z l]; simpl.
      * constructor. now apply total.
      * destruct (cmp x z <=? 0).
        -- constructor. now apply total.
        -- inversion Hhd; subst. now constructor.
Qed.

Lemma sort_sorted l : Sorted (not_after cmp) (JSArray.sort cmp l).
Proof.
  induction l as [|x l IH]; simpl; [constructor|].
  now apply sort_insert_sorted.
Qed.

Lemma sort_strongly_sorted l :
  (forall a b c, cmp a b <= 0 -> cmp b c <= 0 -> cmp a c <= 0) ->
  StronglySorted (not_after cmp) (JSArray.sort cmp l).
Proof.
  intros Htrans. apply Sorted_StronglySorted; [|apply sort_sorted].
  intros a b c. apply Htrans.
Qed.

End SortFacts.

(** * Strings *)

Lemma prefix_spec t s :
  String.prefix t s = true <-> exists post, s = String.append t post.
Proof.
  revert s. induction t as [|c t IH]; intros [|d s]; simpl.
  - split; [intros _; now exists ""|reflexivity].
  - split; [intros _; now exists (String d s)|reflexivity].
  - split; [discriminate|intros [post Hp]; discriminate].
  - destruct (ascii_dec c d) as [->|Hne].
    + rewrite IH. split; intros [post Hp]; exists post; congruence.
    + split; [discriminate|]. intros [post Hp]. congruence.
Qed.

Lemma includes_nil t : JSString.includes "" t = String.prefix t "" || false.
Proof. reflexivity. Qed.

Lemma includes_cons c s t :
  JSString.includes (String c s) t
  = String.prefix t (String c s) || JSString.includes s t.
Proof. reflexivity. Qed.

Lemma includes_spec s t : JSString.includes s t = true <-> contains s t.
Proof.
  unfold contains. induction s as [|c s IH].
  - rewrite includes_nil, orb_false_r, prefix_spec. split.
    + intros [post Hp]. now exists "", post.
    + intros ([|d pre] & post & Hp); [now exists post|discriminate].
  - rewrite includes_cons, orb_true_iff, prefix_spec, IH. split.
    + intros [[post Hp]|(pre & post & Hp)].
      * now exists "", post.
      * exists (String c pre), post. simpl. now rewrite Hp.
    + intros ([|d pre] & post & Hp).
      * left. now exists post.
      * right. simpl in Hp. injection Hp as _ Hp. now exists pre, post.
Qed.

(** * Search *)

(** In the in-memory store, under a consistent collation,
    [searchProducts query] returns the first ten (or all, if fewer) of
    the list made of exactly the products whose name contains the
    upper-cased query, sorted ascending by name: truncation comes after
    sorting. *)
Lemma searchProducts_first_ten_by_name `{Host}
    (query : string) (st : MemStorage.t) :
  consistent localeCompare ->
  exists rest,
    let result := MemStorage.searchProducts query st in
    (forall p, In p (result ++ rest) <->
       In p (MemStorage.products st)
       /\ contains (Product.name p) (JSString.toUpperCase query))
    /\ Permutation (result ++ rest)
         (List.filter (MemStorage.matches query) (MemStorage.products st))
    /\ StronglySorted (not_after MemStorage.by_name) (result ++ rest)
    /\ length result = Nat.min 10 (length (result ++ rest)).
Proof.
  intros [Htotal Htrans].
  set (hits := List.filter (MemStorage.matches query) (MemStorage.products st)).
  exists (drop 10 (JSArray.sort MemStorage.by_name hits)).
  unfold MemStorage.searchProducts. fold hits. cbn zeta.
  rewrite take_drop. split; [|split; [|split]].
  - intros p. rewrite sort_In. unfold hits. rewrite filter_In.
    unfold MemStorage.matches. now rewrite includes_spec.
  - apply sort_perm.
  - apply sort_strongly_sorted.
    + intros a b. apply Htotal.
    + intros a b c. apply Htrans.
  - apply length_take.
Qed.

(** * The example host's collation is consistent *)

Lemma compare_not_Gt_trans a b c :
  String.compare a b <> Gt -> String.compare b c <> Gt ->
  String.compare a c <> Gt.
Proof.
  revert b c. induction a as [|x a IH]; intros [|y b] [|z c]; simpl;
    try congruence.
  unfold Ascii.compare.
  destruct (N.compare_spec (N_of_ascii x) (N_of_ascii y)) as [Hxy|Hxy|Hxy];
    destruct (N.compare_spec (N_of_ascii y) (N_of_ascii z)) as [Hyz|Hyz|Hyz];
    destruct (N.compare_spec (N_of_ascii x) (N_of_ascii z)) as [Hxz|Hxz|Hxz];
    try congruence; try lia.
  apply IH.
Qed.

Lemma code_unit_order_consistent : consistent code_unit_order.
Proof.
  split; unfold code_unit_order.
  - intros a b. rewrite (String.compare_antisym b a).
    destruct (String.compare a b); simpl; lia.
  - intros a b c Hab Hbc.
    pose proof (compare_not_Gt_trans a b c) as Htrans.
    destruct (String.compare a b), (String.compare b c),
      (String.compare a c); try lia; exfalso; apply Htrans; congruence.
Qed.

Lemma searchProducts_first_ten_by_name_example :
  consistent (localeCompare (Host := bogota))
  /\ exists rest,
       let result := MemStorage.searchProducts (H := bogota) "ar" store_two in
       (forall p, In p (result ++ rest) <->
          In p (MemStorage.products store_two)
          /\ contains (Product.name p) (JSString.toUpperCase "ar"))
       /\ Permutation (result ++ rest)
            (List.filter (MemStorage.matches "ar") (MemStorage.products store_two))
       /\ StronglySorted (not_after (MemStorage.by_name (H := bogota)))
            (result ++ rest)
       /\ length result = Nat.min 10 (length (result ++ rest)).
Proof.
  split; [exact code_unit_order_consistent|].
  exact (searchProducts_first_ten_by_name (H := bogota) "ar" store_two
           code_unit_order_consistent).
Defined.

(** * Announcements *)

Lemma by_createdAt_total a b :
  0 < MemStorage.by_createdAt a b -> MemStorage.by_createdAt b a <= 0.
Proof.
  unfold MemStorage.by_createdAt.
  destruct (JSDate.getTime (BusinessNews.createdAt a)),
    (JSDate.getTime (BusinessNews.createdAt b)); lia.
Qed.

Lemma shown_active now news : MemStorage.shown now news = true <-> active now news.
Proof.
  unfold MemStorage.shown, active. rewrite orb_true_iff.
  destruct (BusinessNews.expiresAt news) as [[t|]|]; simpl.
  - rewrite Z.ltb_lt. split; (intros [Hp|Ht]; [now left|right]).
    + eauto.
    + destruct Ht as (t' & [= <-] & Hlt). exact Hlt.
  - split; (intros [Hp|Ht]; [now left|]); [discriminate|].
    now destruct Ht as (t' & [=] & _).
  - split; (intros [Hp|Ht]; [now left|]); [discriminate|].
    now destruct Ht as (t' & [=] & _).
Qed.

Lemma sorted_by_creation_time (l : list BusinessNews.t) :
  (forall news, In news l -> exists t, BusinessNews.createdAt news = TimeValue t) ->
  Sorted (not_after MemStorage.by_createdAt) l ->
  StronglySorted Z.le (map created_ms l).
Proof.
  intros Hvalid Hsorted. apply Sorted_StronglySorted; [exact Z.le_trans|].
  induction Hsorted as [|a l Hl IH Hhd]; simpl; [constructor|].
  constructor; [apply IH; intros news Hin; apply Hvalid; now right|].
  destruct Hhd as [|b l Hab]; simpl; constructor.
  destruct (Hvalid a (or_introl eq_refl)) as [ta Ha].
  destruct (Hvalid b (or_intror (or_introl eq_refl))) as [tb Hb].
  unfold not_after, MemStorage.by_createdAt in Hab.
  unfold created_ms. rewrite Ha, Hb in *. simpl in *. lia.
Qed.

Lemma row_by_createdAt_total a b :
  0 < DatabaseStorage.by_createdAt a b -> DatabaseStorage.by_createdAt b a <= 0.
Proof.
  unfold DatabaseStorage.by_createdAt.
  destruct (JSDate.getTime (DatabaseStorage.NewsRow.createdAt a)),
    (JSDate.getTime (DatabaseStorage.NewsRow.createdAt b)); lia.
Qed.

Lemma rows_sorted_by_creation_time (l : list DatabaseStorage.NewsRow.t) :
  (forall row, In row l ->
     exists t, DatabaseStorage.NewsRow.createdAt row = TimeValue t) ->
  Sorted (not_after DatabaseStorage.by_createdAt) l ->
  StronglySorted Z.le (map row_created_ms l).
Proof.
  intros Hvalid Hsorted. apply Sorted_StronglySorted; [exact Z.le_trans|].
  induction Hsorted as [|a l Hl IH Hhd]; simpl; [constructor|].
  constructor; [apply IH; intros row Hin; apply Hvalid; now right|].
  destruct Hhd as [|b l Hab]; simpl; constructor.
  destruct (Hvalid a (or_introl eq_refl)) as [ta Ha].
  destruct (Hvalid b (or_intror (or_introl eq_refl))) as [tb Hb].
  unfold not_after, DatabaseStorage.by_createdAt in Hab.
  unfold row_created_ms. rewrite Ha, Hb in *. simpl in *. lia.
Qed.

(** The condition of the relational listing: the local wall-clock
    reading of [now] is before the expiry. *)
Lemma listed_iff `{Host} now row :
  DatabaseStorage.lt (TimeValue (JSDate.LocalTime now))
    (DatabaseStorage.NewsRow.expiresAt row) = true
  <-> exists t, DatabaseStorage.NewsRow.expiresAt row = TimeValue t
                /\ now + LocalTZA now true < t.
Proof.
  unfold DatabaseStorage.lt, JSDate.LocalTime.
  destruct (DatabaseStorage.NewsRow.expiresAt row) as [t|]; simpl.
  - rewrite Z.ltb_lt. split; [eauto|]. now intros (t' & [= <-] & Hlt).
  - split; [discriminate|]. now intros (t' & [=] & _).
Qed.

(** C3.  In the in-memory store [getAllBusinessNews] returns exactly
    the active announcements (permanent, or with [now < expiresAt]),
    each as often as it is stored, so every permanent announcement is
    among them, in the order of the comparator on [createdAt], which
    for announcements created at valid dates means ascending creation
    times.  The relational [getAllBusinessNews] returns its rows in
    that order too, but selects them by comparing the local wall-clock
    reading of [now] with the UTC wall-clock reading of [expiresAt]:
    it lists the rows with [now + offset < expiresAt], [offset] being
    the local zone's offset from UTC at [now].  That is the claim's
    [now < expiresAt] only where the offset is zero.  West of UTC an
    announcement stays listed after it expired, for as long as the
    zone is behind UTC; east of UTC it leaves the list that long
    before it expires. *)
Theorem getAllBusinessNews_active_by_creation `{Host}
    (now : Z) (st : MemStorage.t) (rows : list DatabaseStorage.NewsRow.t) :
  (let result := MemStorage.getAllBusinessNews now st in
   (forall news, In news result <->
      In news (MemStorage.businessNews st) /\ active now news)
   /\ (forall news, BusinessNews.isPermanent news = true ->
         In news (MemStorage.businessNews st) -> In news result)
   /\ Permutation result
        (List.filter (MemStorage.shown now) (MemStorage.businessNews st))
   /\ Sorted (not_after MemStorage.by_createdAt) result
   /\ ((forall news, In news (MemStorage.businessNews st) ->
          exists t, BusinessNews.createdAt news = TimeValue t) ->
       StronglySorted Z.le (map created_ms result)))
  /\ (let listed := DatabaseStorage.getAllBusinessNews now rows in
      (forall row, In row listed <->
         In row rows
         /\ exists t, DatabaseStorage.NewsRow.expiresAt row = TimeValue t
                      /\ now + LocalTZA now true < t)
      /\ Permutation listed
           (List.filter
              (fun row =>
                 DatabaseStorage.lt (TimeValue (JSDate.LocalTime now))
                   (DatabaseStorage.NewsRow.expiresAt row))
              rows)
      /\ Sorted (not_after DatabaseStorage.by_createdAt) listed
      /\ ((forall row, In row rows ->
             exists t, DatabaseStorage.NewsRow.createdAt row = TimeValue t) ->
          StronglySorted Z.le (map row_created_ms listed))
      /\ (LocalTZA now true = 0 ->
          forall row, In row listed <->
            In row rows
            /\ exists t, DatabaseStorage.NewsRow.expiresAt row = TimeValue t
                         /\ now < t)
      /\ (forall row t,
            In row rows ->
            DatabaseStorage.NewsRow.expiresAt row = TimeValue t ->
            now + LocalTZA now true < t <= now ->
            In row listed)
      /\ (forall row t,
            In row rows ->
            DatabaseStorage.NewsRow.expiresAt row = TimeValue t ->
            now < t <= now + LocalTZA now true ->
            ~ In row listed)).
Proof.
  split.
  { unfold MemStorage.getAllBusinessNews. cbn zeta.
    assert (Hmem : forall news,
              In news (JSArray.sort MemStorage.by_createdAt
                         (List.filter (MemStorage.shown now)
                            (MemStorage.businessNews st))) <->
              In news (MemStorage.businessNews st) /\ active now news).
    { intros news. now rewrite sort_In, filter_In, shown_active. }
    split; [exact Hmem|]. split; [|split; [|split]].
    - intros news Hperm Hin. apply Hmem. split; [exact Hin|now left].
    - apply sort_perm.
    - apply sort_sorted, by_createdAt_total.
    - intros Hvalid. apply sorted_by_creation_time.
      + intros news Hin. apply Hvalid. now apply Hmem in Hin.
      + apply sort_sorted, by_createdAt_total. }
  unfold DatabaseStorage.getAllBusinessNews. cbn zeta.
  assert (Hrow : forall row,
            In row (JSArray.sort DatabaseStorage.by_createdAt
                      (List.filter
                         (fun row =>
                            DatabaseStorage.lt (TimeValue (JSDate.LocalTime now))
                              (DatabaseStorage.NewsRow.expiresAt row))
                         rows)) <->
            In row rows
            /\ exists t, DatabaseStorage.NewsRow.expiresAt row = TimeValue t
                         /\ now + LocalTZA now true < t).
  { intros row. now rewrite sort_In, filter_In, listed_iff. }
  split; [exact Hrow|]. split; [apply sort_perm|].
  split; [apply sort_sorted, row_by_createdAt_total|].
  split; [|split; [|split]].
  - intros Hvalid. apply rows_sorted_by_creation_time.
    + intros row Hin. apply Hvalid. now apply Hrow in Hin.
    + apply sort_sorted, row_by_createdAt_total.
  - intros Hzero row. rewrite Hrow, Hzero, Z.add_0_r. reflexivity.
  - intros row t Hin Hexp Hlate. apply Hrow. split; [exact Hin|].
    exists t. split; [exact Hexp|lia].
  - intros row t Hin Hexp Hearly Hlisted. apply Hrow in Hlisted as [_ Ht].
    destruct Ht as (t' & Hexp' & Hlt). rewrite Hexp in Hexp'.
    injection Hexp' as <-. lia.
Qed.

(** * Announcements: what a request does to the stored list *)

Section NewsHandlers.
Context `{Host}.

Lemma createBusinessNews_expiresAt now now' data st :
  BusinessNews.expiresAt (fst (MemStorage.createBusinessNews now now' data st))
  = if BusinessNews.isPermanent
         (fst (MemStorage.createBusinessNews now now' data st))
    then None else Some (add_calendar_days now' 3).
Proof.
  simpl. destruct (InsertBusinessNews.isPermanent data) as [[]|]; simpl;
    now rewrite ?setDate_getDate.
Qed.

Lemma createBusinessNews_news_ok now now' data st :
  news_ok (fst (MemStorage.createBusinessNews now now' data st)).
Proof.
  split.
  - now exists now.
  - rewrite createBusinessNews_expiresAt.
    destruct (BusinessNews.isPermanent _); split; congruence.
Qed.

(** A request never alters a stored announcement: each announcement
    stored afterwards was stored before, or is the one the request
    created. *)
Lemma handle_news_from isAuthenticated req st news :
  In news (MemStorage.businessNews (snd (Routes.handle isAuthenticated req st))) ->
  In news (MemStorage.businessNews st)
  \/ exists now now' data,
       req = Routes.PostNews now now' data
       /\ news = fst (MemStorage.createBusinessNews now now' data st).
Proof.
  unfold Routes.handle. destruct isAuthenticated; cbn [negb]; [|now left].
  destruct req as [|q|id|now data|now id data|id|now|now now' data|id|now|now now'];
    try (now left).
  - destruct q as [q|]; [destruct (JSString.truthy q)|]; now left.
  - destruct id as [id|]; [destruct (MemStorage.getProductById id st)|]; now left.
  - unfold Routes.post_product.
    destruct (Schema.insertProductSchema data); [|now left].
    destruct (MemStorage.getProductByName _ st); now left.
  - unfold Routes.put_product. destruct id as [id|]; [|now left].
    destruct (Schema.updateProductSchema data); [|now left].
    destruct (MemStorage.getProductById id st) eqn:Hget; [|now left].
    assert (Hsame : MemStorage.businessNews
                      (snd (MemStorage.updateProduct now id data st))
                    = MemStorage.businessNews st).
    { destruct (updateProduct_found now id data st _ Hget)
        as (i & product & _ & _ & -> & _). reflexivity. }
    destruct (MemStorage.updateProduct now id data st) as [result st'].
    cbn [snd] in Hsame.
    destruct (MemStorage.getProductByName _ st) as [dup|];
      [destruct (negb _)|]; cbn [snd]; rewrite ?Hsame; now left.
  - unfold Routes.delete_product. destruct id as [id|]; [|now left].
    unfold MemStorage.deleteProduct.
    destruct (JSArray.findIndex _ _); now left.
  - cbn [snd MemStorage.createBusinessNews MemStorage.businessNews
           MemStorage.with_businessNews].
    intros Hin. apply in_app_or in Hin as [Hin|[<-|[]]]; [now left|].
    right. now exists now, now', data.
  - unfold Routes.delete_news. destruct id as [id|]; [|now left].
    unfold MemStorage.deleteBusinessNews.
    destruct (JSArray.findIndex _ _) as [i|]; [|now left].
    cbn [snd MemStorage.businessNews MemStorage.with_businessNews].
    intros Hin. left. now apply In_delete in Hin.
  - cbn [snd MemStorage.deleteExpiredNews MemStorage.businessNews
           MemStorage.with_businessNews].
    intros Hin. left. now apply filter_In in Hin.
Qed.

Lemma reachable_news_ok st news :
  Routes.reachable st -> In news (MemStorage.businessNews st) -> news_ok news.
Proof.
  intros Hreach. revert news.
  induction Hreach as [|st isAuthenticated req _ IH|st insertUser _ IH];
    intros news Hin.
  - destruct Hin.
  - apply handle_news_from in Hin as [Hin|(now & now' & data & _ & ->)].
    + now apply IH.
    + apply createBusinessNews_news_ok.
  - now apply IH.
Qed.

End NewsHandlers.

(** * Announcements: the sweep *)

Lemma kept_iff now news :
  MemStorage.kept now news = true <->
  (exists t, BusinessNews.expiresAt news = Some (TimeValue t) /\ now < t)
  \/ (BusinessNews.expiresAt news = None /\ now < 0).
Proof.
  unfold MemStorage.kept.
  destruct (BusinessNews.expiresAt news) as [[t|]|]; simpl.
  - rewrite Z.ltb_lt. split.
    + intros Hlt. left. eauto.
    + intros [(t' & [= <-] & Hlt)|[[=] _]]. exact Hlt.
  - split; [discriminate|]. now intros [(t' & [=] & _)|[[=] _]].
  - rewrite Z.ltb_lt. split.
    + intros Hlt. now right.
    + intros [(t' & [=] & _)|[_ Hlt]]. exact Hlt.
Qed.

(** The sweep returns the number of announcements it removed. *)
Lemma deleteExpiredNews_count now st :
  fst (MemStorage.deleteExpiredNews now st)
  = Z.of_nat (length (List.filter (fun news => negb (MemStorage.kept now news))
                        (MemStorage.businessNews st))).
Proof.
  simpl. induction (MemStorage.businessNews st) as [|news l IH]; simpl;
    [reflexivity|].
  destruct (MemStorage.kept now news); simpl; lia.
Qed.

(** An announcement with an expiry date is swept exactly when that
    date is not after [now]. *)
Lemma deleteExpiredNews_expiring now st news t :
  In news (MemStorage.businessNews st) ->
  BusinessNews.expiresAt news = Some (TimeValue t) ->
  (In news (MemStorage.businessNews (snd (MemStorage.deleteExpiredNews now st)))
   <-> now < t).
Proof.
  intros Hin Ht. simpl. rewrite filter_In, kept_iff. split.
  - intros [_ [(t' & Ht' & Hlt)|[Hnone _]]]; congruence.
  - intros Hlt. split; [exact Hin|]. left. eauto.
Qed.

(** A second sweep at the same instant removes nothing. *)
Lemma deleteExpiredNews_twice now st :
  fst (MemStorage.deleteExpiredNews now (snd (MemStorage.deleteExpiredNews now st)))
  = 0.
Proof. simpl. rewrite filter_filter_same. lia. Qed.

(** C2 fails in the in-memory store: at any [now] from the epoch on,
    the sweep removes every permanent announcement (its [expiresAt] is
    null, which [new Date] reads as the epoch), although
    [getAllBusinessNews] lists it as active; the count it returns
    includes it. *)
Theorem deleteExpiredNews_removes_permanent `{Host}
    (now : Z) (st : MemStorage.t) (news : BusinessNews.t) :
  Routes.reachable st ->
  0 <= now ->
  In news (MemStorage.businessNews st) ->
  BusinessNews.isPermanent news = true ->
  In news (MemStorage.getAllBusinessNews now st)
  /\ ~ In news (MemStorage.businessNews (snd (MemStorage.deleteExpiredNews now st)))
  /\ 0 < fst (MemStorage.deleteExpiredNews now st).
Proof.
  intros Hreach Hnow Hin Hperm.
  pose proof (reachable_news_ok st news Hreach Hin) as [_ Hnone].
  apply Hnone in Hperm as Hexp.
  assert (Hswept : MemStorage.kept now news = false).
  { destruct (MemStorage.kept now news) eqn:Hk; [|reflexivity].
    apply kept_iff in Hk as [(t & Ht & _)|[_ Hlt]]; [congruence|lia]. }
  split; [|split].
  - unfold MemStorage.getAllBusinessNews. apply sort_In, filter_In.
    split; [exact Hin|]. apply shown_active. now left.
  - simpl. rewrite filter_In. intros [_ Hk]. congruence.
  - rewrite deleteExpiredNews_count.
    assert (Hin' : In news (List.filter (fun n => negb (MemStorage.kept now n))
                              (MemStorage.businessNews st))).
    { apply filter_In. split; [exact Hin|now rewrite Hswept]. }
    destruct (List.filter _ _); [destruct Hin'|simpl; lia].
Qed.

Lemma store_news_reachable : Routes.reachable (H := bogota) store_news.
Proof. do 2 apply Routes.reachable_request. exact store_two_reachable. Defined.

(** One millisecond after HORARIO, a permanent announcement, was
    posted, the sweep deletes it and reports one deletion; OFERTA,
    which expires two days later, stays. *)
Lemma deleteExpiredNews_removes_permanent_witness :
  Routes.reachable (H := bogota) store_news
  /\ 0 <= 1762074000001
  /\ exists news,
       In news (MemStorage.businessNews store_news)
       /\ BusinessNews.isPermanent news = true
       /\ BusinessNews.title news = "HORARIO"
       /\ In news (MemStorage.getAllBusinessNews 1762074000001 store_news)
       /\ ~ In news (MemStorage.businessNews
                       (snd (MemStorage.deleteExpiredNews 1762074000001 store_news)))
       /\ 0 < fst (MemStorage.deleteExpiredNews 1762074000001 store_news).
Proof.
  split; [exact store_news_reachable|]. split; [lia|].
  eexists. split; [right; left; reflexivity|].
  split; [reflexivity|]. split; [reflexivity|].
  apply (deleteExpiredNews_removes_permanent (H := bogota) 1762074000001
           store_news _ store_news_reachable).
  - lia.
  - right; left; reflexivity.
  - reflexivity.
Defined.

Example sweep_reports_one :
  fst (MemStorage.deleteExpiredNews 1762074000001 store_news) = 1
  /\ map BusinessNews.title
       (MemStorage.businessNews
          (snd (MemStorage.deleteExpiredNews 1762074000001 store_news)))
     = ["OFERTA"].
Proof. split; reflexivity. Qed.

(** * Announcements: expiry *)




(** * Numerals *)

Lemma all_digits_app s t :
  all_digits (String.append s t) = all_digits s && all_digits t.
Proof.
  induction s as [|c s IH]; simpl; [reflexivity|].
  now rewrite IH, andb_assoc.
Qed.

Lemma digits_value_app acc s t :
  digits_value acc (String.append s t) = digits_value (digits_value acc s) t.
Proof. revert acc. induction s as [|c s IH]; intros acc; simpl; auto. Qed.

Lemma length_append s t :
  String.length (String.append s t) = (String.length s + String.length t)%nat.
Proof. induction s as [|c s IH]; simpl; auto. Qed.

(** [read_digits] reads a whole string of digits, and stops at a
    point. *)
Lemma read_digits_all acc len s :
  all_digits s = true ->
  JSNumber.read_digits acc len s
  = (digits_value acc s, (len + String.length s)%nat, "").
Proof.
  revert acc len. induction s as [|c s IH]; intros acc len Hs; simpl in *.
  - now rewrite Nat.add_0_r.
  - apply andb_true_iff in Hs as [Hc Hs]. rewrite Hc, IH by exact Hs.
    now rewrite Nat.add_succ_r.
Qed.

Lemma read_digits_point acc len s t :
  all_digits s = true ->
  JSNumber.read_digits acc len (String.append s (String "." t))
  = (digits_value acc s, (len + String.length s)%nat, String "." t).
Proof.
  revert acc len. induction s as [|c s IH]; intros acc len Hs; simpl in *.
  - now rewrite Nat.add_0_r.
  - apply andb_true_iff in Hs as [Hc Hs]. rewrite Hc, IH by exact Hs.
    now rewrite Nat.add_succ_r.
Qed.

Lemma zeros_digits k acc :
  all_digits (JSNumber.zeros k) = true
  /\ digits_value acc (JSNumber.zeros k) = (acc * 10 ^ N.of_nat k)%N
  /\ String.length (JSNumber.zeros k) = k.
Proof.
  revert acc. induction k as [|k IH]; intros acc.
  - simpl. repeat split. now rewrite N.mul_1_r.
  - destruct (IH (10 * acc + 0)%N) as (Hall & Hval & Hlen).
    cbn [JSNumber.zeros all_digits digits_value String.length].
    change (JSNumber.digit_val "0") with 0%N. change (JSNumber.is_digit "0") with true.
    rewrite Hall, Hval, Hlen. repeat split.
    rewrite Nat2N.inj_succ, N.pow_succ_r'. lia.
Qed.

(** The decimal writing of a number is made of digits and reads back
    as that number. *)
Lemma string_of_uint_digits d acc :
  all_digits (NilEmpty.string_of_uint d) = true
  /\ digits_value acc (NilEmpty.string_of_uint d)
     = (acc * 10 ^ Unsigned.usize d + Unsigned.of_lu (Decimal.rev d))%N.
Proof.
  revert acc.
  induction d as [|d IH|d IH|d IH|d IH|d IH|d IH|d IH|d IH|d IH|d IH];
    intros acc.
  1: { simpl. split; [reflexivity|]. now rewrite N.mul_1_r, N.add_0_r. }
  all: cbn [NilEmpty.string_of_uint all_digits digits_value];
    match goal with
    | |- context [JSNumber.digit_val ?c] =>
        let v := eval vm_compute in (JSNumber.digit_val c) in
        change (JSNumber.digit_val c) with v;
        change (JSNumber.is_digit c) with true;
        destruct (IH (10 * acc + v)%N) as [Hall Hval]
    end;
    rewrite Hall, Hval; split; [reflexivity|];
    match goal with
    | |- context [Decimal.rev (?D ?x)] =>
        change (Decimal.rev (D x)) with (Decimal.revapp x (D Decimal.Nil));
        rewrite (Unsigned.of_lu_revapp x (D Decimal.Nil))
    end;
    cbn [Unsigned.usize Unsigned.of_lu]; rewrite N.pow_succ_r'; ring.
Qed.

Lemma digits_of_digits n :
  0 <= n ->
  all_digits (JSNumber.digits_of n) = true
  /\ digits_value 0 (JSNumber.digits_of n) = Z.to_N n.
Proof.
  intros Hn. unfold JSNumber.digits_of.
  assert (Hnil : N.to_uint (Z.to_N n) <> Decimal.Nil).
  { destruct (Z.to_N n) as [|p]; [discriminate|]. apply Unsigned.to_uint_nonnil. }
  assert (Hstr : NilZero.string_of_uint (N.to_uint (Z.to_N n))
                 = NilEmpty.string_of_uint (N.to_uint (Z.to_N n))).
  { unfold NilZero.string_of_uint. now destruct (N.to_uint (Z.to_N n)). }
  rewrite Hstr.
  destruct (string_of_uint_digits (N.to_uint (Z.to_N n)) 0) as [Hall Hval].
  split; [exact Hall|]. rewrite Hval, N.mul_0_l, N.add_0_l.
  rewrite <- Unsigned.of_uint_alt.
  exact (DecimalN.Unsigned.of_to (Z.to_N n)).
Qed.

Lemma substring_full s : substring 0 (String.length s) s = s.
Proof. induction s as [|c s IH]; simpl; [reflexivity|]. now rewrite IH. Qed.

Lemma substring_none s : substring 0 0 s = "".
Proof. now destruct s. Qed.

Lemma substring_split n s :
  (n <= String.length s)%nat ->
  String.append (substring 0 n s) (substring n (String.length s - n) s) = s
  /\ String.length (substring n (String.length s - n) s)
     = (String.length s - n)%nat.
Proof.
  revert s. induction n as [|n IH]; intros s Hn.
  - rewrite Nat.sub_0_r, substring_none, substring_full. now split.
  - destruct s as [|c s]; [simpl in Hn; lia|].
    destruct (IH s ltac:(simpl in Hn; lia)) as [Happ Hlen].
    change (String.length (String c s) - S n)%nat with (String.length s - n)%nat.
    change (substring (S n) (String.length s - n) (String c s))
      with (substring n (String.length s - n) s).
    change (substring 0 (S n) (String c s)) with (String c (substring 0 n s)).
    split; [|exact Hlen]. simpl String.append. now rewrite Happ.
Qed.

(** [toFixed(2)] writes [n] hundredths as a numeral whose exact value
    is [n / 100]. *)
Lemma decimal_fixed2_digits n :
  0 <= n -> Spec.decimal (JSNumber.fixed2_digits n) = Some (n # 100).
Proof.
  intros Hn. destruct (digits_of_digits n Hn) as [Hall Hval].
  unfold JSNumber.fixed2_digits.
  set (ds := JSNumber.digits_of n) in *.
  set (padded := if (String.length ds <=? 2)%nat
                 then String.append (JSNumber.zeros (3 - String.length ds)) ds
                 else ds).
  assert (Hpad : all_digits padded = true /\ digits_value 0 padded = Z.to_N n
                 /\ (3 <= String.length padded)%nat).
  { unfold padded. destruct (String.length ds <=? 2)%nat eqn:Hlen.
    - apply Nat.leb_le in Hlen.
      destruct (zeros_digits (3 - String.length ds) 0) as (Hz & Hzv & Hzl).
      rewrite all_digits_app, digits_value_app, length_append, Hz, Hall, Hzv, Hzl.
      rewrite N.mul_0_l. repeat split; [exact Hval|lia].
    - apply Nat.leb_gt in Hlen. repeat split; [exact Hall|exact Hval|lia]. }
  cbn zeta. fold padded.
  destruct Hpad as (Hpall & Hpval & Hplen).
  unfold JSNumber.str_take, JSNumber.str_drop.
  destruct (substring_split (String.length padded - 2) padded ltac:(lia))
    as [Happ Hlen].
  set (ip := substring 0 (String.length padded - 2) padded) in *.
  set (fp := substring (String.length padded - 2)
               (String.length padded - (String.length padded - 2)) padded) in *.
  assert (Hparts : all_digits ip = true /\ all_digits fp = true).
  { rewrite <- Happ, all_digits_app in Hpall. now apply andb_true_iff in Hpall. }
  destruct Hparts as [Hip Hfp].
  assert (Hfplen : String.length fp = 2%nat) by lia.
  unfold Spec.decimal.
  change (String.append "." fp) with (String "." fp).
  rewrite (read_digits_point 0 0 ip fp Hip).
  rewrite (read_digits_all _ _ fp Hfp).
  rewrite <- digits_value_app, Happ, Hpval, Hfplen.
  replace (0 + String.length ip + 2)%nat with (S (S (String.length ip))) by lia.
  replace (S (S (String.length ip)) - (0 + String.length ip))%nat with 2%nat by lia.
  rewrite Z2N.id by exact Hn. reflexivity.
Qed.

(** * Pricing *)

(** [toFixed(2)] on a positive double below 10^21 prints the nearest
    number of hundredths. *)
Lemma round_hundredths_nearest m e :
  nearest_hundredths (JSNumber.mag_num m e) (JSNumber.mag_den e)
    (JSNumber.round_hundredths m e).
Proof.
  unfold nearest_hundredths, JSNumber.mag_num, JSNumber.mag_den,
    JSNumber.round_hundredths.
  destruct (0 <=? e) eqn:He.
  - rewrite <- Z.mul_assoc. lia.
  - apply Z.leb_gt in He.
    assert (Hb : 0 < 2 ^ (- e)) by (apply Z.pow_pos_nonneg; lia).
    replace (2 ^ (1 - e)) with (2 * 2 ^ (- e))
      by (rewrite <- Z.pow_succ_r by lia; f_equal; lia).
    set (b := 2 ^ (- e)) in *.
    pose proof (Z.mul_div_le (200 * Z.pos m + b) (2 * b) ltac:(lia)) as Hle.
    pose proof (Z.mul_succ_div_gt (200 * Z.pos m + b) (2 * b) ltac:(lia)) as Hgt.
    set (n := (200 * Z.pos m + b) / (2 * b)) in *.
    unfold Z.succ in Hgt. nia.
Qed.

Lemma round_hundredths_nonneg m e : 0 <= JSNumber.round_hundredths m e.
Proof.
  unfold JSNumber.round_hundredths. destruct (0 <=? e) eqn:He.
  - apply Z.mul_nonneg_nonneg; [lia|apply Z.pow_nonneg; lia].
  - apply Z.leb_gt in He.
    apply Z.div_pos; [|apply Z.pow_pos_nonneg; lia].
    assert (0 <= 2 ^ (- e)) by (apply Z.pow_nonneg; lia). lia.
Qed.

Lemma toFixed2_finite m e :
  JSNumber.mag_num m e < 10 ^ 21 * JSNumber.mag_den e ->
  JSNumber.toFixed2 (S754_finite false m e)
  = JSNumber.fixed2_digits (JSNumber.round_hundredths m e).
Proof.
  intros Hlt. unfold JSNumber.toFixed2.
  destruct (10 ^ 21 * JSNumber.mag_den e <=? JSNumber.mag_num m e) eqn:Hge.
  - apply Z.leb_le in Hge. lia.
  - reflexivity.
Qed.

(** The literal 1.2 of the relational store is what a margin of 20
    yields. *)
Lemma margin_factor_is_twenty_percent :
  DatabaseStorage.margin_factor
  = JSNumber.add (JSNumber.of_Z 1)
      (JSNumber.div (JSNumber.of_Z 20) (JSNumber.of_Z 100)).
Proof. vm_compute. reflexivity. Qed.

(** C1, as worded, fails: CHICLE bought at 0.06 with a margin of 25
    is worth exactly 0.075, which rounds to 0.08 (half up or half to
    even); the store computes in binary floating point, where the
    product lies just below 0.075, and stores "0.07". *)
Lemma sale_price_not_exactly_rounded :
  ~ sale_price_exactly_rounded Spec.half_up
  /\ ~ sale_price_exactly_rounded Spec.half_even.
Proof.
  split; intros Hclaim;
    destruct (Hclaim 0 chicle MemStorage.storage "25" (6 # 100)%Q (25 # 1)%Q
                eq_refl eq_refl eq_refl eq_refl eq_refl
                ltac:(discriminate))
      as (q & Hq & Heq);
    vm_compute in Hq; injection Hq as <-; vm_compute in Heq; discriminate Heq.
Qed.

Example chicle_sale_price :
  Product.salePrice (fst (MemStorage.createProduct 0 chicle MemStorage.storage))
  = "0.07".
Proof. reflexivity. Qed.

(** The examples of the specification hold. *)
Example sale_price_examples :
  MemStorage.salePrice_of (JSNumber.parseFloat "100.00") (JSNumber.parseFloat "20")
  = "120.00"
  /\ MemStorage.salePrice_of (JSNumber.parseFloat "49.99") (JSNumber.parseFloat "20")
     = "59.99"
  /\ DatabaseStorage.salePrice_of (JSNumber.parseFloat "49.99") = "59.99".
Proof. repeat split; reflexivity. Qed.

(** C1, amended. The sale price stored by [createProduct] and by
    [updateProduct] is [toFixed(2)] of the binary64 value of
    [purchasePrice * (1 + margin / 100)], each operation rounded to the
    nearest double; whenever that value is a positive double below
    10^21, the stored numeral is worth exactly [n / 100], [n] being the
    number of hundredths nearest to that double, the larger one at a
    tie.  The margin is the supplied
    one when it is a non-empty string; otherwise 20 on create, and the
    product's stored margin on update.  The relational store always
    multiplies by 1.2, which is what the margin 20 gives. *)
Theorem salePrice_is_rounded_double_product
    (now : Z) (data : InsertProduct.t) (st : MemStorage.t) :
  let price := JSNumber.parseFloat (InsertProduct.purchasePrice data) in
  let derived margin :=
    JSNumber.mul price
      (JSNumber.add (JSNumber.of_Z 1) (JSNumber.div margin (JSNumber.of_Z 100))) in
  (let product := fst (MemStorage.createProduct now data st) in
   let margin :=
     MemStorage.margin_or (InsertProduct.profitMargin data) (JSNumber.of_Z 20) in
   Product.purchasePrice product = InsertProduct.purchasePrice data
   /\ Product.profitMargin product = JSNumber.toString margin
   /\ Product.salePrice product = JSNumber.toFixed2 (derived margin))
  /\ (forall id old,
        MemStorage.getProductById id st = Some old ->
        let margin :=
          MemStorage.margin_or (InsertProduct.profitMargin data)
            (JSNumber.parseFloat (Product.profitMargin old)) in
        exists product,
          fst (MemStorage.updateProduct now id data st) = Some product
          /\ Product.purchasePrice product = InsertProduct.purchasePrice data
          /\ Product.profitMargin product = JSNumber.toString margin
          /\ Product.salePrice product = JSNumber.toFixed2 (derived margin))
  /\ (forall margin m e,
        derived margin = S754_finite false m e ->
        JSNumber.mag_num m e < 10 ^ 21 * JSNumber.mag_den e ->
        exists n,
          Spec.decimal (JSNumber.toFixed2 (derived margin)) = Some (n # 100)
          /\ nearest_hundredths (JSNumber.mag_num m e) (JSNumber.mag_den e) n)
  /\ DatabaseStorage.salePrice (DatabaseStorage.createProduct now data)
     = JSNumber.toFixed2 (derived (JSNumber.of_Z 20)).
Proof.
  cbn zeta. split; [|split; [|split]].
  - repeat split.
  - intros id old Hold.
    destruct (updateProduct_found now id data st old Hold)
      as (i & product & _ & _ & Hupd & _ & _ & Hprice & Hsale & Hpm & _).
    exists product. rewrite Hupd. repeat split; assumption.
  - intros margin m e Hfin Hlt. rewrite Hfin.
    exists (JSNumber.round_hundredths m e).
    split; [|apply round_hundredths_nearest].
    rewrite toFixed2_finite by exact Hlt.
    apply decimal_fixed2_digits, round_hundredths_nonneg.
  - unfold DatabaseStorage.createProduct, DatabaseStorage.salePrice_of.
    cbn [DatabaseStorage.salePrice].
    now rewrite margin_factor_is_twenty_percent.
Qed.

(** AZUCAR, bought at 49.99 with no margin given, sells at 59.99: the
    product is the double nearest to 59.988 and 5999 is the nearest
    number of hundredths. *)
Lemma salePrice_is_rounded_double_product_witness :
  Product.salePrice (fst (MemStorage.createProduct 1762074060000 azucar store_arroz))
  = "59.99"
  /\ exists n,
       Spec.decimal
         (JSNumber.toFixed2
            (JSNumber.mul (JSNumber.parseFloat "49.99")
               (JSNumber.add (JSNumber.of_Z 1)
                  (JSNumber.div (JSNumber.of_Z 20) (JSNumber.of_Z 100)))))
       = Some (n # 100)
       /\ nearest_hundredths 8442560451459416 (2 ^ 47) n.
Proof.
  destruct (salePrice_is_rounded_double_product 1762074060000 azucar store_arroz)
    as ((_ & _ & Hsale) & _ & Hnear & _).
  split; [rewrite Hsale; reflexivity|].
  apply (Hnear (JSNumber.of_Z 20) 8442560451459416%positive (-47)).
  - reflexivity.
  - reflexivity.
Defined.

(** * Numbers: the built-ins on known values *)

Example parseFloat_examples :
  JSNumber.toString (JSNumber.parseFloat "20.50") = "20.5"
  /\ JSNumber.toString (JSNumber.parseFloat "  12abc") = "12"
  /\ JSNumber.toString (JSNumber.parseFloat "-.5e1") = "-5"
  /\ JSNumber.toString (JSNumber.parseFloat "abc") = "NaN"
  /\ JSNumber.toString (JSNumber.parseFloat "") = "NaN"
  /\ JSNumber.toString (JSNumber.parseFloat "Infinity") = "Infinity"
  /\ JSNumber.toString (JSNumber.parseFloat "9007199254740993")
     = "9007199254740992"
  /\ JSNumber.parseFloat "0.1" = S754_finite false 7205759403792794 (-56).
Proof. repeat split; vm_compute; reflexivity. Qed.

Example toString_examples :
  JSNumber.toString
    (JSNumber.add (JSNumber.parseFloat "0.1") (JSNumber.parseFloat "0.2"))
  = "0.30000000000000004"
  /\ JSNumber.toString (JSNumber.parseFloat "1e21") = "1e+21"
  /\ JSNumber.toString (JSNumber.parseFloat "1e23") = "1e+23"
  /\ JSNumber.toString (JSNumber.parseFloat "123456789012345680000")
     = "123456789012345680000"
  /\ JSNumber.toString (JSNumber.parseFloat "0.000001") = "0.000001"
  /\ JSNumber.toString (JSNumber.parseFloat "0.0000001") = "1e-7"
  /\ JSNumber.toString (JSNumber.parseFloat "5e-324") = "5e-324"
  /\ JSNumber.toString (JSNumber.parseFloat "1.7976931348623157e308")
     = "1.7976931348623157e+308".
Proof. repeat split; vm_compute; reflexivity. Qed.

Example toFixed2_examples :
  JSNumber.toFixed2 (JSNumber.parseFloat "1.005") = "1.00"
  /\ JSNumber.toFixed2 (JSNumber.parseFloat "0.125") = "0.13"
  /\ JSNumber.toFixed2 (JSNumber.parseFloat "12345.678") = "12345.68"
  /\ JSNumber.toFixed2 (JSNumber.parseFloat "-0.001") = "-0.00"
  /\ JSNumber.toFixed2 (JSNumber.parseFloat "0") = "0.00"
  /\ JSNumber.toFixed2 (JSNumber.parseFloat "1e21") = "1e+21"
  /\ JSNumber.toFixed2 (JSNumber.parseFloat "x") = "NaN".
Proof. repeat split; vm_compute; reflexivity. Qed.

(** * Announcements in reachable stores are listed by ascending
    creation time *)

Lemma getAllBusinessNews_times_ascending `{Host} now st :
  Routes.reachable st ->
  StronglySorted Z.le (map created_ms (MemStorage.getAllBusinessNews now st)).
Proof.
  intros Hreach. apply sorted_by_creation_time.
  - intros news Hin.
    apply (reachable_news_ok st news Hreach).
    unfold MemStorage.getAllBusinessNews in Hin.
    now apply sort_In, filter_In in Hin.
  - apply sort_sorted, by_createdAt_total.
Qed.

(** The relational store dates every announcement three calendar days
    after its clock reading. *)
Lemma DatabaseStorage_createBusinessNews_expiresAt `{Host} now insertNews :
  DatabaseStorage.expiresAt (DatabaseStorage.createBusinessNews now insertNews)
  = add_calendar_days now 3.
Proof. apply setDate_getDate. Qed.

(** In the in-memory store TEMPRANO, stored after TARDE but created
    before it, is listed first.  In the relational store of a server
    in Bogota, one hour after OFERTA expired, OFERTA is still listed,
    before AVISO, which was created later. *)
Lemma getAllBusinessNews_active_by_creation_witness :
  map BusinessNews.title (MemStorage.businessNews store_unordered)
  = ["TARDE"; "TEMPRANO"]
  /\ map BusinessNews.title
       (MemStorage.getAllBusinessNews 1762150000000 store_unordered)
     = ["TEMPRANO"; "TARDE"]
  /\ StronglySorted Z.le
       (map created_ms (MemStorage.getAllBusinessNews 1762150000000 store_unordered))
  /\ DatabaseStorage.getAllBusinessNews (H := bogota) 1762262800000
       [aviso_row; oferta_row]
     = [oferta_row; aviso_row]
  /\ DatabaseStorage.NewsRow.expiresAt oferta_row = TimeValue 1762259200000
  /\ In oferta_row
       (DatabaseStorage.getAllBusinessNews (H := bogota) 1762262800000
          [aviso_row; oferta_row])
  /\ DatabaseStorage.getAllBusinessNews (H := utc) 1762262800000
       [aviso_row; oferta_row]
     = [aviso_row].
Proof.
  destruct (getAllBusinessNews_active_by_creation (H := bogota) 1762150000000
              store_unordered [])
    as ((_ & _ & _ & _ & Hascending) & _).
  destruct (getAllBusinessNews_active_by_creation (H := bogota) 1762262800000
              store_unordered [aviso_row; oferta_row])
    as (_ & _ & _ & _ & _ & _ & Hlate & _).
  split; [reflexivity|]. split; [reflexivity|]. split.
  { apply Hascending. intros news [<-|[<-|[]]]; eexists; reflexivity. }
  split; [reflexivity|]. split; [reflexivity|]. split; [|reflexivity].
  apply (Hlate oferta_row 1762259200000).
  - right; left; reflexivity.
  - reflexivity.
  - cbn. lia.
Defined.

(** * The relational store: LIKE *)

Lemma like_percent p s :
  DatabaseStorage.like (String "%" p) s
  = DatabaseStorage.like p s
    || match s with
       | EmptyString => false
       | String _ r => DatabaseStorage.like (String "%" p) r
       end.
Proof. destruct s; reflexivity. Qed.

Lemma like_literal c p s :
  literal c = true ->
  DatabaseStorage.like (String c p) s
  = match s with
    | EmptyString => false
    | String d r => Ascii.eqb c d && DatabaseStorage.like p r
    end.
Proof.
  destruct c as [[] [] [] [] [] [] [] []]; intros Hc;
    try discriminate Hc; reflexivity.
Qed.

Lemma like_any s : DatabaseStorage.like "%" s = true.
Proof.
  induction s as [|c s IH]; [reflexivity|].
  rewrite like_percent, IH. apply orb_true_r.
Qed.

Lemma prefix_cons c d q s :
  String.prefix (String c q) (String d s) = Ascii.eqb c d && String.prefix q s.
Proof.
  simpl. destruct (ascii_dec c d) as [->|Hne].
  - now rewrite Ascii.eqb_refl.
  - apply Ascii.eqb_neq in Hne. now rewrite Hne.
Qed.

(** A plain text followed by [%] matches the strings that start with
    it. *)
Lemma like_plain_prefix q s :
  plain q = true ->
  DatabaseStorage.like (String.append q "%") s = String.prefix q s.
Proof.
  revert s. induction q as [|c q IH]; intros s Hq.
  - simpl String.append. rewrite like_any. now destruct s.
  - simpl in Hq. apply andb_true_iff in Hq as [Hc Hq].
    simpl String.append. rewrite (like_literal c _ s Hc).
    destruct s as [|d s]; [reflexivity|].
    now rewrite prefix_cons, IH.
Qed.

(** For a query without metacharacters, the condition of the SQL
    search is containment. *)
Lemma like_plain_includes q s :
  plain q = true ->
  DatabaseStorage.like (String.append "%" (String.append q "%")) s
  = JSString.includes s q.
Proof.
  intros Hq. change (String.append "%" (String.append q "%"))
    with (String "%" (String.append q "%")).
  induction s as [|c s IH].
  - rewrite like_percent, includes_nil, like_plain_prefix by exact Hq.
    reflexivity.
  - rewrite like_percent, includes_cons, like_plain_prefix, IH by exact Hq.
    reflexivity.
Qed.

Lemma DatabaseStorage_searchProducts_plain collate query rows :
  plain (JSString.toUpperCase query) = true ->
  DatabaseStorage.searchProducts collate query rows
  = take 10
      (JSArray.sort (DatabaseStorage.by_name collate)
         (List.filter
            (fun row =>
               JSString.includes (DatabaseStorage.ProductRow.name row)
                 (JSString.toUpperCase query))
            rows)).
Proof.
  intros Hq. unfold DatabaseStorage.searchProducts. do 2 f_equal.
  apply filter_ext. intros row. unfold DatabaseStorage.matches.
  now apply like_plain_includes.
Qed.

Lemma filter_all {A : Type} (f : A -> bool) (l : list A) :
  (forall x, In x l -> f x = true) -> List.filter f l = l.
Proof.
  induction l as [|a l IH]; intros Hall; simpl; [reflexivity|].
  rewrite (Hall a (or_introl eq_refl)). f_equal. apply IH.
  intros x Hx. apply Hall. now right.
Qed.

(** C7 fails in the relational store: the query is pasted into the
    LIKE pattern as it is, so with the query "%" every product is
    selected, whatever its name; the answer is the first ten of all
    products.  ARROZ does not contain "%" and is returned. *)
Theorem DatabaseStorage_searchProducts_percent
    (collate : string -> string -> Z)
    (rows : list DatabaseStorage.ProductRow.t) :
  DatabaseStorage.searchProducts collate "%" rows
  = take 10 (JSArray.sort (DatabaseStorage.by_name collate) rows)
  /\ DatabaseStorage.searchProducts collate "%" [arroz_row] = [arroz_row]
  /\ JSString.includes (DatabaseStorage.ProductRow.name arroz_row)
       (JSString.toUpperCase "%") = false.
Proof.
  split; [|split; reflexivity].
  unfold DatabaseStorage.searchProducts. do 2 f_equal.
  apply filter_all. intros row _. unfold DatabaseStorage.matches.
  change (String.append "%" (String.append (JSString.toUpperCase "%") "%"))
    with (String "%" "%%").
  generalize (DatabaseStorage.ProductRow.name row) as s.
  induction s as [|c s IH].
  - reflexivity.
  - rewrite like_percent, IH. apply orb_true_r.
Qed.

(** With "_", every product with a non-empty name is selected. *)
Lemma DatabaseStorage_matches_underscore row :
  DatabaseStorage.matches "_" row
  = negb (String.eqb (DatabaseStorage.ProductRow.name row) "").
Proof.
  unfold DatabaseStorage.matches.
  destruct (DatabaseStorage.ProductRow.name row) as [|c s]; [reflexivity|].
  change (String.append "%" (String.append (JSString.toUpperCase "_") "%"))
    with (String "%" "_%").
  rewrite like_percent.
  change (DatabaseStorage.like "_%" (String c s)) with (DatabaseStorage.like "%" s).
  now rewrite like_any.
Qed.

(** The in-memory store returns nothing for "%" when no name contains
    it. *)
Example MemStorage_searchProducts_percent :
  MemStorage.searchProducts (H := bogota) "%" store_two = [].
Proof. reflexivity. Qed.

(** * The relational store: announcements *)

Lemma DatabaseStorage_getAllBusinessNews_iff `{Host} now row rows :
  In row (DatabaseStorage.getAllBusinessNews now rows) <->
  In row rows
  /\ exists t, DatabaseStorage.NewsRow.expiresAt row = TimeValue t
               /\ now + LocalTZA now true < t.
Proof.
  unfold DatabaseStorage.getAllBusinessNews.
  now rewrite sort_In, filter_In, listed_iff.
Qed.

Lemma DatabaseStorage_deleteExpiredNews_iff now row rows t :
  In row rows ->
  DatabaseStorage.NewsRow.expiresAt row = TimeValue t ->
  (In row (snd (DatabaseStorage.deleteExpiredNews now rows)) <-> now <= t).
Proof.
  intros Hin Hexp. unfold DatabaseStorage.deleteExpiredNews,
    DatabaseStorage.lt. simpl.
  rewrite filter_In, Hexp. simpl. rewrite negb_true_iff, Z.ltb_ge. tauto.
Qed.

(** The SQL sweep deletes the rows with [expiresAt < now]: a row that
    expires exactly at [now] stays.  Whether [getAllBusinessNews]
    lists it at [now] depends on the zone: it does west of UTC. *)
Lemma DatabaseStorage_deleteExpiredNews_boundary `{Host} now row rows :
  In row rows ->
  DatabaseStorage.NewsRow.expiresAt row = TimeValue now ->
  In row (snd (DatabaseStorage.deleteExpiredNews now rows))
  /\ (In row (DatabaseStorage.getAllBusinessNews now rows)
      <-> LocalTZA now true < 0).
Proof.
  intros Hin Hexp. split.
  - apply (DatabaseStorage_deleteExpiredNews_iff now row rows now Hin Hexp). lia.
  - rewrite DatabaseStorage_getAllBusinessNews_iff, Hexp. split.
    + intros (_ & t & [= <-] & Hlt). lia.
    + intros Hwest. split; [exact Hin|]. exists now. split; [reflexivity|lia].
Qed.

(** On a server that keeps UTC, OFERTA, swept at the very millisecond
    it expires, stays in the table and is not listed. *)
Example DatabaseStorage_sweep_at_expiry :
  DatabaseStorage.deleteExpiredNews 1762259200000 [oferta_row] = (0, [oferta_row])
  /\ DatabaseStorage.getAllBusinessNews (H := utc) 1762259200000 [oferta_row] = []
  /\ DatabaseStorage.deleteExpiredNews 1762259200001 [oferta_row] = (1, []).
Proof. repeat split; reflexivity. Qed.

(** * What a request does to the store *)

Section EffectFacts.
Context `{Host}.

Lemma handle_effect isAuthenticated req st :
  effect st (snd (Routes.handle isAuthenticated req st)).
Proof.
  unfold Routes.handle. destruct isAuthenticated; cbn [negb]; [|constructor].
  destruct req as [|q|id|now data|now id data|id|now|now now' data|id|now|now now'].
  - constructor.
  - destruct q as [q|]; [destruct (JSString.truthy q)|]; constructor.
  - destruct id as [id|]; [destruct (MemStorage.getProductById id st)|];
      constructor.
  - unfold Routes.post_product.
    destruct (Schema.insertProductSchema data) eqn:Hvalid; [|constructor].
    destruct (MemStorage.getProductByName _ st) eqn:Hname; [constructor|].
    pose proof (effect_createProduct st now data Hvalid Hname) as He.
    destruct (MemStorage.createProduct now data st). exact He.
  - unfold Routes.put_product. destruct id as [id|]; [|constructor].
    destruct (Schema.updateProductSchema data) eqn:Hvalid; [|constructor].
    destruct (MemStorage.getProductById id st) as [old|] eqn:Hget; [|constructor].
    pose proof (effect_updateProduct st now id data old Hvalid Hget) as He.
    destruct (MemStorage.getProductByName _ st) as [dup|] eqn:Hdup.
    + destruct (Product.id dup =? id) eqn:Hid; cbn [negb]; [|constructor].
      destruct (MemStorage.updateProduct now id data st). apply He.
      intros q [= <-]. now apply Z.eqb_eq.
    + destruct (MemStorage.updateProduct now id data st). apply He.
      intros q [=].
  - unfold Routes.delete_product. destruct id as [id|]; [|constructor].
    destruct (JSArray.findIndex (MemStorage.has_id id) (MemStorage.products st))
      as [i|] eqn:Hi.
    + pose proof (effect_deleteProduct st id i Hi) as He.
      destruct (MemStorage.deleteProduct id st) as [[] st']; exact He.
    + unfold MemStorage.deleteProduct. rewrite Hi. constructor.
  - constructor.
  - pose proof (effect_createBusinessNews st now now' data) as He.
    destruct (MemStorage.createBusinessNews now now' data st). exact He.
  - unfold Routes.delete_news. destruct id as [id|]; [|constructor].
    destruct (JSArray.findIndex (MemStorage.has_news_id id)
                (MemStorage.businessNews st)) as [i|] eqn:Hi.
    + pose proof (effect_deleteBusinessNews st id i Hi) as He.
      destruct (MemStorage.deleteBusinessNews id st) as [[] st']; exact He.
    + unfold MemStorage.deleteBusinessNews. rewrite Hi. constructor.
  - pose proof (effect_deleteExpiredNews st now) as He.
    destruct (MemStorage.deleteExpiredNews now st). exact He.
  - constructor.
Qed.

End EffectFacts.

(** * Identifiers *)

Section Identifiers.
Context `{Host}.

(** What each storage operation leaves alone. *)
Lemma updateProduct_frame now id data st :
  let st' := snd (MemStorage.updateProduct now id data st) in
  MemStorage.users st' = MemStorage.users st
  /\ MemStorage.nextUserId st' = MemStorage.nextUserId st
  /\ MemStorage.businessNews st' = MemStorage.businessNews st
  /\ MemStorage.nextNewsId st' = MemStorage.nextNewsId st
  /\ MemStorage.nextProductId st' = MemStorage.nextProductId st.
Proof.
  unfold MemStorage.updateProduct.
  destruct (JSArray.findIndex _ _) as [i|]; [|now repeat split].
  destruct (MemStorage.products st !! i); now repeat split.
Qed.

Lemma effect_users st st' :
  effect st st' ->
  MemStorage.users st' = MemStorage.users st
  /\ MemStorage.nextUserId st' = MemStorage.nextUserId st.
Proof.
  intros [|now data _ _|now id data old _ _ _|id i Hi|now now' data|id i Hi|now];
    try (now split).
  - now destruct (updateProduct_frame now id data st) as (-> & -> & _).
  - unfold MemStorage.deleteProduct. now rewrite Hi.
  - unfold MemStorage.deleteBusinessNews. now rewrite Hi.
Qed.

Lemma effect_nextProductId st st' :
  effect st st' -> MemStorage.nextProductId st <= MemStorage.nextProductId st'.
Proof.
  intros [|now data _ _|now id data old _ _ _|id i Hi|now now' data|id i Hi|now];
    try (simpl; lia).
  - destruct (updateProduct_frame now id data st) as (_ & _ & _ & _ & ->). lia.
  - unfold MemStorage.deleteProduct. rewrite Hi. simpl. lia.
  - unfold MemStorage.deleteBusinessNews. rewrite Hi. simpl. lia.
Qed.

Lemma news_ids_ok_same st st' :
  MemStorage.businessNews st' = MemStorage.businessNews st ->
  MemStorage.nextNewsId st' = MemStorage.nextNewsId st ->
  news_ids_ok st -> news_ids_ok st'.
Proof. intros Hn Hi [Hbelow Huniq]. split; rewrite ?Hn, ?Hi; assumption. Qed.

Lemma createBusinessNews_ids_ok now now' data st :
  news_ids_ok st ->
  news_ids_ok (snd (MemStorage.createBusinessNews now now' data st)).
Proof.
  intros [Hbelow Huniq]. split; simpl.
  - intros n Hn. apply in_app_or in Hn as [Hn|[<-|[]]].
    + specialize (Hbelow n Hn). lia.
    + simpl. lia.
  - rewrite map_app. simpl. apply NoDup_app. split; [exact Huniq|].
    split; [|apply NoDup_singleton].
    intros x Hx Hx'. apply list_elem_of_In in Hx, Hx'.
    destruct Hx' as [<-|[]].
    apply in_map_iff in Hx as (n & Hid & Hn). specialize (Hbelow n Hn). lia.
Qed.

Lemma delete_ids_ok {A : Type} (key : A -> Z) (l : list A) (next : Z) i :
  (forall x, In x l -> key x < next) -> NoDup (map key l) ->
  (forall x, In x (delete i l) -> key x < next) /\ NoDup (map key (delete i l)).
Proof.
  intros Hbelow Huniq. split.
  - intros x Hx. apply Hbelow. now apply In_delete in Hx.
  - rewrite map_delete. now apply NoDup_delete.
Qed.

Lemma filter_ids_ok {A : Type} (key : A -> Z) (f : A -> bool) (l : list A) next :
  (forall x, In x l -> key x < next) -> NoDup (map key l) ->
  (forall x, In x (List.filter f l) -> key x < next)
  /\ NoDup (map key (List.filter f l)).
Proof.
  intros Hbelow Huniq. split.
  - intros x Hx. apply Hbelow. now apply filter_In in Hx.
  - induction l as [|a l IH]; simpl; [constructor|].
    apply NoDup_cons in Huniq as [Ha Hl].
    assert (Hrec : NoDup (map key (List.filter f l))).
    { apply IH; [|exact Hl]. intros x Hx. apply Hbelow. now right. }
    destruct (f a); [|exact Hrec]. simpl. apply NoDup_cons. split; [|exact Hrec].
    intros Hin. apply Ha. apply list_elem_of_In in Hin. apply list_elem_of_In.
    apply in_map_iff in Hin as (x & Hk & Hx). apply in_map_iff.
    exists x. split; [exact Hk|]. now apply filter_In in Hx.
Qed.

Lemma effect_news_ids_ok st st' : effect st st' -> news_ids_ok st -> news_ids_ok st'.
Proof.
  intros [|now data _ _|now id data old _ _ _|id i Hi|now now' data|id i Hi|now] Hok;
    try exact Hok.
  - eapply news_ids_ok_same; [| |exact Hok]; reflexivity.
  - destruct (updateProduct_frame now id data st) as (_ & _ & Hn & Hi & _).
    exact (news_ids_ok_same _ _ Hn Hi Hok).
  - unfold MemStorage.deleteProduct. rewrite Hi.
    eapply news_ids_ok_same; [| |exact Hok]; reflexivity.
  - now apply createBusinessNews_ids_ok.
  - unfold MemStorage.deleteBusinessNews. rewrite Hi. destruct Hok as [Hb Hu].
    destruct (delete_ids_ok BusinessNews.id _ _ i Hb Hu). now split.
  - destruct Hok as [Hb Hu].
    destruct (filter_ids_ok BusinessNews.id (MemStorage.kept now) _ _ Hb Hu).
    now split.
Qed.

Lemma effect_nextNewsId st st' :
  effect st st' -> MemStorage.nextNewsId st <= MemStorage.nextNewsId st'.
Proof.
  intros [|now data _ _|now id data old _ _ _|id i Hi|now now' data|id i Hi|now];
    try (simpl; lia).
  - destruct (updateProduct_frame now id data st) as (_ & _ & _ & -> & _). lia.
  - unfold MemStorage.deleteProduct. rewrite Hi. simpl. lia.
  - unfold MemStorage.deleteBusinessNews. rewrite Hi. simpl. lia.
Qed.

Lemma createUser_users_ok insertUser st :
  users_ok st -> users_ok (snd (MemStorage.createUser insertUser st)).
Proof.
  intros [Hbelow Huniq]. split; simpl.
  - intros u Hu. apply in_app_or in Hu as [Hu|[<-|[]]].
    + specialize (Hbelow u Hu). lia.
    + simpl. lia.
  - rewrite map_app. simpl. apply NoDup_app. split; [exact Huniq|].
    split; [|apply NoDup_singleton].
    intros x Hx Hx'. apply list_elem_of_In in Hx, Hx'.
    destruct Hx' as [<-|[]].
    apply in_map_iff in Hx as (u & Hid & Hu). specialize (Hbelow u Hu). lia.
Qed.

Lemma reachable_users_ok st : Routes.reachable st -> users_ok st.
Proof.
  induction 1 as [|st isAuthenticated req _ IH|st insertUser _ IH].
  - split; simpl; [intros u []|constructor].
  - destruct (effect_users _ _ (handle_effect isAuthenticated req st)) as [Hu Hn].
    destruct IH as [Hb Hq]. split; rewrite ?Hu, ?Hn; assumption.
  - now apply createUser_users_ok.
Qed.

Lemma reachable_news_ids_ok st : Routes.reachable st -> news_ids_ok st.
Proof.
  induction 1 as [|st isAuthenticated req _ IH|st insertUser _ IH].
  - split; simpl; [intros u []|constructor].
  - exact (effect_news_ids_ok _ _ (handle_effect isAuthenticated req st) IH).
  - eapply news_ids_ok_same; [| |exact IH]; reflexivity.
Qed.

(** Along any history the store stays reachable and the three
    counters never go down. *)
Lemma run_reachable es st : Routes.reachable st -> Routes.reachable (run es st).
Proof.
  revert st. induction es as [|e es IH]; intros st Hst; [exact Hst|].
  simpl. apply IH. destruct e; simpl; now constructor.
Qed.

Lemma run_counters es st :
  MemStorage.nextUserId st <= MemStorage.nextUserId (run es st)
  /\ MemStorage.nextProductId st <= MemStorage.nextProductId (run es st)
  /\ MemStorage.nextNewsId st <= MemStorage.nextNewsId (run es st).
Proof.
  revert st. induction es as [|e es IH]; intros st; [simpl; lia|].
  simpl. destruct (IH (step st e)) as (Hu & Hp & Hn).
  assert (MemStorage.nextUserId st <= MemStorage.nextUserId (step st e)
          /\ MemStorage.nextProductId st <= MemStorage.nextProductId (step st e)
          /\ MemStorage.nextNewsId st <= MemStorage.nextNewsId (step st e))
    as (Hu' & Hp' & Hn').
  { destruct e as [isAuthenticated req|insertUser]; simpl.
    - pose proof (handle_effect isAuthenticated req st) as He.
      destruct (effect_users _ _ He) as [_ ->].
      pose proof (effect_nextProductId _ _ He). pose proof (effect_nextNewsId _ _ He).
      lia.
    - lia. }
  lia.
Qed.

End Identifiers.

(** X1. Identifiers are never handed out twice.  Whatever happens to a
    reachable store afterwards (deletions included), a product, an
    announcement or a user created later gets an identifier above
    that of every record the store holds now. *)
Theorem ids_never_reused `{Host} (st : MemStorage.t) (es : list Event) :
  Routes.reachable st ->
  (forall p now data,
     In p (MemStorage.products st) ->
     Product.id p < Product.id (fst (MemStorage.createProduct now data (run es st))))
  /\ (forall n now now' data,
        In n (MemStorage.businessNews st) ->
        BusinessNews.id n
        < BusinessNews.id
            (fst (MemStorage.createBusinessNews now now' data (run es st))))
  /\ (forall u insertUser,
        In u (MemStorage.users st) ->
        User.id u < User.id (fst (MemStorage.createUser insertUser (run es st)))).
Proof.
  intros Hreach. destruct (run_counters es st) as (Hu & Hp & Hn).
  split; [|split].
  - intros p now data Hin. simpl.
    pose proof (ids_below _ (reachable_products_ok st Hreach) p Hin). lia.
  - intros n now now' data Hin. simpl.
    pose proof (news_ids_below _ (reachable_news_ids_ok st Hreach) n Hin). lia.
  - intros u insertUser Hin. simpl.
    pose proof (user_ids_below _ (reachable_users_ok st Hreach) u Hin). lia.
Qed.

(** AZUCAR (id 2) is deleted and posted again: it comes back as
    product 3, above ARROZ (1) and above its own former id. *)
Lemma ids_never_reused_witness :
  Routes.reachable (H := bogota) store_two
  /\ map Product.id
       (MemStorage.products
          (run (H := bogota)
             [Served true (Routes.DeleteProduct (Some 2));
              Served true (Routes.PostProduct 1762074180000 azucar)]
             store_two))
     = [1; 3]
  /\ forall p,
       In p (MemStorage.products store_two) ->
       Product.id p
       < Product.id
           (fst (MemStorage.createProduct 1762074180000 azucar
                   (run (H := bogota)
                      [Served true (Routes.DeleteProduct (Some 2))] store_two))).
Proof.
  split; [exact store_two_reachable|]. split; [reflexivity|].
  intros p Hin.
  exact (proj1 (ids_never_reused (H := bogota) store_two
                  [Served true (Routes.DeleteProduct (Some 2))]
                  store_two_reachable)
           p 1762074180000 azucar Hin).
Defined.

(** * Users *)

Lemma find_app {A : Type} (f : A -> bool) (l l' : list A) :
  List.find f (l ++ l')
  = match List.find f l with Some x => Some x | None => List.find f l' end.
Proof.
  induction l as [|a l IH]; simpl; [reflexivity|]. now destruct (f a).
Qed.

(** X2. [createUser] gives the new user an identifier no stored user
    has and stores the name and the password as they are given;
    [getUser] of that identifier then returns the new user, and every
    other identifier is answered as before. *)
Theorem createUser_then_getUser `{Host}
    (insertUser : InsertUser.t) (st : MemStorage.t) :
  Routes.reachable st ->
  let user := fst (MemStorage.createUser insertUser st) in
  let st' := snd (MemStorage.createUser insertUser st) in
  MemStorage.getUser (User.id user) st = None
  /\ MemStorage.getUser (User.id user) st' = Some user
  /\ User.username user = InsertUser.username insertUser
  /\ User.password user = InsertUser.password insertUser
  /\ (forall id, id <> User.id user ->
        MemStorage.getUser id st' = MemStorage.getUser id st)
  /\ MemStorage.products st' = MemStorage.products st
  /\ MemStorage.businessNews st' = MemStorage.businessNews st.
Proof.
  intros Hreach user st'.
  pose proof (user_ids_below _ (reachable_users_ok st Hreach)) as Hbelow.
  assert (Hfresh : MemStorage.getUser (User.id user) st = None).
  { apply find_None_iff. intros u Hu. specialize (Hbelow u Hu).
    apply Z.eqb_neq. simpl. lia. }
  split; [exact Hfresh|].
  split.
  { unfold MemStorage.getUser in *. subst st'. simpl MemStorage.users.
    rewrite find_app, Hfresh. simpl. now rewrite Z.eqb_refl. }
  split; [reflexivity|]. split; [reflexivity|].
  split; [|split; reflexivity].
  intros id Hid. unfold MemStorage.getUser. subst st'. simpl MemStorage.users.
  rewrite find_app. destruct (List.find _ (MemStorage.users st)); [reflexivity|].
  simpl. destruct (Z.eqb_spec (MemStorage.nextUserId st) id) as [Heq|];
    [|reflexivity].
  now contradiction Hid.
Qed.

Lemma createUser_then_getUser_witness :
  Routes.reachable (H := bogota) store_two
  /\ MemStorage.getUser 1 (snd (MemStorage.createUser ana store_two))
     = Some {| User.id := 1; User.username := "ANA"; User.password := "CLAVE123" |}
  /\ MemStorage.getUser 1 store_two = None.
Proof.
  split; [exact store_two_reachable|].
  destruct (createUser_then_getUser (H := bogota) ana store_two
              store_two_reachable) as (Hnone & Hget & _).
  split; [exact Hget|exact Hnone].
Defined.

(** X3. [createUser] does not look at the names already taken, and
    [getUserByUsername] returns the first user stored under a name: a
    user registered under a taken name is stored but never returned by
    name; under a free name, the new user is the one returned. *)
Theorem getUserByUsername_first_registered
    (insertUser : InsertUser.t) (st : MemStorage.t) (username : string) :
  let user := fst (MemStorage.createUser insertUser st) in
  let st' := snd (MemStorage.createUser insertUser st) in
  In user (MemStorage.users st')
  /\ MemStorage.getUserByUsername username st'
     = match MemStorage.getUserByUsername username st with
       | Some earlier => Some earlier
       | None =>
           if String.eqb (InsertUser.username insertUser) username
           then Some user else None
       end.
Proof.
  intros user st'. split.
  - subst st'. simpl. apply in_or_app. right. now left.
  - unfold MemStorage.getUserByUsername. subst st'. simpl MemStorage.users.
    rewrite find_app. destruct (List.find _ (MemStorage.users st)); reflexivity.
Qed.

(** * Announcements: delete *)

Lemma In_delete_other {A : Type} (l : list A) i x y :
  l !! i = Some x -> In y l -> y <> x -> In y (delete i l).
Proof.
  intros Hi Hy Hne. apply In_lookup in Hy as [j Hj]. apply In_lookup.
  destruct (decide (j < i)%nat) as [Hlt|Hge].
  - exists j. now rewrite list_lookup_delete_lt.
  - assert (j <> i) by congruence.
    exists (pred j). rewrite list_lookup_delete_ge by lia.
    now replace (S (pred j)) with j by lia.
Qed.

(** X4. [deleteBusinessNews id] answers true exactly when an
    announcement with that identifier was stored; the announcements
    left are then the others, all of them.  When it answers false the
    store is unchanged, and deleting the same identifier again answers
    false.  The DELETE route turns true into 204 and false into 404
    "News not found". *)
Theorem deleteBusinessNews_true_iff_existed `{Host} (id : Z) (st : MemStorage.t) :
  Routes.reachable st ->
  let r := MemStorage.deleteBusinessNews id st in
  (fst r = true <->
     exists n, In n (MemStorage.businessNews st) /\ BusinessNews.id n = id)
  /\ (forall n, In n (MemStorage.businessNews (snd r)) <->
        In n (MemStorage.businessNews st) /\ BusinessNews.id n <> id)
  /\ (fst r = false -> snd r = st)
  /\ fst (MemStorage.deleteBusinessNews id (snd r)) = false
  /\ Routes.handle true (Routes.DeleteNews (Some id)) st
     = (if fst r then Routes.sendStatus 204
        else Routes.json 404 (Routes.Message "News not found"),
        snd r).
Proof.
  intros Hreach. apply reachable_news_ids_ok in Hreach as [_ Hids].
  cbn zeta.
  assert (Hroute :
    Routes.handle true (Routes.DeleteNews (Some id)) st
    = (if fst (MemStorage.deleteBusinessNews id st) then Routes.sendStatus 204
       else Routes.json 404 (Routes.Message "News not found"),
       snd (MemStorage.deleteBusinessNews id st))).
  { change (Routes.handle true (Routes.DeleteNews (Some id)) st)
      with (Routes.delete_news (Some id) st).
    unfold Routes.delete_news.
    now destruct (MemStorage.deleteBusinessNews id st) as [[] st']. }
  split; [|split; [|split; [|split; [|exact Hroute]]]]; clear Hroute;
    unfold MemStorage.deleteBusinessNews;
    destruct (JSArray.findIndex (MemStorage.has_news_id id)
                (MemStorage.businessNews st)) as [i|] eqn:Hi;
    cbn [fst snd MemStorage.businessNews MemStorage.with_businessNews].
  - destruct (findIndex_Some _ _ _ Hi) as (x & Hx & Hid & _).
    apply Z.eqb_eq in Hid. split; [intros _|reflexivity].
    exists x. split; [apply In_lookup; eauto|exact Hid].
  - split; [discriminate|]. intros (n & Hn & Hid).
    rewrite findIndex_None in Hi. specialize (Hi n Hn).
    apply Z.eqb_neq in Hi. contradiction.
  - destruct (findIndex_Some _ _ _ Hi) as (x & Hx & Hid & _).
    apply Z.eqb_eq in Hid. intros n. split.
    + intros Hn. split; [now apply In_delete in Hn|]. intros Hnid.
      apply (NoDup_delete_not_In _ i id Hids).
      * rewrite lookup_map, Hx. simpl. congruence.
      * rewrite <- map_delete. apply in_map_iff. eauto.
    + intros [Hn Hnid]. apply (In_delete_other _ i x n Hx Hn). congruence.
  - rewrite findIndex_None in Hi. intros n. split; [|tauto].
    intros Hn. split; [exact Hn|]. specialize (Hi n Hn). now apply Z.eqb_neq in Hi.
  - discriminate.
  - reflexivity.
  - destruct (findIndex_Some _ _ _ Hi) as (x & Hx & Hid & _).
    apply Z.eqb_eq in Hid.
    assert (Hgone : JSArray.findIndex (MemStorage.has_news_id id)
                      (delete i (MemStorage.businessNews st)) = None).
    { apply findIndex_None. intros n Hn. apply Z.eqb_neq. intros Hnid.
      apply (NoDup_delete_not_In _ i id Hids).
      - rewrite lookup_map, Hx. simpl. congruence.
      - rewrite <- map_delete. apply in_map_iff. eauto. }
    now rewrite Hgone.
  - now rewrite Hi.
Qed.

(** OFERTA is announcement 1 of the sample store: deleting it answers
    true and leaves HORARIO; deleting it again answers false. *)
Lemma deleteBusinessNews_true_iff_existed_witness :
  Routes.reachable (H := bogota) store_news
  /\ fst (MemStorage.deleteBusinessNews 1 store_news) = true
  /\ map BusinessNews.title
       (MemStorage.businessNews (snd (MemStorage.deleteBusinessNews 1 store_news)))
     = ["HORARIO"]
  /\ fst (MemStorage.deleteBusinessNews 1
            (snd (MemStorage.deleteBusinessNews 1 store_news)))
     = false.
Proof.
  split; [exact store_news_reachable|].
  destruct (deleteBusinessNews_true_iff_existed (H := bogota) 1 store_news
              store_news_reachable) as (_ & _ & _ & Hagain & _).
  split; [reflexivity|]. split; [reflexivity|exact Hagain].
Defined.

(** * Request handlers *)

(** X5. A request answered with an error status (400, 401 or 404)
    changes nothing in the store: not signed in, identifier that is not
    a number, body refused by validation, name already taken, record
    not found. *)
Theorem error_response_keeps_store `{Host}
    (isAuthenticated : bool) (req : Routes.Request) (st : MemStorage.t) :
  400 <= Routes.status (fst (Routes.handle isAuthenticated req st)) ->
  snd (Routes.handle isAuthenticated req st) = st.
Proof.
  unfold Routes.handle. destruct isAuthenticated; cbn [negb]; [|reflexivity].
  destruct req as [|q|id|now data|now id data|id|now|now now' data|id|now|now now'].
  - reflexivity.
  - destruct q as [q|]; [destruct (JSString.truthy q)|]; reflexivity.
  - destruct id as [id|]; [destruct (MemStorage.getProductById id st)|];
      reflexivity.
  - unfold Routes.post_product.
    destruct (Schema.insertProductSchema data); [|reflexivity].
    destruct (MemStorage.getProductByName _ st); [reflexivity|].
    destruct (MemStorage.createProduct now data st). cbn. lia.
  - unfold Routes.put_product. destruct id as [id|]; [|reflexivity].
    destruct (Schema.updateProductSchema data); [|reflexivity].
    destruct (MemStorage.getProductById id st); [|reflexivity].
    destruct (MemStorage.updateProduct now id data st).
    destruct (MemStorage.getProductByName _ st) as [dup|];
      [destruct (negb _)|]; cbn; solve [reflexivity|lia].
  - unfold Routes.delete_product. destruct id as [id|]; [|reflexivity].
    unfold MemStorage.deleteProduct.
    destruct (JSArray.findIndex _ _); [cbn; lia|reflexivity].
  - reflexivity.
  - destruct (MemStorage.createBusinessNews now now' data st). cbn. lia.
  - unfold Routes.delete_news. destruct id as [id|]; [|reflexivity].
    unfold MemStorage.deleteBusinessNews.
    destruct (JSArray.findIndex _ _); [cbn; lia|reflexivity].
  - destruct (MemStorage.deleteExpiredNews now st). cbn. lia.
  - reflexivity.
Qed.

(** Posting ARROZ again is refused with 400, and the store is the
    same afterwards. *)
Lemma error_response_keeps_store_witness :
  Routes.status
    (fst (Routes.handle (H := bogota) true
            (Routes.PostProduct 1762074120000 arroz_patch) store_two))
  = 400
  /\ snd (Routes.handle (H := bogota) true
            (Routes.PostProduct 1762074120000 arroz_patch) store_two)
     = store_two.
Proof.
  split; [reflexivity|].
  apply (error_response_keeps_store (H := bogota)). vm_compute. discriminate.
Defined.

(** X6. POST /api/products answers 201 exactly when the body passes
    validation and no stored product has the name.  The product it
    returns is then stored last, under the next identifier; GET by
    that identifier and a lookup by the name both return it, and
    posting the same body again is refused as a duplicate.  A body
    that fails validation is answered 400 with every issue found. *)
Theorem post_product_then_get `{Host}
    (now : Z) (data : InsertProduct.t) (st : MemStorage.t) :
  Routes.reachable st ->
  let r := Routes.handle true (Routes.PostProduct now data) st in
  (Routes.status (fst r) = 201 <->
     Schema.insertProductSchema data = []
     /\ MemStorage.getProductByName (InsertProduct.name data) st = None)
  /\ (Routes.status (fst r) = 201 ->
      exists product,
        fst r = Routes.json 201 (Routes.ProductJson (Some product))
        /\ Product.id product = MemStorage.nextProductId st
        /\ MemStorage.products (snd r) = (MemStorage.products st ++ [product])%list
        /\ Routes.handle true (Routes.GetProduct (Some (Product.id product))) (snd r)
           = (Routes.json 200 (Routes.ProductJson (Some product)), snd r)
        /\ MemStorage.getProductByName (InsertProduct.name data) (snd r)
           = Some product
        /\ forall now',
             Routes.handle true (Routes.PostProduct now' data) (snd r)
             = (Routes.duplicate_name, snd r))
  /\ (Schema.insertProductSchema data <> [] ->
      r = (Routes.json 400
             (Routes.ValidationError (Schema.insertProductSchema data)), st)).
Proof.
  intros Hreach. cbn zeta.
  change (Routes.handle true (Routes.PostProduct now data) st)
    with (Routes.post_product now data st).
  pose proof (reachable_products_ok st Hreach) as [Hbelow _ _].
  unfold Routes.post_product.
  destruct (Schema.insertProductSchema data) as [|e errors] eqn:Hvalid.
  2: { cbn. split; [|split; [discriminate|reflexivity]].
       split; [discriminate|]. now intros [? _]. }
  destruct (MemStorage.getProductByName _ st) as [dup|] eqn:Hname.
  { cbn. split; [|split; [discriminate|congruence]].
    split; [discriminate|]. now intros [_ ?]. }
  pose proof (createProduct_get now data st Hbelow) as Hget.
  assert (Hbyname :
    MemStorage.getProductByName (InsertProduct.name data)
      (snd (MemStorage.createProduct now data st))
    = Some (fst (MemStorage.createProduct now data st))).
  { unfold MemStorage.getProductByName in *.
    cbn [MemStorage.createProduct snd fst MemStorage.products
           MemStorage.with_products].
    rewrite find_app, Hname. cbn. now rewrite String.eqb_refl. }
  destruct (MemStorage.createProduct now data st) as [product st'] eqn:Hcreate.
  cbn [fst snd] in *. split; [cbn; tauto|]. split; [|congruence]. intros _.
  exists product.
  assert (Hshape : Product.id product = MemStorage.nextProductId st
                   /\ MemStorage.products st'
                      = (MemStorage.products st ++ [product])%list).
  { injection Hcreate as <- <-. now split. }
  destruct Hshape as [Hid Hprods].
  split; [reflexivity|]. split; [exact Hid|]. split; [exact Hprods|].
  split; [|split; [exact Hbyname|]].
  - cbn. now rewrite Hget.
  - intros now'.
    change (Routes.handle true (Routes.PostProduct now' data) st')
      with (Routes.post_product now' data st').
    unfold Routes.post_product. now rewrite Hvalid, Hbyname.
Qed.

(** AZUCAR posted to the store that holds ARROZ: 201, product 2. *)
Lemma post_product_then_get_witness :
  Routes.reachable (H := bogota) store_arroz
  /\ Routes.status
       (fst (Routes.handle (H := bogota) true
               (Routes.PostProduct 1762074060000 azucar) store_arroz))
     = 201
  /\ exists product,
       Product.id product = 2
       /\ Routes.handle (H := bogota) true (Routes.GetProduct (Some 2)) store_two
          = (Routes.json 200 (Routes.ProductJson (Some product)), store_two).
Proof.
  split; [exact store_arroz_reachable|]. split; [reflexivity|].
  destruct (post_product_then_get (H := bogota) 1762074060000 azucar store_arroz
              store_arroz_reachable) as (_ & Hcreated & _).
  destruct (Hcreated eq_refl) as (product & _ & Hid & _ & Hget & _).
  exists product. split; [exact Hid|]. rewrite Hid in Hget. exact Hget.
Defined.

(** X7. In every store the server reaches, a stored product is the one
    and only product with its identifier and with its name: GET by
    its identifier answers 200 with it, the lookup by its name returns
    it, and an identifier no product has is answered 404. *)
Theorem stored_product_is_served `{Host} (st : MemStorage.t) (p : Product.t) :
  Routes.reachable st ->
  In p (MemStorage.products st) ->
  Routes.handle true (Routes.GetProduct (Some (Product.id p))) st
  = (Routes.json 200 (Routes.ProductJson (Some p)), st)
  /\ MemStorage.getProductByName (Product.name p) st = Some p
  /\ (forall q, In q (MemStorage.products st) ->
        Product.id q = Product.id p \/ Product.name q = Product.name p -> q = p)
  /\ (forall id, id >= MemStorage.nextProductId st ->
        Routes.handle true (Routes.GetProduct (Some id)) st
        = (Routes.json 404 (Routes.Message "Product not found"), st)).
Proof.
  intros Hreach Hin.
  pose proof (reachable_products_ok st Hreach) as [Hbelow Hids Hnames].
  pose proof (getProductById_unique st p Hids Hin) as Hbyid.
  pose proof (getProductByName_unique st p Hnames Hin) as Hbyname.
  split; [cbn; now rewrite Hbyid|]. split; [exact Hbyname|]. split.
  - intros q Hq [Hid|Hname].
    + pose proof (getProductById_unique st q Hids Hq) as Hq'.
      rewrite Hid in Hq'. congruence.
    + pose proof (getProductByName_unique st q Hnames Hq) as Hq'.
      rewrite Hname in Hq'. congruence.
  - intros id Hid. cbn.
    assert (Hnone : MemStorage.getProductById id st = None).
    { apply find_None_iff. intros q Hq. apply has_id_false.
      specialize (Hbelow q Hq). lia. }
    now rewrite Hnone.
Qed.

Lemma stored_product_is_served_witness :
  Routes.reachable (H := bogota) store_two
  /\ In (fst (MemStorage.createProduct 1762074060000 azucar store_arroz))
       (MemStorage.products store_two)
  /\ Routes.handle (H := bogota) true (Routes.GetProduct (Some 2)) store_two
     = (Routes.json 200
          (Routes.ProductJson
             (Some (fst (MemStorage.createProduct 1762074060000 azucar
                           store_arroz)))),
        store_two).
Proof.
  assert (Hin : In (fst (MemStorage.createProduct 1762074060000 azucar store_arroz))
                  (MemStorage.products store_two))
    by (right; left; reflexivity).
  split; [exact store_two_reachable|]. split; [exact Hin|].
  exact (proj1 (stored_product_is_served (H := bogota) store_two _
                  store_two_reachable Hin)).
Defined.



(** * Listing and search *)

Section SortMore.
Context {A : Type} (cmp : A -> A -> Z).
Hypothesis cmp_ok : consistent cmp.

(** Sorting and selecting commute: the selected entries of a sorted
    list are the sorted selection. *)
Lemma filter_sort_insert (f : A -> bool) x l :
  StronglySorted (not_after cmp) l ->
  List.filter f (JSArray.sort_insert cmp x l)
  = if f x then JSArray.sort_insert cmp x (List.filter f l) else List.filter f l.
Proof.
  induction 1 as [|y l Hl IH Hy].
  - simpl. now destruct (f x).
  - cbn [JSArray.sort_insert]. destruct (cmp x y <=? 0) eqn:Hxy.
    + change (List.filter f (x :: y :: l))
        with (if f x then x :: List.filter f (y :: l)
              else List.filter f (y :: l)).
      destruct (f x) eqn:Hfx; [|reflexivity].
      apply Z.leb_le in Hxy.
      assert (Hhead : forall z, In z (List.filter f (y :: l)) -> cmp x z <= 0).
      { intros z Hz. apply filter_In in Hz as [[<-|Hz] _]; [exact Hxy|].
        rewrite List.Forall_forall in Hy.
        exact (cmp_trans _ cmp_ok x y z Hxy (Hy z Hz)). }
      destruct (List.filter f (y :: l)) as [|z r]; [reflexivity|].
      cbn [JSArray.sort_insert]. specialize (Hhead z (or_introl eq_refl)).
      apply Z.leb_le in Hhead. now rewrite Hhead.
    + change (List.filter f (y :: JSArray.sort_insert cmp x l))
        with (if f y then y :: List.filter f (JSArray.sort_insert cmp x l)
              else List.filter f (JSArray.sort_insert cmp x l)).
      change (List.filter f (y :: l))
        with (if f y then y :: List.filter f l else List.filter f l).
      rewrite IH.
      destruct (f y), (f x); cbn [JSArray.sort_insert]; rewrite ?Hxy; reflexivity.
Qed.

Lemma filter_sort (f : A -> bool) l :
  List.filter f (JSArray.sort cmp l) = JSArray.sort cmp (List.filter f l).
Proof.
  induction l as [|x l IH]; [reflexivity|].
  change (JSArray.sort cmp (x :: l))
    with (JSArray.sort_insert cmp x (JSArray.sort cmp l)).
  rewrite filter_sort_insert by (apply sort_strongly_sorted; apply cmp_ok).
  rewrite IH.
  change (List.filter f (x :: l))
    with (if f x then x :: List.filter f l else List.filter f l).
  now destruct (f x).
Qed.


End SortMore.

Lemma includes_empty s : JSString.includes s "" = true.
Proof. destruct s; reflexivity. Qed.

(** X9. Under a consistent collation, [getAllProducts] returns the
    stored products, each once, in ascending order of name; GET
    /api/products answers 200 with that list and leaves the store as
    it is.  The relational [getAllProducts] does the same with the
    rows of the table. *)
Theorem getAllProducts_sorted_by_name `{Host} (st : MemStorage.t) :
  consistent localeCompare ->
  Permutation (MemStorage.getAllProducts st) (MemStorage.products st)
  /\ StronglySorted
       (fun a b => localeCompare (Product.name a) (Product.name b) <= 0)
       (MemStorage.getAllProducts st)
  /\ Routes.handle true Routes.GetProducts st
     = (Routes.json 200 (Routes.ProductsJson (MemStorage.getAllProducts st)), st)
  /\ forall rows,
       Permutation (DatabaseStorage.getAllProducts localeCompare rows) rows
       /\ StronglySorted
            (fun a b =>
               localeCompare (DatabaseStorage.ProductRow.name a)
                 (DatabaseStorage.ProductRow.name b) <= 0)
            (DatabaseStorage.getAllProducts localeCompare rows).
Proof.
  intros [Htotal Htrans]. split; [apply sort_perm|]. split; [|split].
  - apply (sort_strongly_sorted MemStorage.by_name).
    + intros a b. apply Htotal.
    + intros a b c. apply Htrans.
  - reflexivity.
  - intros rows. split; [apply sort_perm|].
    apply (sort_strongly_sorted (DatabaseStorage.by_name localeCompare)).
    + intros a b. apply Htotal.
    + intros a b c. apply Htrans.
Qed.

Lemma getAllProducts_sorted_by_name_witness :
  consistent (localeCompare (Host := bogota))
  /\ map Product.name (MemStorage.getAllProducts (H := bogota) store_two)
     = ["ARROZ"; "AZUCAR"]
  /\ Permutation (MemStorage.getAllProducts (H := bogota) store_two)
       (MemStorage.products store_two).
Proof.
  split; [exact code_unit_order_consistent|]. split; [reflexivity|].
  exact (proj1 (getAllProducts_sorted_by_name (H := bogota) store_two
                  code_unit_order_consistent)).
Defined.

Lemma by_name_consistent `{Host} :
  consistent localeCompare -> consistent MemStorage.by_name.
Proof.
  intros [Htotal Htrans]. split.
  - intros a b. apply Htotal.
  - intros a b c. apply Htrans.
Qed.

(** X10. Under a consistent collation, the search returns the first ten
    matching entries of the full listing, in the order of the listing.
    An empty query matches every product, so the store answers it with
    the first ten products by name; the route never passes an empty or
    missing query on and answers it with the empty list. *)
Theorem searchProducts_within_listing `{Host} (query : string) (st : MemStorage.t) :
  consistent localeCompare ->
  MemStorage.searchProducts query st
  = take 10 (List.filter (MemStorage.matches query) (MemStorage.getAllProducts st))
  /\ MemStorage.searchProducts "" st = take 10 (MemStorage.getAllProducts st)
  /\ Routes.handle true (Routes.SearchProducts (Some "")) st
     = (Routes.json 200 (Routes.ProductsJson []), st)
  /\ Routes.handle true (Routes.SearchProducts None) st
     = (Routes.json 200 (Routes.ProductsJson []), st)
  /\ (query <> "" ->
      Routes.handle true (Routes.SearchProducts (Some query)) st
      = (Routes.json 200
           (Routes.ProductsJson
              (take 10 (List.filter (MemStorage.matches query)
                          (MemStorage.getAllProducts st)))),
         st)).
Proof.
  intros Hcmp. apply by_name_consistent in Hcmp.
  assert (Hsearch : MemStorage.searchProducts query st
    = take 10 (List.filter (MemStorage.matches query)
                 (MemStorage.getAllProducts st))).
  { unfold MemStorage.searchProducts, MemStorage.getAllProducts.
    now rewrite (filter_sort _ Hcmp). }
  split; [exact Hsearch|]. split; [|split; [reflexivity|split; [reflexivity|]]].
  - unfold MemStorage.searchProducts, MemStorage.getAllProducts.
    rewrite filter_all; [reflexivity|].
    intros p _. apply includes_empty.
  - intros Hq. cbn. rewrite <- Hsearch.
    now destruct query as [|c q]; [contradiction|].
Qed.

Lemma searchProducts_within_listing_witness :
  consistent (localeCompare (Host := bogota))
  /\ map Product.name (MemStorage.searchProducts (H := bogota) "" store_two)
     = ["ARROZ"; "AZUCAR"]
  /\ MemStorage.searchProducts (H := bogota) "z" store_two
     = take 10 (List.filter (MemStorage.matches "z")
                  (MemStorage.getAllProducts (H := bogota) store_two)).
Proof.
  split; [exact code_unit_order_consistent|]. split; [reflexivity|].
  exact (proj1 (searchProducts_within_listing (H := bogota) "z" store_two
                  code_unit_order_consistent)).
Defined.



(** * The two stores side by side *)

Section MapSort.
Context {A B : Type} (key : A -> B).

Lemma map_sort_insert (cmpA : A -> A -> Z) (cmpB : B -> B -> Z) x l :
  (forall a b, cmpA a b = cmpB (key a) (key b)) ->
  map key (JSArray.sort_insert cmpA x l)
  = JSArray.sort_insert cmpB (key x) (map key l).
Proof.
  intros Hcmp. induction l as [|y l IH]; simpl; [reflexivity|].
  rewrite <- Hcmp. destruct (cmpA x y <=? 0); simpl; [reflexivity|].
  now rewrite IH.
Qed.

Lemma map_sort (cmpA : A -> A -> Z) (cmpB : B -> B -> Z) l :
  (forall a b, cmpA a b = cmpB (key a) (key b)) ->
  map key (JSArray.sort cmpA l) = JSArray.sort cmpB (map key l).
Proof.
  intros Hcmp. induction l as [|x l IH]; [reflexivity|].
  change (JSArray.sort cmpA (x :: l))
    with (JSArray.sort_insert cmpA x (JSArray.sort cmpA l)).
  now rewrite (map_sort_insert cmpA cmpB _ _ Hcmp), IH.
Qed.

Lemma map_filter_key (f : A -> bool) (g : B -> bool) l :
  (forall a, f a = g (key a)) ->
  map key (List.filter f l) = List.filter g (map key l).
Proof.
  intros Hfg. induction l as [|x l IH]; simpl; [reflexivity|].
  rewrite <- Hfg. destruct (f x); simpl; now rewrite IH.
Qed.

Lemma map_take n l : map key (take n l) = take n (map key l).
Proof.
  revert n. induction l as [|x l IH]; intros [|n]; simpl; try reflexivity.
  now rewrite IH.
Qed.

End MapSort.

Lemma literal_upper_char c :
  literal c = true -> literal (JSString.upper_char c) = true.
Proof.
  destruct c as [[] [] [] [] [] [] [] []]; intros Hc;
    try discriminate Hc; reflexivity.
Qed.

Lemma plain_toUpperCase q : plain q = true -> plain (JSString.toUpperCase q) = true.
Proof.
  induction q as [|c q IH]; simpl; [reflexivity|].
  intros Hq. apply andb_true_iff in Hq as [Hc Hq].
  now rewrite (literal_upper_char c Hc), IH.
Qed.

(** X12. The two stores answer alike.  On the same product names, with
    the database collating as [localeCompare] does, the relational
    store and the in-memory store list the names in the same order,
    and for a query without [%], [_] and backslash their searches
    return the same names in the same order. *)
Theorem stores_agree_on_names `{Host}
    (query : string) (st : MemStorage.t)
    (rows : list DatabaseStorage.ProductRow.t) :
  map DatabaseStorage.ProductRow.name rows
  = map Product.name (MemStorage.products st) ->
  map DatabaseStorage.ProductRow.name
    (DatabaseStorage.getAllProducts localeCompare rows)
  = map Product.name (MemStorage.getAllProducts st)
  /\ (plain query = true ->
      map DatabaseStorage.ProductRow.name
        (DatabaseStorage.searchProducts localeCompare query rows)
      = map Product.name (MemStorage.searchProducts query st)).
Proof.
  intros Hnames. split.
  - unfold DatabaseStorage.getAllProducts, MemStorage.getAllProducts.
    rewrite (map_sort DatabaseStorage.ProductRow.name
               (DatabaseStorage.by_name localeCompare) localeCompare)
      by reflexivity.
    rewrite (map_sort Product.name MemStorage.by_name localeCompare)
      by reflexivity.
    now rewrite Hnames.
  - intros Hq. apply plain_toUpperCase in Hq.
    unfold DatabaseStorage.searchProducts, MemStorage.searchProducts.
    rewrite !map_take.
    rewrite (map_sort DatabaseStorage.ProductRow.name
               (DatabaseStorage.by_name localeCompare) localeCompare)
      by reflexivity.
    rewrite (map_sort Product.name MemStorage.by_name localeCompare)
      by reflexivity.
    rewrite (map_filter_key DatabaseStorage.ProductRow.name
               (DatabaseStorage.matches query)
               (fun name => JSString.includes name (JSString.toUpperCase query)))
      by (intros row; now apply like_plain_includes).
    rewrite (map_filter_key Product.name (MemStorage.matches query)
               (fun name => JSString.includes name (JSString.toUpperCase query)))
      by reflexivity.
    now rewrite Hnames.
Qed.

Lemma stores_agree_on_names_witness :
  map DatabaseStorage.ProductRow.name [arroz_row; azucar_row]
  = map Product.name (MemStorage.products store_two)
  /\ map DatabaseStorage.ProductRow.name
       (DatabaseStorage.getAllProducts (localeCompare (Host := bogota))
          [arroz_row; azucar_row])
     = map Product.name (MemStorage.getAllProducts (H := bogota) store_two).
Proof.
  split; [reflexivity|].
  exact (proj1 (stores_agree_on_names (H := bogota) "a" store_two
                  [arroz_row; azucar_row] eq_refl)).
Defined.

(** * The relational store: delete and sweep *)

Lemma filter_filter_implies {A : Type} (f g : A -> bool) (l : list A) :
  (forall x, f x = true -> g x = true) ->
  List.filter f (List.filter g l) = List.filter f l.
Proof.
  intros Hfg. induction l as [|x l IH]; simpl; [reflexivity|].
  destruct (g x) eqn:Hg; simpl.
  - now rewrite IH.
  - destruct (f x) eqn:Hf; [|exact IH].
    apply Hfg in Hf. congruence.
Qed.

(** X13. The relational [deleteBusinessNews id], for an identifier
    that fits the 32-bit [id] column, answers true exactly when the
    table had a row with that identifier; the rows left are the
    others, in their order.  When it answers false the table is
    unchanged, and deleting the same identifier again answers false.
    For an identifier outside that range the statement fails: the
    promise is rejected and no answer is given. *)
Theorem DatabaseStorage_deleteBusinessNews_iff
    (id : Z) (rows : list DatabaseStorage.NewsRow.t) :
  (- 2 ^ 31 <= id < 2 ^ 31 ->
   exists deleted remaining,
     DatabaseStorage.deleteBusinessNews id rows = Resolved (deleted, remaining)
     /\ (deleted = true <->
           exists row, In row rows /\ DatabaseStorage.NewsRow.id row = id)
     /\ (forall row, In row remaining <->
           In row rows /\ DatabaseStorage.NewsRow.id row <> id)
     /\ (exists gone, Permutation rows (gone ++ remaining)
                      /\ forall row, In row gone ->
                           DatabaseStorage.NewsRow.id row = id)
     /\ (deleted = false -> remaining = rows)
     /\ DatabaseStorage.deleteBusinessNews id remaining
        = Resolved (false, remaining))
  /\ (id < - 2 ^ 31 \/ 2 ^ 31 <= id ->
      DatabaseStorage.deleteBusinessNews id rows = Rejected).
Proof.
  split.
  - intros Hrange. apply int4_true in Hrange.
    unfold DatabaseStorage.deleteBusinessNews. rewrite Hrange. cbn zeta.
    eexists _, _. split; [reflexivity|].
    split; [apply delete_where_flag|].
    split; [intros row; apply delete_where_rest|].
    split; [|split; [apply delete_where_none|]].
    + exists (List.filter (fun row => DatabaseStorage.NewsRow.id row =? id) rows).
      split.
      * induction rows as [|row rows IH]; simpl; [constructor|].
        destruct (DatabaseStorage.NewsRow.id row =? id); simpl.
        -- now constructor.
        -- now apply Permutation_cons_app.
      * intros row Hrow. apply filter_In in Hrow as [_ Hid].
        now apply Z.eqb_eq.
    + rewrite filter_filter_same, Z.sub_diag. reflexivity.
  - intros Hrange. apply int4_false in Hrange.
    unfold DatabaseStorage.deleteBusinessNews. now rewrite Hrange.
Qed.

(** Deleting OFERTA (1) leaves AVISO; announcement 2147483648 cannot
    even be asked for. *)
Lemma DatabaseStorage_deleteBusinessNews_iff_witness :
  DatabaseStorage.deleteBusinessNews 1 [oferta_row; aviso_row]
  = Resolved (true, [aviso_row])
  /\ DatabaseStorage.deleteBusinessNews 3 [oferta_row; aviso_row]
     = Resolved (false, [oferta_row; aviso_row])
  /\ DatabaseStorage.deleteBusinessNews 2147483648 [oferta_row; aviso_row]
     = Rejected.
Proof.
  split; [reflexivity|]. split; [reflexivity|].
  apply (proj2 (DatabaseStorage_deleteBusinessNews_iff 2147483648
                  [oferta_row; aviso_row])).
  right. lia.
Defined.

(** X14. On a server whose zone is not behind UTC, the relational
    sweep never removes an announcement that is still listed: after a
    sweep at [now], the list of active announcements is, at [now] and
    at any later time, what it would have been without the sweep.
    The sweep reports how many rows it removed, and a second sweep at
    the same instant removes none. *)
Theorem DatabaseStorage_sweep_keeps_listing `{Host}
    (now now' : Z) (rows : list DatabaseStorage.NewsRow.t) :
  now <= now' ->
  0 <= LocalTZA now' true ->
  let swept := snd (DatabaseStorage.deleteExpiredNews now rows) in
  DatabaseStorage.getAllBusinessNews now' swept
  = DatabaseStorage.getAllBusinessNews now' rows
  /\ fst (DatabaseStorage.deleteExpiredNews now rows)
     = Z.of_nat (length rows) - Z.of_nat (length swept)
  /\ DatabaseStorage.deleteExpiredNews now swept = (0, swept).
Proof.
  intros Hle Heast. cbn zeta.
  unfold DatabaseStorage.getAllBusinessNews, DatabaseStorage.deleteExpiredNews.
  cbn [fst snd]. split; [|split; [reflexivity|]].
  - f_equal. apply filter_filter_implies. intros row.
    unfold DatabaseStorage.lt, JSDate.LocalTime.
    destruct (DatabaseStorage.NewsRow.expiresAt row) as [t|]; simpl;
      [|discriminate].
    rewrite Z.ltb_lt, negb_true_iff, Z.ltb_ge. lia.
  - rewrite filter_filter_same. f_equal. lia.
Qed.

(** On a server that keeps UTC, one hour after OFERTA expired: the
    sweep removes OFERTA and the list, AVISO alone, is what it was. *)
Lemma DatabaseStorage_sweep_keeps_listing_witness :
  1762262800000 <= 1762262800000
  /\ 0 <= LocalTZA (Host := utc) 1762262800000 true
  /\ DatabaseStorage.deleteExpiredNews 1762262800000 [aviso_row; oferta_row]
     = (1, [aviso_row])
  /\ DatabaseStorage.getAllBusinessNews (H := utc) 1762262800000
       [aviso_row; oferta_row]
     = [aviso_row]
  /\ DatabaseStorage.getAllBusinessNews (H := utc) 1762262800000
       (snd (DatabaseStorage.deleteExpiredNews 1762262800000
               [aviso_row; oferta_row]))
     = DatabaseStorage.getAllBusinessNews (H := utc) 1762262800000
         [aviso_row; oferta_row].
Proof.
  split; [lia|]. split; [cbn; lia|]. split; [reflexivity|].
  split; [reflexivity|].
  refine (proj1 (DatabaseStorage_sweep_keeps_listing (H := utc)
                   1762262800000 1762262800000 [aviso_row; oferta_row] _ _)).
  - lia.
  - cbn. lia.
Defined.

(** Behind UTC the list holds expired rows, and those the sweep does
    remove: in Bogota, one hour after OFERTA expired, OFERTA is
    listed, the sweep removes it, and the list is empty. *)
Example DatabaseStorage_sweep_behind_utc :
  DatabaseStorage.getAllBusinessNews (H := bogota) 1762262800000 [oferta_row]
  = [oferta_row]
  /\ DatabaseStorage.deleteExpiredNews 1762262800000 [oferta_row] = (1, [])
  /\ DatabaseStorage.getAllBusinessNews (H := bogota) 1762262800000
       (snd (DatabaseStorage.deleteExpiredNews 1762262800000 [oferta_row]))
     = [].
Proof. repeat split; reflexivity. Qed.

(** * Validation *)

Lemma positive_price_iff val :
  Schema.positive_price val = true
  <-> JSNumber.ltb (JSNumber.of_Z 0) (JSNumber.parseFloat val) = true.
Proof.
  unfold Schema.positive_price.
  destruct (JSNumber.parseFloat val); simpl; split; intros Hp;
    try exact Hp; try discriminate Hp; try reflexivity;
    now apply andb_true_iff in Hp.
Qed.

Lemma length_positive s : (1 <=? String.length s)%nat = true <-> s <> "".
Proof. destruct s; simpl; split; intros; congruence. Qed.

Lemma check_nil ok path message : Schema.check ok path message = [] <-> ok = true.
Proof. unfold Schema.check. destruct ok; split; intros; congruence. Qed.

Lemma app_nil_iff {A : Type} (l l' : list A) : (l ++ l')%list = [] <-> l = [] /\ l' = [].
Proof.
  split; [apply app_eq_nil|]. now intros [-> ->].
Qed.

Lemma schema_accepts_iff data :
  Schema.insertProductSchema data = [] <->
  InsertProduct.name data <> ""
  /\ JSString.toUpperCase (InsertProduct.name data) = InsertProduct.name data
  /\ JSNumber.ltb (JSNumber.of_Z 0)
       (JSNumber.parseFloat (InsertProduct.purchasePrice data)) = true.
Proof.
  unfold Schema.insertProductSchema.
  rewrite !app_nil_iff, !check_nil, !length_positive, String.eqb_eq,
    positive_price_iff.
  split.
  - intros ((Hname & Hupper) & _ & Hprice). now repeat split.
  - intros (Hname & Hupper & Hprice). repeat split; try assumption; try easy.
    intros Hempty. rewrite Hempty in Hprice. discriminate Hprice.
Qed.

(** * What the stored products satisfy *)

Lemma createProduct_product_ok now data st :
  Schema.insertProductSchema data = [] ->
  product_ok (fst (MemStorage.createProduct now data st)).
Proof.
  intros Hvalid. apply schema_accepts_iff in Hvalid as (Hname & Hupper & Hprice).
  split; cbn [fst MemStorage.createProduct Product.name Product.purchasePrice
                Product.profitMargin Product.salePrice]; try assumption.
  eexists. split; reflexivity.
Qed.

Lemma updateProduct_product_ok now id data st old product :
  Schema.updateProductSchema data = [] ->
  MemStorage.getProductById id st = Some old ->
  fst (MemStorage.updateProduct now id data st) = Some product ->
  product_ok product.
Proof.
  intros Hvalid Hold Hupd.
  apply schema_accepts_iff in Hvalid as (Hname & Hupper & Hprice).
  destruct (updateProduct_found now id data st old Hold)
    as (i & product' & _ & _ & Heq & _ & Hpname & Hpprice & Hsale & Hmargin & _).
  rewrite Heq in Hupd. injection Hupd as <-.
  split; rewrite ?Hpname, ?Hpprice; try assumption.
  eexists. split; [exact Hmargin|exact Hsale].
Qed.

Section Validated.
Context `{Host}.

Lemma effect_product_ok st st' :
  effect st st' ->
  (forall p, In p (MemStorage.products st) -> product_ok p) ->
  forall p, In p (MemStorage.products st') -> product_ok p.
Proof.
  intros [|now data Hvalid _|now id data old Hvalid Hold _|id i Hi|now now' data
          |id i Hi|now] Hall p Hp; try (now apply Hall).
  - cbn [snd MemStorage.createProduct MemStorage.products
           MemStorage.with_products] in Hp.
    apply in_app_or in Hp as [Hp|[<-|[]]]; [now apply Hall|].
    exact (createProduct_product_ok now data st Hvalid).
  - destruct (updateProduct_found now id data st old Hold)
      as (i & product & _ & _ & Heq & _).
    pose proof (updateProduct_product_ok now id data st old product Hvalid Hold)
      as Hok.
    rewrite Heq in Hp, Hok. cbn [fst snd MemStorage.products
                                   MemStorage.with_products] in Hp, Hok.
    apply In_insert in Hp as [->|Hp]; [now apply Hok|now apply Hall].
  - unfold MemStorage.deleteProduct in Hp. rewrite Hi in Hp.
    cbn [snd MemStorage.products MemStorage.with_products] in Hp.
    apply In_delete in Hp. now apply Hall.
  - unfold MemStorage.deleteBusinessNews in Hp. rewrite Hi in Hp.
    now apply Hall.
Qed.

Lemma reachable_product_ok st p :
  Routes.reachable st -> In p (MemStorage.products st) -> product_ok p.
Proof.
  intros Hreach. revert p.
  induction Hreach as [|st isAuthenticated req _ IH|st insertUser _ IH].
  - intros p [].
  - exact (effect_product_ok _ _ (handle_effect isAuthenticated req st) IH).
  - exact IH.
Qed.

End Validated.

(** X16. Every product of a store the server reaches went through
    validation and pricing: its name is not empty and is its own
    upper-case form, its purchase price reads as a number above
    zero, and its sale price is [toFixed(2)] of that price times one
    plus a hundredth of the margin whose text the product stores. *)
Theorem stored_products_validated `{Host} (st : MemStorage.t) (p : Product.t) :
  Routes.reachable st ->
  In p (MemStorage.products st) ->
  Product.name p <> ""
  /\ JSString.toUpperCase (Product.name p) = Product.name p
  /\ JSNumber.ltb (JSNumber.of_Z 0) (JSNumber.parseFloat (Product.purchasePrice p))
     = true
  /\ exists margin,
       Product.profitMargin p = JSNumber.toString margin
       /\ Product.salePrice p
          = JSNumber.toFixed2
              (JSNumber.mul (JSNumber.parseFloat (Product.purchasePrice p))
                 (JSNumber.add (JSNumber.of_Z 1)
                    (JSNumber.div margin (JSNumber.of_Z 100)))).
Proof.
  intros Hreach Hin.
  destruct (reachable_product_ok st p Hreach Hin) as [Hname Hupper Hprice Hsale].
  now repeat split.
Qed.

Lemma stored_products_validated_witness :
  Routes.reachable (H := bogota) store_two
  /\ forall p, In p (MemStorage.products store_two) ->
       JSString.toUpperCase (Product.name p) = Product.name p.
Proof.
  split; [exact store_two_reachable|]. intros p Hin.
  exact (proj1 (proj2 (stored_products_validated (H := bogota) store_two p
                         store_two_reachable Hin))).
Defined.

(** * A margin that is not a number *)

Lemma salePrice_of_NaN purchasePrice :
  MemStorage.salePrice_of purchasePrice JSNumber.NaN = "NaN".
Proof. unfold MemStorage.salePrice_of. now destruct purchasePrice. Qed.

Lemma margin_or_given m fallback :
  m <> "" -> MemStorage.margin_or (Some m) fallback = JSNumber.parseFloat m.
Proof. intros Hm. destruct m; [contradiction|reflexivity]. Qed.

(** X17. The schemas do not look at the margin.  When the supplied
    margin is a non-empty text that [parseFloat] cannot read, a body
    that is otherwise valid is accepted with 201, and the product is
    stored with the sale price "NaN" and the margin "NaN"; a later
    update that leaves the margin out inherits that margin and prices
    the product "NaN" again. *)
Theorem margin_not_a_number `{Host}
    (now : Z) (data : InsertProduct.t) (st : MemStorage.t) (m : string) :
  InsertProduct.profitMargin data = Some m ->
  m <> "" ->
  JSNumber.parseFloat m = JSNumber.NaN ->
  let product := fst (MemStorage.createProduct now data st) in
  Product.salePrice product = "NaN"
  /\ Product.profitMargin product = "NaN"
  /\ (Schema.insertProductSchema data = [] ->
      MemStorage.getProductByName (InsertProduct.name data) st = None ->
      Routes.handle true (Routes.PostProduct now data) st
      = (Routes.json 201 (Routes.ProductJson (Some product)),
         snd (MemStorage.createProduct now data st)))
  /\ (forall now' id patch st' stored,
        MemStorage.getProductById id st' = Some stored ->
        Product.profitMargin stored = Product.profitMargin product ->
        InsertProduct.profitMargin patch = None ->
        exists updated,
          fst (MemStorage.updateProduct now' id patch st') = Some updated
          /\ Product.salePrice updated = "NaN"
          /\ Product.profitMargin updated = "NaN").
Proof.
  intros Hmargin Hm Hnan product.
  assert (Hsale : Product.salePrice product = "NaN").
  { subst product. cbn [fst MemStorage.createProduct Product.salePrice].
    now rewrite Hmargin, (margin_or_given m _ Hm), Hnan, salePrice_of_NaN. }
  assert (Hpm : Product.profitMargin product = "NaN").
  { subst product. cbn [fst MemStorage.createProduct Product.profitMargin].
    now rewrite Hmargin, (margin_or_given m _ Hm), Hnan. }
  split; [exact Hsale|]. split; [exact Hpm|]. split.
  - intros Hvalid Hname.
    change (Routes.handle true (Routes.PostProduct now data) st)
      with (Routes.post_product now data st).
    unfold Routes.post_product. rewrite Hvalid, Hname. subst product.
    now destruct (MemStorage.createProduct now data st).
  - intros now' id patch st' stored Hstored Hsame Hpatch.
    destruct (updateProduct_found now' id patch st' stored Hstored)
      as (i & updated & _ & _ & Heq & _ & _ & _ & Husale & Hupm & _).
    exists updated. rewrite Heq. split; [reflexivity|].
    rewrite Husale, Hupm, Hpatch, Hsame, Hpm.
    cbn [MemStorage.margin_or].
    change (JSNumber.parseFloat "NaN") with JSNumber.NaN.
    now rewrite salePrice_of_NaN.
Qed.

Lemma margin_not_a_number_witness :
  InsertProduct.profitMargin arroz_sin_margen = Some "veinte"
  /\ "veinte" <> ""
  /\ JSNumber.parseFloat "veinte" = JSNumber.NaN
  /\ Schema.insertProductSchema arroz_sin_margen = []
  /\ Product.salePrice
       (fst (MemStorage.createProduct 1762074000000 arroz_sin_margen
               MemStorage.storage))
     = "NaN".
Proof.
  split; [reflexivity|]. split; [discriminate|]. split; [reflexivity|].
  split; [reflexivity|].
  refine (proj1 (margin_not_a_number (H := bogota) 1762074000000 arroz_sin_margen
                   MemStorage.storage "veinte" eq_refl _ eq_refl)).
  discriminate.
Defined.

(** * PUT /api/products/:id *)



(** * Announcements: post, then list *)

(** X19. POST /api/business-news answers 201 with the new announcement,
    stored last under the next identifier.  From then on the list of
    active announcements holds it at time [t] exactly when it is
    permanent or [t] is before its expiry, three calendar days after
    the second clock reading; the announcements listed before are
    still listed. *)
Theorem post_news_then_list `{Host}
    (now now' t : Z) (data : InsertBusinessNews.t) (st : MemStorage.t) :
  let r := Routes.handle true (Routes.PostNews now now' data) st in
  exists news,
    fst r = Routes.json 201 (Routes.NewsJson news)
    /\ BusinessNews.id news = MemStorage.nextNewsId st
    /\ BusinessNews.title news = InsertBusinessNews.title data
    /\ BusinessNews.content news = InsertBusinessNews.content data
    /\ MemStorage.businessNews (snd r)
       = (MemStorage.businessNews st ++ [news])%list
    /\ (In news (MemStorage.getAllBusinessNews t (snd r)) <->
          InsertBusinessNews.isPermanent data = Some true
          \/ (InsertBusinessNews.isPermanent data <> Some true
              /\ exists expiry,
                   add_calendar_days now' 3 = TimeValue expiry /\ t < expiry))
    /\ (forall old, In old (MemStorage.getAllBusinessNews t st) ->
          In old (MemStorage.getAllBusinessNews t (snd r))).
Proof.
  cbn zeta.
  change (Routes.handle true (Routes.PostNews now now' data) st)
    with (let '(news, st') := MemStorage.createBusinessNews now now' data st in
          (Routes.json 201 (Routes.NewsJson news), st')).
  pose proof (createBusinessNews_expiresAt now now' data st) as Hexp.
  destruct (MemStorage.createBusinessNews now now' data st) as [news st'] eqn:Hc.
  cbn [fst snd] in *.
  assert (Hshape : BusinessNews.id news = MemStorage.nextNewsId st
                   /\ BusinessNews.title news = InsertBusinessNews.title data
                   /\ BusinessNews.content news = InsertBusinessNews.content data
                   /\ BusinessNews.isPermanent news
                      = match InsertBusinessNews.isPermanent data with
                        | Some b => b
                        | None => false
                        end
                   /\ MemStorage.businessNews st'
                      = (MemStorage.businessNews st ++ [news])%list).
  { injection Hc as <- <-. repeat split. }
  destruct Hshape as (Hid & Htitle & Hcontent & Hperm & Hnews).
  exists news. repeat (split; [first [reflexivity|assumption]|]).
  unfold MemStorage.getAllBusinessNews. rewrite Hnews. split.
  - rewrite sort_In, filter_In, shown_active. unfold active.
    rewrite Hexp, Hperm.
    split.
    + intros [_ Hactive].
      destruct (InsertBusinessNews.isPermanent data) as [[]|];
        [now left|right|right];
        (split; [discriminate|]);
        destruct Hactive as [Hp|(e & [= He] & Hlt)]; try discriminate Hp;
        eauto.
    + intros Hlisted. split; [apply in_or_app; right; now left|].
      destruct Hlisted as [->|(Hnot & e & He & Hlt)]; [now left|].
      destruct (InsertBusinessNews.isPermanent data) as [[]|];
        [now left|right|right]; exists e; now rewrite He.
  - intros old. rewrite !sort_In, !filter_In. intros [Hin Hshown].
    split; [apply in_or_app; now left|exact Hshown].
Qed.

(** OFERTA, posted in Bogota on 1 November 2025 at 07:26:40, is
    listed two days later and no longer three days later. *)
Example post_news_listed_three_days :
  let st := snd (Routes.handle (H := bogota) true
                   (Routes.PostNews 1762000000000 1762000000000
                      (sample_news "OFERTA" None)) MemStorage.storage) in
  map BusinessNews.title
    (MemStorage.getAllBusinessNews (1762000000000 + 2 * 86400000) st)
  = ["OFERTA"]
  /\ MemStorage.getAllBusinessNews (1762000000000 + 3 * 86400000) st = [].
Proof. split; reflexivity. Qed.

(** * One collection at a time *)

Section Frames.
Context `{Host}.

Lemma effect_one_collection st st' :
  effect st st' ->
  (MemStorage.products st' = MemStorage.products st
   /\ MemStorage.nextProductId st' = MemStorage.nextProductId st)
  \/ (MemStorage.businessNews st' = MemStorage.businessNews st
      /\ MemStorage.nextNewsId st' = MemStorage.nextNewsId st).
Proof.
  intros [|now data _ _|now id data old _ _ _|id i Hi|now now' data|id i Hi|now];
    try (now left); try (now right).
  - right. now destruct (updateProduct_frame now id data st) as (_ & _ & -> & -> & _).
  - right. unfold MemStorage.deleteProduct. now rewrite Hi.
  - left. unfold MemStorage.deleteBusinessNews. now rewrite Hi.
Qed.

End Frames.

(** X20. A request works on one collection at a time: it never changes
    the users, and whenever it changes the products it leaves the
    announcements and their counter alone, and the other way round. *)
Theorem handle_touches_one_collection `{Host}
    (isAuthenticated : bool) (req : Routes.Request) (st : MemStorage.t) :
  let st' := snd (Routes.handle isAuthenticated req st) in
  MemStorage.users st' = MemStorage.users st
  /\ MemStorage.nextUserId st' = MemStorage.nextUserId st
  /\ ((MemStorage.products st' = MemStorage.products st
       /\ MemStorage.nextProductId st' = MemStorage.nextProductId st)
      \/ (MemStorage.businessNews st' = MemStorage.businessNews st
          /\ MemStorage.nextNewsId st' = MemStorage.nextNewsId st)).
Proof.
  cbn zeta. pose proof (handle_effect isAuthenticated req st) as He.
  destruct (effect_users _ _ He) as [Hu Hn].
  split; [exact Hu|]. split; [exact Hn|]. now apply effect_one_collection.
Qed.

(** * Announcements: clean up, then list *)

Lemma kept_shown now news :
  0 <= now -> MemStorage.kept now news = true -> MemStorage.shown now news = true.
Proof.
  intros Hnow Hkept. apply kept_iff in Hkept as [(t & Ht & Hlt)|[_ Hneg]]; [|lia].
  unfold MemStorage.shown. rewrite Ht. simpl.
  apply Z.ltb_lt in Hlt. rewrite Hlt. apply orb_true_r.
Qed.

(** X21. POST /api/business-news/cleanup, at a time not before the
    epoch, answers 200 with the number of announcements it removed
    and leaves the products alone.  Every announcement it leaves has
    an expiry date after that time, so the list read at the same time
    holds all the announcements left, by creation time; cleaning up
    again at the same time removes none. *)
Theorem cleanup_then_list `{Host} (now : Z) (st : MemStorage.t) :
  0 <= now ->
  let r := Routes.handle true (Routes.CleanupNews now) st in
  fst r
  = Routes.json 200
      (Routes.DeletedCount
         (Z.of_nat (length (MemStorage.businessNews st))
          - Z.of_nat (length (MemStorage.businessNews (snd r)))))
  /\ MemStorage.products (snd r) = MemStorage.products st
  /\ (forall news, In news (MemStorage.businessNews (snd r)) ->
        In news (MemStorage.businessNews st)
        /\ exists t, BusinessNews.expiresAt news = Some (TimeValue t) /\ now < t)
  /\ Routes.handle true (Routes.GetNews now) (snd r)
     = (Routes.json 200
          (Routes.NewsListJson
             (JSArray.sort MemStorage.by_createdAt
                (MemStorage.businessNews (snd r)))),
        snd r)
  /\ Routes.handle true (Routes.CleanupNews now) (snd r)
     = (Routes.json 200 (Routes.DeletedCount 0), snd r).
Proof.
  intros Hnow. cbn zeta.
  change (Routes.handle true (Routes.CleanupNews now) st)
    with (Routes.json 200
            (Routes.DeletedCount (fst (MemStorage.deleteExpiredNews now st))),
          snd (MemStorage.deleteExpiredNews now st)).
  cbn [fst snd MemStorage.deleteExpiredNews MemStorage.businessNews
         MemStorage.products MemStorage.with_businessNews].
  split; [reflexivity|]. split; [reflexivity|]. split; [|split].
  - intros news Hin. apply filter_In in Hin as [Hin Hkept].
    split; [exact Hin|].
    apply kept_iff in Hkept as [Hlater|[_ Hneg]]; [exact Hlater|lia].
  - cbn. unfold MemStorage.getAllBusinessNews.
    cbn [MemStorage.businessNews MemStorage.with_businessNews].
    rewrite (filter_all (MemStorage.shown now)); [reflexivity|].
    intros news Hin. apply filter_In in Hin as [_ Hkept].
    now apply kept_shown.
  - cbn. rewrite filter_filter_same, Z.sub_diag. reflexivity.
Qed.

(** The sample store cleaned up four days after OFERTA was posted:
    the two announcements go, OFERTA as expired and HORARIO for
    having no expiry date; nothing is left to list. *)
Lemma cleanup_then_list_witness :
  0 <= 1762345600000
  /\ fst (Routes.handle (H := bogota) true (Routes.CleanupNews 1762345600000)
            store_news)
     = Routes.json 200 (Routes.DeletedCount 2)
  /\ Routes.handle (H := bogota) true (Routes.CleanupNews 1762345600000)
       (snd (Routes.handle (H := bogota) true (Routes.CleanupNews 1762345600000)
               store_news))
     = (Routes.json 200 (Routes.DeletedCount 0),
        snd (Routes.handle (H := bogota) true (Routes.CleanupNews 1762345600000)
               store_news)).
Proof.
  split; [lia|]. split; [reflexivity|].
  exact (proj2 (proj2 (proj2 (proj2
    (cleanup_then_list (H := bogota) 1762345600000 store_news ltac:(lia)))))).
Defined.

(** * Signing in *)

(** X22. Every route asks for a signed-in user first: without one the
    answer is the bare status 401 and the store is not touched,
    whatever the request; with one, the answer is never 401. *)
Theorem unauthenticated_iff_401 `{Host}
    (isAuthenticated : bool) (req : Routes.Request) (st : MemStorage.t) :
  let r := Routes.handle isAuthenticated req st in
  (isAuthenticated = false -> r = (Routes.sendStatus 401, st))
  /\ (Routes.status (fst r) = 401 <-> isAuthenticated = false).
Proof.
  cbn zeta.
  assert (Hsigned : In (Routes.status (fst (Routes.handle true req st)))
                      [200; 201; 204; 400; 404]).
  { unfold Routes.handle. cbn [negb].
    destruct req
      as [|q|id|now data|now id data|id|now|now now' data|id|now|now now'].
    - cbn. tauto.
    - destruct q as [q|]; [destruct (JSString.truthy q)|]; cbn; tauto.
    - destruct id as [id|]; [destruct (MemStorage.getProductById id st)|];
        cbn; tauto.
    - unfold Routes.post_product.
      destruct (Schema.insertProductSchema data); [|cbn; tauto].
      destruct (MemStorage.getProductByName _ st); [cbn; tauto|].
      destruct (MemStorage.createProduct now data st). cbn. tauto.
    - unfold Routes.put_product. destruct id as [id|]; [|cbn; tauto].
      destruct (Schema.updateProductSchema data); [|cbn; tauto].
      destruct (MemStorage.getProductById id st); [|cbn; tauto].
      destruct (MemStorage.updateProduct now id data st).
      destruct (MemStorage.getProductByName _ st) as [dup|];
        [destruct (negb _)|]; cbn; tauto.
    - unfold Routes.delete_product. destruct id as [id|]; [|cbn; tauto].
      destruct (MemStorage.deleteProduct id st) as [[] st']; cbn; tauto.
    - cbn. tauto.
    - destruct (MemStorage.createBusinessNews now now' data st). cbn. tauto.
    - unfold Routes.delete_news. destruct id as [id|]; [|cbn; tauto].
      destruct (MemStorage.deleteBusinessNews id st) as [[] st']; cbn; tauto.
    - destruct (MemStorage.deleteExpiredNews now st). cbn. tauto.
    - cbn. tauto. }
  destruct isAuthenticated.
  - split; [discriminate|].
    split; [|discriminate]. intros H401. rewrite H401 in Hsigned.
    cbn in Hsigned. intuition discriminate.
  - split; [reflexivity|]. now split.
Qed.
